(** * RecipeTask: normalizer, validator and insight engine

    A shallow embedding of the three core scripts of the repository,

    - [firestore_etl_direct.py]   (module [Etl]):       [transform_and_normalize]
    - [normalized_output/data_validator.py] (module [Validator]):
                                                       [validate_data], [run_validator]
    - [analytics_script.py]       (module [Insights]):  the insight computations
                                                       of [generate_insights]

    together with the properties of the specification that are checked
    against them.  Python exceptions are modelled by the [result] monad,
    dictionaries by [gmap string _], lists by [list], the floats of
    numpy by the kernel's binary64 floats. *)

From Stdlib Require Import ZArith QArith Lia.
From Stdlib Require Import Structures.OrderedTypeEx.
From Stdlib Require Import Uint63 PrimFloat.
From stdpp Require Import base option list strings gmap functions pretty sorting.

Local Set Warnings "-register-all".

Local Open Scope string_scope.
Local Open Scope list_scope.
Local Open Scope Z_scope.

(** ** Python exceptions and the error monad *)

Inductive exn : Type :=
| KeyError (key : string)
| TypeError
| AttributeError
| ZeroDivisionError.

Inductive result (A : Type) : Type :=
| Ok (a : A)
| Raise (e : exn).
Arguments Ok {A} a.
Arguments Raise {A} e.

#[global] Instance result_ret : MRet result := fun _ a => Ok a.
#[global] Instance result_bind : MBind result := fun _ _ f m =>
  match m with
  | Ok a => f a
  | Raise e => Raise e
  end.

(** [for x in xs: st = body st x], stopping at the first exception. *)
Fixpoint foldM {S A : Type} (body : S → A → result S) (st : S) (xs : list A)
  : result S :=
  match xs with
  | [] => Ok st
  | x :: xs' => st' ← body st x; foldM body st' xs'
  end.

(** ** The validator: [normalized_output/data_validator.py] *)

Module Validator.

(** A cell of a DataFrame row.  [CNone] is Python's [None] in an object
    column, [CNaN] the float NaN that pandas uses for a missing value,
    [CInt] an integer, [CFloat] a finite float (every finite float is a
    rational number, and the validator only compares cells with integer
    literals, which is exact), [CStr] a string. *)
Inductive cell : Type :=
| CNone
| CNaN
| CInt (z : Z)
| CFloat (q : Q)
| CStr (s : string).

(** A row maps column names to cells; a DataFrame is the list of its
    rows in index order.  [row[field]] on a column that the frame does
    not have raises [KeyError]. *)
Abbreviation Row := (gmap string cell).
Abbreviation DataFrame := (list (gmap string cell)).

Definition getitem (row : Row) (field : string) : result cell :=
  match row !! field with
  | Some c => Ok c
  | None => Raise (KeyError field)
  end.

(** [pd.isna(c)] *)
Definition isna (c : cell) : bool :=
  match c with
  | CNone | CNaN => true
  | _ => false
  end.

(** [c is not None] *)
Definition is_not_None (c : cell) : bool :=
  match c with
  | CNone => false
  | _ => true
  end.

(** [c < n] and [c > n] for an integer literal [n].  Comparing NaN is
    [False]; comparing [None] or a string with a number raises
    [TypeError]. *)
Definition cell_lt (c : cell) (n : Z) : result bool :=
  match c with
  | CInt z => Ok (z <? n)
  | CFloat q => Ok (negb (Qle_bool (inject_Z n) q))
  | CNaN => Ok false
  | CNone | CStr _ => Raise TypeError
  end.

Definition cell_gt (c : cell) (n : Z) : result bool :=
  match c with
  | CInt z => Ok (n <? z)
  | CFloat q => Ok (negb (Qle_bool q (inject_Z n)))
  | CNaN => Ok false
  | CNone | CStr _ => Raise TypeError
  end.

(** [c == s] and [c in {s1, ...}] for string literals. *)
Definition cell_eq_str (c : cell) (s : string) : bool :=
  match c with
  | CStr s' => bool_decide (s' = s)
  | _ => false
  end.

Definition cell_in (c : cell) (values : list string) : bool :=
  match c with
  | CStr s => bool_decide (s ∈ values)
  | _ => false
  end.

Definition VALID_DIFFICULTIES : list string := ["Easy"; "Medium"; "Hard"].
Definition VALID_INTERACTION_TYPES : list string := ["VIEW"; "LIKE"; "COOK_ATTEMPT"].

(** The reasons of the report.  Each constructor stands for one
    f-string of the source and keeps the interpolated values as they
    are instead of their printed form; [reason_text] is the literal
    text of the f-string up to its first interpolation. *)
Inductive reason : Type :=
| MissingRequired (field : string)
| FieldMustBePositive (field : string) (found : cell)
| InvalidDifficulty (found : cell)
| QuantityMustBePositive (found : cell)
| StepNumberMustBePositive (found : cell)
| InvalidInteractionType (found : cell)
| CookAttemptRating
| ShouldNotHaveRating (interaction_type : cell).

Definition reason_text (r : reason) : string :=
  match r with
  | MissingRequired _ => "Missing required field: "
  | FieldMustBePositive _ _ => "Field "
  | InvalidDifficulty _ => "Invalid difficulty value: "
  | QuantityMustBePositive _ => "Quantity must be positive, found: "
  | StepNumberMustBePositive _ => "Step number must be positive, found: "
  | InvalidInteractionType _ => "Invalid interaction type: "
  | CookAttemptRating => "Cook attempt must have a rating between 1 and 5."
  | ShouldNotHaveRating _ => "Interaction type "
  end.

Record entry : Type := Entry {
  id : cell;
  status : string;
  reasons : list reason
}.

(** The two local variables of a loop body: [is_valid] and [reasons]. *)
Definition vstate : Type := bool * list reason.

(** [reasons.append(r); is_valid = False] *)
Definition flag (r : reason) (st : vstate) : vstate := (false, st.2 ++ [r]).

(** Rule 1 of every record set. *)
Definition required_rule (required_fields : list string) (row : Row)
    (st : vstate) : result vstate :=
  foldM (fun st field =>
           c ← getitem row field;
           mret (if isna c then flag (MissingRequired field) st else st))
        st required_fields.

(** [row[field] is not None and row[field] < n] *)
Definition present_and_lt (row : Row) (field : string) (n : Z) : result bool :=
  c ← getitem row field;
  if is_not_None c then c' ← getitem row field; cell_lt c' n else mret false.

Definition recipe_row (row : Row) : result vstate :=
  let required_fields :=
    ["recipe_id"; "name"; "serves"; "prep_time_minutes"; "cook_time_minutes";
     "difficulty"] in
  st ← required_rule required_fields row (true, []);
  let numeric_fields := ["serves"; "prep_time_minutes"; "cook_time_minutes"] in
  st ← foldM (fun st field =>
                b ← present_and_lt row field 0;
                if b : bool
                then c ← getitem row field;
                     mret (flag (FieldMustBePositive field c) st)
                else mret st)
             st numeric_fields;
  d ← getitem row "difficulty";
  if cell_in d VALID_DIFFICULTIES then mret st
  else d' ← getitem row "difficulty"; mret (flag (InvalidDifficulty d') st).

Definition ingredient_row (row : Row) : result vstate :=
  let required_fields := ["ingredient_pk_id"; "recipe_id"; "name"; "quantity"] in
  st ← required_rule required_fields row (true, []);
  b ← present_and_lt row "quantity" 0;
  if b : bool
  then c ← getitem row "quantity"; mret (flag (QuantityMustBePositive c) st)
  else mret st.

Definition step_row (row : Row) : result vstate :=
  let required_fields := ["step_pk_id"; "recipe_id"; "step_number"; "description"] in
  st ← required_rule required_fields row (true, []);
  b ← present_and_lt row "step_number" 1;
  if b : bool
  then c ← getitem row "step_number"; mret (flag (StepNumberMustBePositive c) st)
  else mret st.

(** [pd.isna(r) or r < 1 or r > 5], with Python's short-circuit [or]. *)
Definition rating_out_of_range (row : Row) : result bool :=
  r ← getitem row "rating";
  if isna r then mret true
  else
    r ← getitem row "rating";
    lo ← cell_lt r 1;
    if lo : bool then mret true
    else r ← getitem row "rating"; cell_gt r 5.

Definition interaction_row (row : Row) : result vstate :=
  let required_fields :=
    ["interaction_id"; "user_id"; "recipe_id"; "interaction_type"; "timestamp"] in
  st ← required_rule required_fields row (true, []);
  t ← getitem row "interaction_type";
  st ← (if cell_in t VALID_INTERACTION_TYPES then mret st
        else t' ← getitem row "interaction_type";
             mret (flag (InvalidInteractionType t') st));
  t ← getitem row "interaction_type";
  if cell_eq_str t "COOK_ATTEMPT" then
    bad ← rating_out_of_range row;
    mret (if bad : bool then flag CookAttemptRating st else st)
  else
    (* the [elif]: its first conjunct holds here, the second is evaluated *)
    t ← getitem row "interaction_type";
    r ← getitem row "rating";
    if negb (isna r)
    then t' ← getitem row "interaction_type";
         mret (flag (ShouldNotHaveRating t') st)
    else mret st.

(** One [for index, row in df.iterrows()] loop: the body computes
    [(is_valid, reasons)] and appends an entry when [not is_valid]. *)
Definition loop_body (body : Row → result vstate) (id_field : string)
    (validation_report : list entry) (row : Row) : result (list entry) :=
  st ← body row;
  if fst (st : vstate) then mret validation_report
  else i ← getitem row id_field;
       mret (validation_report ++ [Entry i "INVALID" (snd st)]).

Definition validation_loop (body : Row → result vstate) (id_field : string)
    (df : DataFrame) : result (list entry) :=
  foldM (loop_body body id_field) [] df.

Definition len {A : Type} (l : list A) : Z := Z.of_nat (length l).

Definition validate_data (file_key : string) (df : DataFrame)
  : result (Z * Z * Z * list entry) :=
  validation_report ←
    (if bool_decide (file_key = "recipe") then
       validation_loop recipe_row "recipe_id" df
     else if bool_decide (file_key = "ingredients") then
       validation_loop ingredient_row "ingredient_pk_id" df
     else if bool_decide (file_key = "steps") then
       validation_loop step_row "step_pk_id" df
     else if bool_decide (file_key = "interactions") then
       validation_loop interaction_row "interaction_id" df
     else mret []);
  let total_records := len df in
  let invalid_records := len validation_report in
  let valid_records := total_records - invalid_records in
  mret (total_records, valid_records, invalid_records, validation_report).

(** [run_validator], for one input file whose CSV has been loaded into
    [df]: the rating column, when the frame has one, goes through
    [fillna(-1)] (the column of a CSV with missing ratings is a float
    column, so the fill value is the float -1.0); any exception is
    caught and reported for that file. *)
Definition fillna_rating (row : Row) : Row :=
  match row !! "rating" with
  | Some c => if isna c then <["rating" := CFloat (inject_Z (-1))]> row else row
  | None => row
  end.

Inductive file_outcome : Type :=
| Validated (total valid invalid : Z) (report : list entry)
| ErrorProcessing (e : exn).

Definition run_validator_file (file_key : string) (df : DataFrame) : file_outcome :=
  match validate_data file_key (fillna_rating <$> df) with
  | Ok (total, valid, invalid, report) => Validated total valid invalid report
  | Raise e => ErrorProcessing e
  end.

(** *** The rule table of the specification

    Each rule is evaluated on the row alone and returns its own
    failures; [violations] collects the failures of all the rules of a
    record set, in the order of the table. *)
Definition rule : Type := Row → result (list reason).

Definition missing (field : string) : rule := λ row,
  c ← getitem row field;
  mret (if isna c then [MissingRequired field] else []).

Definition negative (field : string) : rule := λ row,
  b ← present_and_lt row field 0;
  if b : bool then c ← getitem row field; mret [FieldMustBePositive field c]
  else mret [].

Definition bad_difficulty : rule := λ row,
  d ← getitem row "difficulty";
  mret (if cell_in d VALID_DIFFICULTIES then [] else [InvalidDifficulty d]).

Definition negative_quantity : rule := λ row,
  b ← present_and_lt row "quantity" 0;
  if b : bool then c ← getitem row "quantity"; mret [QuantityMustBePositive c]
  else mret [].

Definition bad_step_number : rule := λ row,
  b ← present_and_lt row "step_number" 1;
  if b : bool then c ← getitem row "step_number"; mret [StepNumberMustBePositive c]
  else mret [].

Definition bad_interaction_type : rule := λ row,
  t ← getitem row "interaction_type";
  mret (if cell_in t VALID_INTERACTION_TYPES then [] else [InvalidInteractionType t]).

Definition rating_consistency : rule := λ row,
  t ← getitem row "interaction_type";
  if cell_eq_str t "COOK_ATTEMPT" then
    bad ← rating_out_of_range row;
    mret (if bad : bool then [CookAttemptRating] else [])
  else
    r ← getitem row "rating";
    mret (if isna r then [] else [ShouldNotHaveRating t]).

Definition rules (file_key : string) : list rule :=
  if bool_decide (file_key = "recipe") then
    (missing <$> ["recipe_id"; "name"; "serves"; "prep_time_minutes";
                  "cook_time_minutes"; "difficulty"])
    ++ (negative <$> ["serves"; "prep_time_minutes"; "cook_time_minutes"])
    ++ [bad_difficulty]
  else if bool_decide (file_key = "ingredients") then
    (missing <$> ["ingredient_pk_id"; "recipe_id"; "name"; "quantity"])
    ++ [negative_quantity]
  else if bool_decide (file_key = "steps") then
    (missing <$> ["step_pk_id"; "recipe_id"; "step_number"; "description"])
    ++ [bad_step_number]
  else if bool_decide (file_key = "interactions") then
    (missing <$> ["interaction_id"; "user_id"; "recipe_id"; "interaction_type";
                  "timestamp"])
    ++ [bad_interaction_type; rating_consistency]
  else [].

Fixpoint collect (rs : list rule) (row : Row) : result (list reason) :=
  match rs with
  | [] => mret []
  | r :: rest => a ← r row; b ← collect rest row; mret (a ++ b)
  end.

Definition violations (file_key : string) (row : Row) : result (list reason) :=
  collect (rules file_key) row.

(** The column that identifies a record in the report. *)
Definition id_field (file_key : string) : string :=
  if bool_decide (file_key = "recipe") then "recipe_id"
  else if bool_decide (file_key = "ingredients") then "ingredient_pk_id"
  else if bool_decide (file_key = "steps") then "step_pk_id"
  else "interaction_id".

(** [reports file_key df report]: [report] has one entry for each row
    of [df] with at least one violation, in the order of the rows, and
    the entry lists all the violations of the row. *)
Inductive reports (file_key : string) : DataFrame → list entry → Prop :=
| reports_nil : reports file_key [] []
| reports_valid row df report :
    violations file_key row = Ok [] →
    reports file_key df report →
    reports file_key (row :: df) report
| reports_invalid row df report rs i :
    violations file_key row = Ok rs →
    rs ≠ [] →
    row !! id_field file_key = Some i →
    reports file_key df report →
    reports file_key (row :: df) (Entry i "INVALID" rs :: report).

(** The state of a loop body after the failures [rs]. *)
Definition st_of (rs : list reason) : vstate :=
  (match rs with [] => true | _ => false end, rs).

(** An interaction row as the specification's examples give it. *)
Definition interaction_example (interaction_type : string) (rating : cell) : Row :=
  {[ "interaction_id" := CStr "I1"; "user_id" := CStr "U1";
     "recipe_id" := CStr "R1"; "interaction_type" := CStr interaction_type;
     "rating" := rating; "timestamp" := CStr "2024-01-01T10:00:00" ]}.

(** *** Frames on which every rule can be evaluated

    A row is well shaped for a record set when it has the columns that
    the rules of the set read and the cells that are compared with a
    number are not strings. *)
Definition not_str (c : cell) : bool :=
  match c with
  | CStr _ => false
  | _ => true
  end.

Definition has_columns (fields : list string) (row : Row) : Prop :=
  Forall (λ field, is_Some (row !! field)) fields.

Definition numeric_ok (row : Row) (field : string) : Prop :=
  match row !! field with
  | Some c => not_str c = true
  | None => False
  end.

Definition rating_ok (row : Row) : Prop :=
  match row !! "interaction_type", row !! "rating" with
  | Some t, Some r => cell_eq_str t "COOK_ATTEMPT" = true → not_str r = true
  | _, _ => False
  end.

Definition well_shaped (file_key : string) (row : Row) : Prop :=
  if bool_decide (file_key = "recipe") then
    has_columns ["recipe_id"; "name"; "difficulty"] row
    ∧ numeric_ok row "serves" ∧ numeric_ok row "prep_time_minutes"
    ∧ numeric_ok row "cook_time_minutes"
  else if bool_decide (file_key = "ingredients") then
    has_columns ["ingredient_pk_id"; "recipe_id"; "name"] row
    ∧ numeric_ok row "quantity"
  else if bool_decide (file_key = "steps") then
    has_columns ["step_pk_id"; "recipe_id"; "description"] row
    ∧ numeric_ok row "step_number"
  else if bool_decide (file_key = "interactions") then
    has_columns ["interaction_id"; "user_id"; "recipe_id"; "timestamp"] row
    ∧ rating_ok row
  else True.

(** A rating between 1 and 5. *)
Definition rating_in_range (r : cell) : Prop :=
  match r with
  | CInt z => 1 ≤ z ≤ 5
  | CFloat q => (1 <= q)%Q ∧ (q <= 5)%Q
  | _ => False
  end.

(** A recipe row, a step row and an ingredient row for examples. *)
Definition recipe_example (serves : cell) (difficulty : cell) : Row :=
  {[ "recipe_id" := CStr "R1"; "name" := CStr "Rice"; "serves" := serves;
     "prep_time_minutes" := CInt 10; "cook_time_minutes" := CInt 20;
     "difficulty" := difficulty ]}.

Definition step_example (step_number : cell) : Row :=
  {[ "step_pk_id" := CStr "S1"; "recipe_id" := CStr "R1";
     "step_number" := step_number; "description" := CStr "Boil." ]}.

End Validator.

(** ** The normalizer: [firestore_etl_direct.py] *)

Module Etl.

(** Python values as the documents of the three collections hold them.
    [VTimestamp iso] is a timestamp object (a [datetime] or a Firestore
    timestamp), given by the string its [isoformat()] returns; [VFloat]
    is a finite float. *)
Inductive value : Type :=
| VNone
| VBool (b : bool)
| VInt (z : Z)
| VFloat (q : Q)
| VStr (s : string)
| VTimestamp (iso : string)
| VList (items : list value)
| VDict (d : gmap string value).

(** [bool(v)], as [if v] and [not v] compute it. *)
Definition truthy (v : value) : bool :=
  match v with
  | VNone => false
  | VBool b => b
  | VInt z => negb (z =? 0)
  | VFloat q => negb (Qeq_bool q 0)
  | VStr s => negb (bool_decide (s = ""))
  | VTimestamp _ => true
  | VList items => negb (bool_decide (length items = 0%nat))
  | VDict d => negb (bool_decide (size d = 0%nat))
  end.

(** [v.get(key, default)]: only a dictionary has the method. *)
Definition py_get (v : value) (key : string) (dflt : value) : result value :=
  match v with
  | VDict d => Ok (default dflt (d !! key))
  | _ => Raise AttributeError
  end.

(** [v[key]] *)
Definition py_getitem (v : value) (key : string) : result value :=
  match v with
  | VDict d =>
      match d !! key with
      | Some x => Ok x
      | None => Raise (KeyError key)
      end
  | _ => Raise TypeError
  end.

(** [v.isoformat()] *)
Definition isoformat (v : value) : result value :=
  match v with
  | VTimestamp iso => Ok (VStr iso)
  | _ => Raise AttributeError
  end.

(** The items that [for x in v] visits: the elements of a list, the
    characters of a string, the keys of a dictionary; the other values
    are not iterable. *)
Definition py_iter (v : value) : result (list value) :=
  match v with
  | VList items => Ok items
  | VStr s => Ok ((λ c, VStr (String c "")) <$> String.list_ascii_of_string s)
  | VDict d => Ok (VStr <$> (map_to_list d).*1)
  | _ => Raise TypeError
  end.

(** The local lists of [transform_and_normalize] while it loops over the
    recipe documents, and [drawn], the number of calls of [uuid.uuid4]
    made so far in the call.  A call is given the sequence [uuid4] of
    the identifiers that the generator returns to it: its [k]-th draw
    returns [uuid4 k], already converted by [str].  Another call draws
    from another sequence. *)
Record acc : Type := Acc {
  normalized_recipes : list (gmap string value);
  normalized_ingredients : list (gmap string value);
  normalized_steps : list (gmap string value);
  drawn : nat
}.

Definition ingredient_body (uuid4 : nat → string) (recipe_id : value)
    (a : acc) (ingredient : value) : result acc :=
  let pk := VStr (uuid4 (drawn a)) in
  name ← py_get ingredient "name" VNone;
  quantity ← py_get ingredient "quantity" VNone;
  unit ← py_get ingredient "unit" VNone;
  mret (Acc (normalized_recipes a)
            (normalized_ingredients a ++
               [ {[ "ingredient_pk_id" := pk; "recipe_id" := recipe_id;
                    "name" := name; "quantity" := quantity; "unit" := unit ]} ])
            (normalized_steps a)
            (S (drawn a))).

Definition step_body (uuid4 : nat → string) (recipe_id : value)
    (a : acc) (step : value) : result acc :=
  let pk := VStr (uuid4 (drawn a)) in
  step_number ← py_get step "step_number" VNone;
  description ← py_get step "description" VNone;
  mret (Acc (normalized_recipes a)
            (normalized_ingredients a)
            (normalized_steps a ++
               [ {[ "step_pk_id" := pk; "recipe_id" := recipe_id;
                    "step_number" := step_number; "description" := description ]} ])
            (S (drawn a))).

(** The body of [for recipe_doc in recipes_data].  The message printed
    for a skipped document is not part of the model. *)
Definition recipe_body (uuid4 : nat → string) (a : acc) (recipe_doc : value)
  : result acc :=
  recipe_id ← py_get recipe_doc "recipe_id" VNone;
  if negb (truthy recipe_id) then mret a
  else
    name ← py_get recipe_doc "name" VNone;
    serves ← py_get recipe_doc "serves" VNone;
    prep_time_minutes ← py_get recipe_doc "prep_time_minutes" VNone;
    cook_time_minutes ← py_get recipe_doc "cook_time_minutes" VNone;
    difficulty ← py_get recipe_doc "difficulty" VNone;
    created ← py_get recipe_doc "created_at" VNone;
    created_at ← (if truthy created
                  then c ← py_get recipe_doc "created_at" VNone; isoformat c
                  else mret VNone);
    let a := Acc (normalized_recipes a ++
                    [ {[ "recipe_id" := recipe_id; "name" := name;
                         "serves" := serves;
                         "prep_time_minutes" := prep_time_minutes;
                         "cook_time_minutes" := cook_time_minutes;
                         "difficulty" := difficulty;
                         "created_at" := created_at ]} ])
                 (normalized_ingredients a) (normalized_steps a) (drawn a) in
    ingredients ← py_get recipe_doc "ingredients" (VList []);
    ingredients ← py_iter ingredients;
    a ← foldM (ingredient_body uuid4 recipe_id) a ingredients;
    steps ← py_get recipe_doc "steps" (VList []);
    steps ← py_iter steps;
    foldM (step_body uuid4 recipe_id) a steps.

Definition normalize_recipes (uuid4 : nat → string) (recipes_data : list value)
  : result acc :=
  foldM (recipe_body uuid4) (Acc [] [] [] 0%nat) recipes_data.

(** The interaction documents are mutated in place, so they are objects
    of a store: [interactions_data] is the list of their references and
    [σ l] is the object that the reference [l] points to.  The recipe
    documents are only read, and are passed by value. *)
Abbreviation store := (nat → value).

(** [σ[l][key] = v] *)
Definition py_setitem (σ : store) (l : nat) (key : string) (v : value)
  : result store :=
  match σ l with
  | VDict d => Ok (<[l := VDict (<[key := v]> d)]> σ)
  | _ => Raise TypeError
  end.

Definition interaction_body (σ : store) (interaction : nat) : result store :=
  ts ← py_get (σ interaction) "timestamp" VNone;
  if truthy ts then
    ts ← py_getitem (σ interaction) "timestamp";
    iso ← isoformat ts;
    py_setitem σ interaction "timestamp" iso
  else mret σ.

Definition process_interactions (interactions_data : list nat) (σ : store)
  : result store :=
  foldM interaction_body σ interactions_data.

(** The four record sets; a DataFrame is the list of the records it is
    built from. *)
Record frames : Type := Frames {
  recipe_df : list (gmap string value);
  ingredients_df : list (gmap string value);
  steps_df : list (gmap string value);
  interactions_df : list value
}.

(** [transform_and_normalize] returns the four frames; the store after
    the call is returned with them. *)
Definition transform_and_normalize (uuid4 : nat → string)
    (recipes_data : list value) (interactions_data : list nat) (σ : store)
  : result (frames * store) :=
  a ← normalize_recipes uuid4 recipes_data;
  σ' ← process_interactions interactions_data σ;
  mret (Frames (normalized_recipes a) (normalized_ingredients a)
               (normalized_steps a) (σ' <$> interactions_data),
        σ').

(** *** Well-formed input

    The documents on which no step of the run raises: a recipe document
    is a dictionary and, when it is retained, its [created_at] can be
    converted and its embedded lists are lists of dictionaries; an
    interaction document is a dictionary whose [timestamp] can be
    converted, and no document is listed twice. *)
Definition is_dict (v : value) : Prop :=
  match v with
  | VDict _ => True
  | _ => False
  end.

Definition convertible (field : option value) : Prop :=
  match field with
  | None => True
  | Some v => truthy v = false ∨ ∃ iso, v = VTimestamp iso
  end.

Definition list_or_absent (field : option value) : Prop :=
  match field with
  | None | Some (VList _) => True
  | _ => False
  end.

(** The entries of the embedded list under [key]. *)
Definition embedded (d : gmap string value) (key : string) : list value :=
  match d !! key with
  | Some (VList items) => items
  | _ => []
  end.

Definition retained (d : gmap string value) : Prop :=
  truthy (default VNone (d !! "recipe_id")) = true.

Definition missing_or_empty_id (d : gmap string value) : Prop :=
  d !! "recipe_id" = None ∨ d !! "recipe_id" = Some VNone
  ∨ d !! "recipe_id" = Some (VStr "").

Definition wf_recipe (doc : value) : Prop :=
  match doc with
  | VDict d =>
      retained d →
      convertible (d !! "created_at")
      ∧ list_or_absent (d !! "ingredients")
      ∧ Forall is_dict (embedded d "ingredients")
      ∧ list_or_absent (d !! "steps")
      ∧ Forall is_dict (embedded d "steps")
  | _ => False
  end.

Definition wf_interactions (interactions_data : list nat) (σ : store) : Prop :=
  NoDup interactions_data
  ∧ ∀ l, l ∈ interactions_data →
         ∃ d, σ l = VDict d ∧ convertible (d !! "timestamp").

(** The surrogate keys of the rows of a run. *)
Definition pk_ingredient (row : gmap string value) : option value :=
  row !! "ingredient_pk_id".
Definition pk_step (row : gmap string value) : option value :=
  row !! "step_pk_id".

Definition acc_keys (a : acc) : list (option value) :=
  (pk_ingredient <$> normalized_ingredients a) ++ (pk_step <$> normalized_steps a).

Definition surrogate_keys (out : frames) : list (option value) :=
  (pk_ingredient <$> ingredients_df out) ++ (pk_step <$> steps_df out).

(** The key that the [k]-th call of the generator gives to a row. *)
Definition fresh_key (uuid4 : nat → string) (k : nat) : option value :=
  Some (VStr (uuid4 k)).

(** Every key handed out so far belongs to one row, and every row has
    one of them. *)
Definition keys_inv (uuid4 : nat → string) (a : acc) : Prop :=
  acc_keys a ≡ₚ fresh_key uuid4 <$> seq 0 (drawn a).

(** An example of a generator without collisions, and example
    documents. *)
Definition uuid4_example (k : nat) : string := pretty k.

Definition interaction_doc : gmap string value :=
  {[ "interaction_id" := VStr "I1"; "user_id" := VStr "U1";
     "recipe_id" := VStr "R1"; "interaction_type" := VStr "VIEW";
     "timestamp" := VTimestamp "2024-01-01T10:00:00" ]}.

Definition store_example : store := <[0%nat := VDict interaction_doc]> (λ _, VNone).

Definition recipe_doc_example : gmap string value :=
  {[ "recipe_id" := VStr "R1"; "name" := VStr "Rice";
     "ingredients" := VList [VDict {[ "name" := VStr "Rice" ]};
                             VDict {[ "name" := VStr "Salt" ]}];
     "steps" := VList [VDict {[ "step_number" := VInt 1 ]}] ]}.

Definition nameless_doc_example : gmap string value :=
  {[ "name" := VStr "Soup";
     "ingredients" := VList [VDict {[ "name" := VStr "Water" ]}] ]}.

(** *** The shape of the output and the pipeline around the normalizer *)

(** The columns of the three record sets built from the recipes. *)
Definition recipe_columns : gset string :=
  {[ "recipe_id"; "name"; "serves"; "prep_time_minutes"; "cook_time_minutes";
     "difficulty"; "created_at" ]}.
Definition ingredient_columns : gset string :=
  {[ "ingredient_pk_id"; "recipe_id"; "name"; "quantity"; "unit" ]}.
Definition step_columns : gset string :=
  {[ "step_pk_id"; "recipe_id"; "step_number"; "description" ]}.

Definition fk (row : gmap string value) : option value := row !! "recipe_id".

(** The recipe ids of the documents that are retained, in order. *)
Definition retained_id (doc : value) : option value :=
  match doc with
  | VDict d =>
      if truthy (default VNone (d !! "recipe_id"))
      then Some (default VNone (d !! "recipe_id"))
      else None
  | _ => None
  end.

Definition retained_ids (recipes_data : list value) : list value :=
  omap retained_id recipes_data.

(** An interaction document after the loop over the interactions: its
    timestamp object, when it has one, is replaced by the ISO string. *)
Definition canonical (v : value) : value :=
  match v with
  | VDict d =>
      match d !! "timestamp" with
      | Some (VTimestamp iso) => VDict (<["timestamp" := VStr iso]> d)
      | _ => v
      end
  | _ => v
  end.

(** The document holds a timestamp object whose ISO string is not empty. *)
Definition has_timestamp (v : value) : bool :=
  match v with
  | VDict d =>
      match d !! "timestamp" with
      | Some (VTimestamp iso) => negb (bool_decide (iso = ""))
      | _ => false
      end
  | _ => false
  end.

(** [fetch_collection_data]: the stream of a collection gives the id
    and the dictionary of each document; the id is stored in the
    dictionary under ['doc_id']. *)
Definition fetch_collection_data (stream : list (string * gmap string value))
  : list (gmap string value) :=
  (λ doc, <["doc_id" := VStr doc.1]> doc.2) <$> stream.

(** The store that holds the fetched documents: the [l]-th document of
    the list is the object at reference [l]. *)
Definition alloc (docs : list (gmap string value)) : store :=
  λ l, from_option VDict VNone (docs !! l).

(** [run_pipeline], up to the frames that it hands to [export_to_csv];
    [None] is the run that stops because a core collection is empty.
    Writing the files is not part of the model. *)
Definition run_pipeline (uuid4 : nat → string)
    (recipes users interactions : list (string * gmap string value))
  : result (option frames) :=
  let recipes_data := fetch_collection_data recipes in
  let users_data := fetch_collection_data users in
  let interactions_data := fetch_collection_data interactions in
  match recipes_data, interactions_data with
  | [], _ | _, [] => mret None
  | _, _ =>
      r ← transform_and_normalize uuid4 (VDict <$> recipes_data)
            (seq 0 (length interactions_data)) (alloc interactions_data);
      mret (Some r.1)
  end.

(** A row of the recipe, ingredient and step sets that belongs to the
    recipe [recipe_id]. *)
Definition recipe_row_ok (recipe_id : value) (row : gmap string value) : Prop :=
  dom row = recipe_columns ∧ fk row = Some recipe_id.
Definition ingredient_row_ok (recipe_id : value) (row : gmap string value) : Prop :=
  dom row = ingredient_columns ∧ fk row = Some recipe_id.
Definition step_row_ok (recipe_id : value) (row : gmap string value) : Prop :=
  dom row = step_columns ∧ fk row = Some recipe_id.

(** What the lists hold after the documents [docs]: one recipe row per
    retained document, in order, and ingredient and step rows that have
    their columns and the id of one of the recipe rows. *)
Definition rows_inv (docs : list value) (a : acc) : Prop :=
  fk <$> normalized_recipes a = Some <$> retained_ids docs
  ∧ Forall (λ row, dom row = recipe_columns) (normalized_recipes a)
  ∧ Forall (λ row, dom row = ingredient_columns
                   ∧ fk row ∈ fk <$> normalized_recipes a)
           (normalized_ingredients a)
  ∧ Forall (λ row, dom row = step_columns
                   ∧ fk row ∈ fk <$> normalized_recipes a)
           (normalized_steps a).

(** The value that [interaction.get('timestamp')] gives. *)
Definition timestamp_of (v : value) : value :=
  match v with
  | VDict d => default VNone (d !! "timestamp")
  | _ => VNone
  end.

(** Example streams of two collections. *)
Definition recipes_stream_example : list (string * gmap string value) :=
  [("R1", recipe_doc_example)].
Definition interactions_stream_example : list (string * gmap string value) :=
  [("I1", interaction_doc)].

(** *** Two calls

    Each call of [transform_and_normalize] draws its own identifiers
    from [uuid.uuid4]: a second call is given another sequence.  Two
    calls on the same documents can then only agree up to the surrogate
    keys.  [without_keys] removes them from the frames. *)
Definition without_keys (out : frames) : frames :=
  Frames (recipe_df out)
         (delete "ingredient_pk_id" <$> ingredients_df out)
         (delete "step_pk_id" <$> steps_df out)
         (interactions_df out).

Definition same_rows (a a' : acc) : Prop :=
  normalized_recipes a = normalized_recipes a'
  ∧ delete "ingredient_pk_id" <$> normalized_ingredients a
    = delete "ingredient_pk_id" <$> normalized_ingredients a'
  ∧ delete "step_pk_id" <$> normalized_steps a
    = delete "step_pk_id" <$> normalized_steps a'.

(** Both runs raise the same exception, or both return, with related
    results. *)
Definition same_outcome {A : Type} (R : A → A → Prop) (m m' : result A) : Prop :=
  match m, m' with
  | Ok a, Ok a' => R a a'
  | Raise e, Raise e' => e = e'
  | _, _ => False
  end.

(** An interaction document without a timestamp. *)
Definition plain_store_example : store :=
  <[0%nat := VDict {[ "interaction_id" := VStr "I1"; "user_id" := VStr "U1" ]}]>
    (λ _, VNone).

End Etl.

(** ** The insight engine: [analytics_script.py] *)

Module Insights.

(** The columns that insights 5, 8, 10 and 11 read.  The identifier and
    name columns hold strings; [None] is a missing value (NaN).
    [recipe] is a row of [recipes_df[['recipe_id', 'name']]]. *)
Record recipe : Type := Recipe {
  rcp_recipe_id : option string;
  rcp_name : option string
}.

Record interaction : Type := Interaction {
  int_user_id : option string;
  int_recipe_id : option string;
  int_interaction_type : option string
}.

Record step : Type := Step {
  stp_recipe_id : option string
}.

(** A float result of insight 10: NaN or a finite value.  The finite
    values are kept as exact rationals. *)
Inductive pyfloat : Type :=
| NaN
| Finite (q : Q).

(** The floats of numpy and pandas are the kernel's binary64 floats.
    An integer is converted exactly when it is below 2^53 in magnitude,
    which the counts and sums of a frame are. *)
Definition float_of_Z (z : Z) : float :=
  if z <? 0 then PrimFloat.opp (PrimFloat.of_uint63 (Uint63.of_Z (- z)))
  else PrimFloat.of_uint63 (Uint63.of_Z z).

(** [numpy.rint]: the nearest integer, a half going to the even
    neighbour.  Below 2^52 in magnitude, adding and subtracting 2^52
    rounds so (the sum is rounded to an integer by the addition itself);
    from 2^52 on every float is an integer. *)
Definition rint (x : float) : float :=
  let two52 := float_of_Z (2 ^ 52) in
  if PrimFloat.ltb (PrimFloat.abs x) two52 then
    if PrimFloat.ltb x (float_of_Z 0)
    then PrimFloat.add (PrimFloat.sub x two52) two52
    else PrimFloat.sub (PrimFloat.add x two52) two52
  else x.

(** [x.round(2)] on a numpy float: numpy multiplies by [10 ** 2], takes
    [rint] and divides by [10 ** 2], each in binary64. *)
Definition np_round2 (x : float) : float :=
  PrimFloat.div (rint (PrimFloat.mul x (float_of_Z 100))) (float_of_Z 100).

(** What [Series.mean()] returns: a numpy float, or, for a series
    without values, the plain Python float [nan]. *)
Inductive scalar : Type :=
| PyNaN
| Float64 (x : float).

(** [.round(2)] on the value of [Series.mean()]: a numpy float has the
    method, the Python float has not. *)
Definition round_method (x : scalar) : result float :=
  match x with
  | PyNaN => Raise AttributeError
  | Float64 x => Ok (np_round2 x)
  end.

(** [df[df['interaction_type'] == t]] *)
Definition of_type (t : string) (df : list interaction) : list interaction :=
  filter (λ i, int_interaction_type i = Some t) df.

(** [groupby(key).size()]: one group per distinct non-missing key, the
    groups in ascending key order, each with the number of its rows.
    [bump k groups] counts one more row of key [k]. *)
Fixpoint bump (k : string) (groups : list (string * Z)) : list (string * Z) :=
  match groups with
  | [] => [(k, 1)]
  | (k', n) :: rest =>
      match String.compare k k' with
      | Lt => (k, 1) :: (k', n) :: rest
      | Eq => (k', n + 1) :: rest
      | Gt => (k', n) :: bump k rest
      end
  end.

Definition groupby_size (keys : list (option string)) : list (string * Z) :=
  foldr (λ k groups, match k with Some k => bump k groups | None => groups end)
        [] keys.

(** [pd.merge(left, right, on=key)]: the inner join, in the order of the
    left rows, each with its matching right rows in their order. *)
Definition merge {A B : Type} (key_l : A → option string) (key_r : B → option string)
    (left : list A) (right : list B) : list (A * B) :=
  l ← left; r ← filter (λ r, key_r r = key_l l) right; [(l, r)].

(** [sort_values(by=count, ascending=False)]: descending by [count];
    rows of equal count keep the order they have in the frame. *)
Fixpoint insert_desc {A : Type} (count : A → Z) (x : A) (sorted : list A) : list A :=
  match sorted with
  | [] => [x]
  | y :: rest =>
      if count x <? count y then y :: insert_desc count x rest
      else x :: y :: rest
  end.

Definition sort_values_desc {A : Type} (count : A → Z) (df : list A) : list A :=
  foldr (insert_desc count) [] df.

(** [drop_duplicates(subset=key)]: the first row of each key is kept. *)
Fixpoint drop_duplicates_from {A K : Type} `{EqDecision K} (key : A → K)
    (seen : list K) (df : list A) : list A :=
  match df with
  | [] => []
  | x :: rest =>
      if decide (key x ∈ seen) then drop_duplicates_from key seen rest
      else x :: drop_duplicates_from key (key x :: seen) rest
  end.

Definition drop_duplicates {A K : Type} `{EqDecision K} (key : A → K) (df : list A)
  : list A :=
  drop_duplicates_from key [] df.

(** [set_index(k)[v].to_dict()]: a dictionary in insertion order; a key
    that comes again keeps its place and takes the later value. *)
Fixpoint dict_set {K V : Type} `{EqDecision K} (k : K) (v : V) (d : list (K * V))
  : list (K * V) :=
  match d with
  | [] => [(k, v)]
  | (k', v') :: rest =>
      if decide (k = k') then (k', v) :: rest else (k', v') :: dict_set k v rest
  end.

Definition to_dict {K V : Type} `{EqDecision K} (items : list (K * V)) : list (K * V) :=
  foldl (λ d kv, dict_set kv.1 kv.2 d) [] items.

(** Rounding to the nearest integer, halves to the even neighbour, and
    to two decimals, on exact rationals (insight 10). *)
Definition round_half_even (q : Q) : Z :=
  let n := Qnum q in
  let d := Z.pos (Qden q) in
  let f := n / d in
  let r := n mod d in
  if 2 * r <? d then f
  else if d <? 2 * r then f + 1
  else if Z.even f then f else f + 1.

Definition round2 (x : pyfloat) : pyfloat :=
  match x with
  | NaN => NaN
  | Finite q => Finite (inject_Z (round_half_even (q * 100)%Q) / 100)%Q
  end.

Definition sum (xs : list Z) : Z := foldr Z.add 0 xs.

(** [Series.mean()] of an integer series: the float sum over the float
    count, and the Python [nan] for a series without values. *)
Definition mean (xs : list Z) : scalar :=
  match xs with
  | [] => PyNaN
  | _ => Float64 (PrimFloat.div (float_of_Z (sum xs))
                                (float_of_Z (Z.of_nat (length xs))))
  end.

(** Insight 5: the ranked frame [views_ranked] and the dictionary made
    of it. *)
Definition views_per_recipe (interactions_df : list interaction) : list (string * Z) :=
  groupby_size (int_recipe_id <$> of_type "VIEW" interactions_df).

Definition views_ranked (recipes_df : list recipe) (interactions_df : list interaction)
  : list ((string * Z) * recipe) :=
  take 5 (sort_values_desc (λ row, row.1.2)
            (merge (λ g, Some g.1) rcp_recipe_id
                   (views_per_recipe interactions_df) recipes_df)).

Definition insight_5 (recipes_df : list recipe) (interactions_df : list interaction)
  : list (option string * Z) :=
  to_dict ((λ row, (rcp_name row.2, row.1.2)) <$> views_ranked recipes_df interactions_df).

(** Insight 8: [steps_df.groupby('recipe_id').size().mean().round(2)] *)
Definition insight_8 (steps_df : list step) : result float :=
  round_method (mean ((groupby_size (stp_recipe_id <$> steps_df)).*2)).

(** Insight 10 (lines 220-230): [nunique()] counts the distinct
    non-missing values; [/] on two Python integers raises
    [ZeroDivisionError] when the divisor is zero.  The quotient, the
    product by 100 and [round(_, 2)] are taken on exact rationals;
    Python takes them in binary64, which can move the percentage by one
    unit of its last decimal (23 recipes of 160 are 14.37 there and
    14.38 here).  Of the percentage only its range is proved, which is
    the same for both.  Within [generate_insights] these lines are
    reached only after insight 2 has returned. *)
Definition nunique (keys : list (option string)) : Z :=
  Z.of_nat (length (remove_dups (omap id keys))).

Definition py_truediv (a b : Z) : result Q :=
  if b =? 0 then Raise ZeroDivisionError else Ok (inject_Z a / inject_Z b)%Q.

Definition insight_10 (recipes_df : list recipe) (interactions_df : list interaction)
  : result (pyfloat * Z * Z) :=
  let total_recipes := Z.of_nat (length recipes_df) in
  let attempted_recipes := nunique (int_recipe_id <$> of_type "COOK_ATTEMPT" interactions_df) in
  ratio ← py_truediv attempted_recipes total_recipes;
  let attempt_percentage := round2 (Finite (ratio * 100)%Q) in
  mret (attempt_percentage, attempted_recipes, total_recipes).

(** Insight 11 *)
(** The columns of [subset=['recipe_id', 'user_id']]. *)
Definition like_key (i : interaction) : option string * option string :=
  (int_recipe_id i, int_user_id i).

Definition unique_likes (interactions_df : list interaction) : list (string * Z) :=
  groupby_size
    (int_recipe_id <$>
       drop_duplicates like_key (of_type "LIKE" interactions_df)).

Definition most_unique_liked (recipes_df : list recipe)
    (interactions_df : list interaction) : list (recipe * (string * Z)) :=
  take 1 (sort_values_desc (λ row, row.2.2)
            (merge rcp_recipe_id (λ g, Some g.1)
                   recipes_df (unique_likes interactions_df))).

Definition insight_11 (recipes_df : list recipe) (interactions_df : list interaction)
  : list (option string * Z) :=
  to_dict ((λ row, (rcp_name row.1, row.2.2)) <$> most_unique_liked recipes_df interactions_df).

(** *** The order of equal counts

    [sort_values(by=..., ascending=False)] is called with the default
    [kind='quicksort'], which is not stable: in which order rows of
    equal count come out is not fixed by pandas.  What is fixed is that
    the result holds the rows of the frame in descending order of the
    count.  [sorts_descending count sort] says so of a function [sort];
    [sort_values_desc] above is one such function.  The insights that
    sort are given here with the sort as a parameter. *)
Definition sorts_descending {A : Type} (count : A → Z) (sort : list A → list A)
  : Prop :=
  ∀ df, sort df ≡ₚ df ∧ StronglySorted (λ a b, count b ≤ count a) (sort df).

Definition views_ranked_by (sort : list ((string * Z) * recipe) → list ((string * Z) * recipe))
    (recipes_df : list recipe) (interactions_df : list interaction)
  : list ((string * Z) * recipe) :=
  take 5 (sort (merge (λ g, Some g.1) rcp_recipe_id
                      (views_per_recipe interactions_df) recipes_df)).

Definition insight_5_by (sort : list ((string * Z) * recipe) → list ((string * Z) * recipe))
    (recipes_df : list recipe) (interactions_df : list interaction)
  : list (option string * Z) :=
  to_dict ((λ row, (rcp_name row.2, row.1.2))
             <$> views_ranked_by sort recipes_df interactions_df).

Definition most_unique_liked_by
    (sort : list (recipe * (string * Z)) → list (recipe * (string * Z)))
    (recipes_df : list recipe) (interactions_df : list interaction)
  : list (recipe * (string * Z)) :=
  take 1 (sort (merge rcp_recipe_id (λ g, Some g.1)
                      recipes_df (unique_likes interactions_df))).

Definition insight_11_by
    (sort : list (recipe * (string * Z)) → list (recipe * (string * Z)))
    (recipes_df : list recipe) (interactions_df : list interaction)
  : list (option string * Z) :=
  to_dict ((λ row, (rcp_name row.1, row.2.2))
             <$> most_unique_liked_by sort recipes_df interactions_df).

(** *** [generate_insights]

    A row of [recipes_df]: the columns of
    [recipes_df[['recipe_id', 'name']]], which insights 5 and 11 merge
    on, and the preparation time that insight 2 averages.  The
    preparation time is taken to be an integer present in every row, as
    the normalizer writes it and the validator requires it. *)
Record recipe_row : Type := RecipeRow {
  rr_key : recipe;
  rr_prep_time_minutes : Z
}.

(** Insight 2: [recipes_df['prep_time_minutes'].mean().round(2)] *)
Definition insight_2 (recipes_df : list recipe_row) : result float :=
  round_method (mean (rr_prep_time_minutes <$> recipes_df)).

(** The results of the insights that are modelled. *)
Record insights : Type := Insights_ {
  avg_prep_time : float;
  top_viewed : list (option string * Z);
  steps_count : float;
  attempt_percentage : pyfloat * Z * Z;
  most_liked : list (option string * Z)
}.

(** [generate_insights], in the order of the source.  Insight 1 (line
    129) comes before insight 2 and is a [value_counts] of a column,
    which raises nothing; insights 3, 4, 6, 7 and 9 lie between the
    modelled ones and are computations on whole columns and groups
    (value counts, a correlation matrix, grouped means rounded as
    Series); they are not modelled.  [steps_df] is the frame that line
    204 reads. *)
Definition generate_insights
    (sort_5 : list ((string * Z) * recipe) → list ((string * Z) * recipe))
    (sort_11 : list (recipe * (string * Z)) → list (recipe * (string * Z)))
    (recipes_df : list recipe_row) (interactions_df : list interaction)
    (steps_df : list step) : result insights :=
  avg_prep_time ← insight_2 recipes_df;
  let top_viewed := insight_5_by sort_5 (rr_key <$> recipes_df) interactions_df in
  steps_count ← insight_8 steps_df;
  attempt_percentage ← insight_10 (rr_key <$> recipes_df) interactions_df;
  let most_liked := insight_11_by sort_11 (rr_key <$> recipes_df) interactions_df in
  mret (Insights_ avg_prep_time top_viewed steps_count attempt_percentage most_liked).

(** *** The specification's reading of the insights *)

(** The number of VIEW rows of a recipe. *)
Definition view_count (rid : string) (interactions_df : list interaction) : Z :=
  Z.of_nat (length (filter (λ i, int_recipe_id i = Some rid)
                           (of_type "VIEW" interactions_df))).

(** Insight 5 as the specification words it: the recipes in the order
    in which the VIEW rows first meet them, ranked by a descending sort
    that keeps that order among equal counts, the first five. *)
Definition first_encountered (interactions_df : list interaction) : list string :=
  remove_dups (omap int_recipe_id (of_type "VIEW" interactions_df)).

Definition insight_5_first_encountered (recipes_df : list recipe)
    (interactions_df : list interaction) : list (option string * Z) :=
  to_dict
    ((λ row, (rcp_name row.2, row.1.2)) <$>
       take 5 (sort_values_desc (λ row, row.1.2)
                 (merge (λ g, Some g.1) rcp_recipe_id
                    ((λ rid, (rid, view_count rid interactions_df)) <$>
                       first_encountered interactions_df)
                    recipes_df))).

(** Insight 8 as the specification words it: all Step rows over the
    distinct recipe ids of the Step set. *)
Definition distinct_recipe_ids (steps_df : list step) : Z :=
  Z.of_nat (length (remove_dups (omap stp_recipe_id steps_df))).

Definition insight_8_all_rows (steps_df : list step) : result float :=
  Ok (np_round2 (PrimFloat.div (float_of_Z (Z.of_nat (length steps_df)))
                               (float_of_Z (distinct_recipe_ids steps_df)))).

Definition rows_with_recipe_id (steps_df : list step) : Z :=
  Z.of_nat (length (omap stp_recipe_id steps_df)).

(** The distinct users who liked a recipe. *)
Definition likers (rid : string) (interactions_df : list interaction)
  : list (option string) :=
  remove_dups
    (int_user_id <$> filter (λ i, int_recipe_id i = Some rid)
                            (of_type "LIKE" interactions_df)).

Definition like_count (rid : string) (interactions_df : list interaction) : Z :=
  Z.of_nat (length (likers rid interactions_df)).

(** *** Auxiliary notions for the proofs *)

(** The order of the group keys, and of Python on strings. *)
Definition slt (a b : string) : Prop := String.compare a b = Lt.
Definition sle (a b : string) : Prop := String.compare a b ≠ Gt.

(** The rows counted under key [k] in a table of groups, and the rows
    of key [k] in a key column. *)
Definition count_in (k : string) (groups : list (string * Z)) : Z :=
  foldr (λ g n, if decide (g.1 = k) then g.2 + n else n) 0 groups.

Definition count_key (k : string) (keys : list (option string)) : Z :=
  Z.of_nat (length (filter (λ x, x = Some k) keys)).

(** Descending by [count], then by [R]. *)
Definition desc_then {A : Type} (count : A → Z) (R : relation A) : relation A :=
  λ a b, count b < count a ∨ (count a = count b ∧ R a b).

(** The specification's examples. *)
Definition recipes_example : list recipe :=
  [Recipe (Some "R1") (Some "Rice"); Recipe (Some "R2") (Some "Curry")].

Definition view (recipe_id : string) : interaction :=
  Interaction (Some "U1") (Some recipe_id) (Some "VIEW").

Definition like (user_id recipe_id : string) : interaction :=
  Interaction (Some user_id) (Some recipe_id) (Some "LIKE").

Definition cook (recipe_id : string) : interaction :=
  Interaction (Some "U1") (Some recipe_id) (Some "COOK_ATTEMPT").

End Insights.

(** * Properties *)

Ltac res_simpl :=
  repeat (progress
            (cbn [foldM mbind mret result_bind result_ret fst snd] in * )).

Lemma foldM_app {S A : Type} (body : S → A → result S) (st : S) (xs ys : list A) :
  foldM body st (xs ++ ys) = (st' ← foldM body st xs; foldM body st' ys).
Proof.
  revert st; induction xs as [|x xs IH]; intros st; [done|].
  rewrite <- app_comm_cons. res_simpl.
  destruct (body st x) as [st'|e]; [apply IH | done].
Qed.

(** ** The validator *)

Module ValidatorFacts.
Import Validator.

Ltac vsimpl :=
  repeat (progress
            (cbn [foldM collect mbind mret result_bind result_ret fst snd] in * )).

Lemma flag_st_of (r : reason) (rs : list reason) :
  flag r (st_of rs) = st_of (rs ++ [r]).
Proof. unfold flag, st_of; simpl. by destruct rs. Qed.

Lemma collect_app (rs1 rs2 : list rule) (row : Row) :
  collect (rs1 ++ rs2) row
  = (a ← collect rs1 row; b ← collect rs2 row; mret (a ++ b)).
Proof.
  induction rs1 as [|r rs1 IH].
  - rewrite app_nil_l. vsimpl. by destruct (collect rs2 row).
  - rewrite <- app_comm_cons. vsimpl.
    destruct (r row) as [a|e]; [|done]. rewrite IH. vsimpl.
    destruct (collect rs1 row) as [a1|e]; [|done]. vsimpl.
    destruct (collect rs2 row) as [a2|e]; [|done]. vsimpl.
    by rewrite app_assoc.
Qed.

Lemma missing_unfold (field : string) (row : Row) :
  missing field row
  = (c ← getitem row field;
     mret (if isna c then [MissingRequired field] else [])).
Proof. reflexivity. Qed.

Lemma negative_unfold (field : string) (row : Row) :
  negative field row
  = (b ← present_and_lt row field 0;
     if b : bool then c ← getitem row field; mret [FieldMustBePositive field c]
     else mret []).
Proof. reflexivity. Qed.

(** The loop over the required fields threads the state exactly as the
    table collects the failures of the [missing] rules. *)
Lemma required_rule_collect (fields : list string) (row : Row) (acc : list reason) :
  required_rule fields row (st_of acc)
  = (rs ← collect (missing <$> fields) row; mret (st_of (acc ++ rs))).
Proof.
  unfold required_rule.
  revert acc; induction fields as [|f fields IH]; intros acc.
  - simpl. vsimpl. by rewrite app_nil_r.
  - rewrite fmap_cons. vsimpl. rewrite missing_unfold. vsimpl.
    destruct (getitem row f) as [c|e]; vsimpl; [|done].
    destruct (isna c); [rewrite flag_st_of|]; rewrite IH;
      destruct (collect (missing <$> fields) row) as [rs|e]; try done; vsimpl.
    by rewrite <- app_assoc.
Qed.

Lemma negative_fold_collect (fields : list string) (row : Row) (acc : list reason) :
  foldM (λ st field,
           b ← present_and_lt row field 0;
           if b : bool
           then c ← getitem row field;
                mret (flag (FieldMustBePositive field c) st)
           else mret st)
        (st_of acc) fields
  = (rs ← collect (negative <$> fields) row; mret (st_of (acc ++ rs))).
Proof.
  revert acc; induction fields as [|f fields IH]; intros acc.
  - simpl. vsimpl. by rewrite app_nil_r.
  - rewrite fmap_cons. vsimpl. rewrite negative_unfold. vsimpl.
    destruct (present_and_lt row f 0) as [[|]|e]; [| |done]; vsimpl.
    + destruct (getitem row f) as [c|e]; [|done]. vsimpl.
      rewrite flag_st_of, IH.
      destruct (collect (negative <$> fields) row) as [rs|e]; [|done]. vsimpl.
      by rewrite <- app_assoc.
    + rewrite IH. by destruct (collect (negative <$> fields) row).
Qed.

Lemma rules_recipe :
  rules "recipe"
  = (missing <$> ["recipe_id"; "name"; "serves"; "prep_time_minutes";
                  "cook_time_minutes"; "difficulty"])
    ++ (negative <$> ["serves"; "prep_time_minutes"; "cook_time_minutes"])
    ++ [bad_difficulty].
Proof. reflexivity. Qed.

Lemma rules_ingredients :
  rules "ingredients"
  = (missing <$> ["ingredient_pk_id"; "recipe_id"; "name"; "quantity"])
    ++ [negative_quantity].
Proof. reflexivity. Qed.

Lemma rules_steps :
  rules "steps"
  = (missing <$> ["step_pk_id"; "recipe_id"; "step_number"; "description"])
    ++ [bad_step_number].
Proof. reflexivity. Qed.

Lemma rules_interactions :
  rules "interactions"
  = (missing <$> ["interaction_id"; "user_id"; "recipe_id"; "interaction_type";
                  "timestamp"])
    ++ [bad_interaction_type; rating_consistency].
Proof. reflexivity. Qed.

Ltac start_row Hrules :=
  unfold violations; rewrite Hrules;
  change (true, @nil reason) with (st_of []);
  rewrite required_rule_collect, collect_app;
  match goal with
  | |- context [collect (missing <$> ?fs) ?row] =>
      destruct (collect (missing <$> fs) row) as [rs1|e]; [|done]
  end;
  cbn [mbind mret result_bind result_ret]; rewrite app_nil_l.

Lemma recipe_row_violations (row : Row) :
  recipe_row row = (rs ← violations "recipe" row; mret (st_of rs)).
Proof.
  unfold recipe_row. start_row rules_recipe.
  cbv zeta. rewrite negative_fold_collect, collect_app.
  destruct (collect (negative <$> _) row) as [rs2|e]; vsimpl; [|done].
  unfold bad_difficulty, getitem.
  destruct (row !! "difficulty") as [d|]; vsimpl; [|done].
  destruct (cell_in d VALID_DIFFICULTIES); vsimpl;
    [|rewrite flag_st_of]; by rewrite ?app_nil_r, <- ?app_assoc.
Qed.

Lemma ingredient_row_violations (row : Row) :
  ingredient_row row = (rs ← violations "ingredients" row; mret (st_of rs)).
Proof.
  unfold ingredient_row. start_row rules_ingredients. vsimpl.
  unfold negative_quantity. vsimpl.
  destruct (present_and_lt row "quantity" 0) as [[|]|e]; vsimpl; [| |done].
  - destruct (getitem row "quantity") as [c|e]; vsimpl; [|done].
    by rewrite flag_st_of.
  - by rewrite app_nil_r.
Qed.

Lemma step_row_violations (row : Row) :
  step_row row = (rs ← violations "steps" row; mret (st_of rs)).
Proof.
  unfold step_row. start_row rules_steps. vsimpl.
  unfold bad_step_number. vsimpl.
  destruct (present_and_lt row "step_number" 1) as [[|]|e]; vsimpl; [| |done].
  - destruct (getitem row "step_number") as [c|e]; vsimpl; [|done].
    by rewrite flag_st_of.
  - by rewrite app_nil_r.
Qed.

Lemma interaction_row_violations (row : Row) :
  interaction_row row = (rs ← violations "interactions" row; mret (st_of rs)).
Proof.
  unfold interaction_row. start_row rules_interactions. vsimpl.
  unfold bad_interaction_type, rating_consistency, getitem.
  destruct (row !! "interaction_type") as [t|]; vsimpl; [|done].
  destruct (cell_in t VALID_INTERACTION_TYPES); vsimpl;
    destruct (cell_eq_str t "COOK_ATTEMPT"); vsimpl;
    try (destruct (rating_out_of_range row) as [[|]|e]; vsimpl);
    try (destruct (row !! "rating") as [r|]; vsimpl; [destruct (isna r); vsimpl|]);
    rewrite ?flag_st_of; simpl; by rewrite ?app_nil_r, <- ?app_assoc.
Qed.

(** A row whose rules could all be evaluated has the identifying
    column: it is the first required field of its record set. *)
Lemma violations_id_field (file_key : string) (row : Row) (rs : list reason) :
  rules file_key ≠ [] →
  violations file_key row = Ok rs →
  is_Some (row !! id_field file_key).
Proof.
  unfold violations, rules, id_field.
  repeat case_bool_decide; try done; intros _;
    rewrite fmap_cons, <- app_comm_cons; vsimpl; rewrite missing_unfold;
    unfold getitem;
    match goal with |- context [row !! ?f] => destruct (row !! f) end;
    vsimpl; by eauto.
Qed.

Section loop.
Variable file_key : string.
Variable body : Row → result vstate.
Hypothesis body_violations :
  ∀ row, body row = (rs ← violations file_key row; mret (st_of rs)).
Hypothesis rules_nonempty : rules file_key ≠ [].

Lemma loop_body_violations (acc : list entry) (row : Row) :
  loop_body body (id_field file_key) acc row
  = (rs ← violations file_key row;
     match rs with
     | [] => Ok acc
     | _ => i ← getitem row (id_field file_key);
            Ok (acc ++ [Entry i "INVALID" rs])
     end).
Proof.
  unfold loop_body. rewrite body_violations.
  destruct (violations file_key row) as [[|r rs]|e]; by vsimpl.
Qed.

Lemma validation_loop_sound (df : DataFrame) (acc report' : list entry) :
  foldM (loop_body body (id_field file_key)) acc df = Ok report' →
  ∃ report, report' = acc ++ report ∧ reports file_key df report.
Proof.
  revert acc; induction df as [|row df IH]; intros acc; vsimpl.
  - intros [= <-]. exists []. split; [by rewrite app_nil_r | constructor].
  - rewrite loop_body_violations.
    destruct (violations file_key row) as [rs|e] eqn:Hrs; vsimpl; [|done].
    destruct rs as [|r rs]; vsimpl.
    + intros (report & -> & Hrep)%IH. exists report. split; [done|].
      by constructor.
    + destruct (violations_id_field _ _ _ rules_nonempty Hrs) as [i Hi].
      unfold getitem. rewrite Hi. vsimpl.
      intros (report & -> & Hrep)%IH.
      exists (Entry i "INVALID" (r :: rs) :: report).
      split; [by rewrite <- app_assoc|]. by econstructor.
Qed.

Lemma validation_loop_complete (df : DataFrame) (report : list entry) :
  reports file_key df report →
  ∀ acc, foldM (loop_body body (id_field file_key)) acc df = Ok (acc ++ report).
Proof.
  induction 1 as [|row df report Hrs _ IH|row df report rs i Hrs Hne Hi _ IH];
    intros acc; vsimpl.
  - by rewrite app_nil_r.
  - rewrite loop_body_violations, Hrs. vsimpl. apply IH.
  - rewrite loop_body_violations, Hrs. vsimpl.
    destruct rs as [|r rs]; [done|].
    unfold getitem. rewrite Hi. vsimpl.
    rewrite IH. by rewrite <- app_assoc.
Qed.
End loop.

Lemma validation_loop_reports (file_key : string) (body : Row → result vstate)
    (df : DataFrame) (report : list entry) :
  (∀ row, body row = (rs ← violations file_key row; mret (st_of rs))) →
  rules file_key ≠ [] →
  validation_loop body (id_field file_key) df = Ok report ↔ reports file_key df report.
Proof.
  intros Hbody Hne. split.
  - intros (report' & -> & H)%(validation_loop_sound file_key body Hbody Hne). done.
  - intros H. apply (validation_loop_complete file_key body Hbody df report H []).
Qed.

(** For a key outside the four record sets the table is empty and no
    row is reported. *)
Lemma reports_no_rules (file_key : string) (df : DataFrame) (report : list entry) :
  rules file_key = [] →
  reports file_key df report ↔ report = [].
Proof.
  intros Hnil. split.
  - induction 1 as [| |row df report rs i Hrs Hne]; try done.
    unfold violations in Hrs. rewrite Hnil in Hrs. by injection Hrs as <-.
  - intros ->. induction df; constructor; try done.
    unfold violations. by rewrite Hnil.
Qed.

Lemma validate_data_loop (file_key : string) (df : DataFrame) (report : list entry) :
  (if bool_decide (file_key = "recipe") then
     validation_loop recipe_row "recipe_id" df
   else if bool_decide (file_key = "ingredients") then
     validation_loop ingredient_row "ingredient_pk_id" df
   else if bool_decide (file_key = "steps") then
     validation_loop step_row "step_pk_id" df
   else if bool_decide (file_key = "interactions") then
     validation_loop interaction_row "interaction_id" df
   else mret []) = Ok report
  ↔ reports file_key df report.
Proof.
  destruct (decide (file_key = "recipe")) as [->|H1].
  { apply (validation_loop_reports "recipe"); [|done].
    apply recipe_row_violations. }
  rewrite (bool_decide_eq_false_2 _ H1).
  destruct (decide (file_key = "ingredients")) as [->|H2].
  { apply (validation_loop_reports "ingredients"); [|done].
    apply ingredient_row_violations. }
  rewrite (bool_decide_eq_false_2 _ H2).
  destruct (decide (file_key = "steps")) as [->|H3].
  { apply (validation_loop_reports "steps"); [|done].
    apply step_row_violations. }
  rewrite (bool_decide_eq_false_2 _ H3).
  destruct (decide (file_key = "interactions")) as [->|H4].
  { apply (validation_loop_reports "interactions"); [|done].
    apply interaction_row_violations. }
  rewrite (bool_decide_eq_false_2 _ H4).
  rewrite reports_no_rules.
  - vsimpl. split; [by intros [= <-] | by intros ->].
  - unfold rules. by rewrite !bool_decide_eq_false_2.
Qed.

(** C9: [validate_data] returns [(total, valid, invalid, report)]
    exactly when [report] has one entry per row with at least one
    violated rule, in row order and with all the violations of the row
    (the rules are not cut short at the first failure), [total] is the
    number of rows, [invalid] the number of entries, and
    [valid + invalid = total]. *)
Theorem validate_data_counts_and_report (file_key : string) (df : DataFrame)
    (total valid invalid : Z) (report : list entry) :
  validate_data file_key df = Ok (total, valid, invalid, report)
  ↔ reports file_key df report ∧ total = len df ∧ invalid = len report
    ∧ valid + invalid = total.
Proof.
  unfold validate_data.
  match goal with
  | |- (?m ≫= _) = _ ↔ _ => destruct m as [rep|e] eqn:Hm
  end; vsimpl.
  - split.
    + intros [= <- <- <- <-]. apply validate_data_loop in Hm.
      repeat split; [done|lia].
    + intros (Hrep & -> & -> & Hsum).
      apply validate_data_loop in Hrep. rewrite Hm in Hrep.
      injection Hrep as ->.
      by replace valid with (len df - len report) by lia.
  - split; [done|]. intros (Hrep & _).
    apply validate_data_loop in Hrep. by rewrite Hm in Hrep.
Qed.

(** C10: for a key outside the four record sets no rule is applied:
    every record counts as valid and the report is empty. *)
Theorem validate_data_unknown_key (file_key : string) (df : DataFrame) :
  file_key ∉ ["recipe"; "ingredients"; "steps"; "interactions"] →
  validate_data file_key df = Ok (len df, len df, 0, []).
Proof.
  intros Hkey. unfold validate_data.
  assert (H1 : file_key ≠ "recipe") by (intros ->; apply Hkey; set_solver).
  assert (H2 : file_key ≠ "ingredients") by (intros ->; apply Hkey; set_solver).
  assert (H3 : file_key ≠ "steps") by (intros ->; apply Hkey; set_solver).
  assert (H4 : file_key ≠ "interactions") by (intros ->; apply Hkey; set_solver).
  rewrite (bool_decide_eq_false_2 _ H1), (bool_decide_eq_false_2 _ H2),
    (bool_decide_eq_false_2 _ H3), (bool_decide_eq_false_2 _ H4).
  vsimpl. unfold len at 3. simpl. by rewrite Z.sub_0_r.
Qed.

Lemma validate_data_unknown_key_witness :
  ("users" ∉ ["recipe"; "ingredients"; "steps"; "interactions"])
  ∧ validate_data "users" [interaction_example "VIEW" CNaN; ∅]
    = Ok (2, 2, 0, []).
Proof.
  assert (H : "users" ∉ ["recipe"; "ingredients"; "steps"; "interactions"]).
  { refine (bool_decide_unpack _ _). vm_compute. exact I. }
  split; [exact H|].
  exact (validate_data_unknown_key "users"
           [interaction_example "VIEW" CNaN; ∅] H).
Defined.

(** The rating rule on the frame that [validate_data] is given. *)
Lemma rating_consistency_null (row : Row) (t r : cell) :
  row !! "interaction_type" = Some t →
  row !! "rating" = Some r →
  isna r = true →
  rating_consistency row
  = Ok (if cell_eq_str t "COOK_ATTEMPT" then [CookAttemptRating] else []).
Proof.
  intros Ht Hr Hna. unfold rating_consistency, rating_out_of_range, getitem.
  rewrite Ht, Hr. vsimpl. rewrite Hna.
  by destruct (cell_eq_str t "COOK_ATTEMPT").
Qed.

Lemma rating_consistency_int (row : Row) (t : cell) (z : Z) :
  row !! "interaction_type" = Some t →
  row !! "rating" = Some (CInt z) →
  rating_consistency row
  = Ok (if cell_eq_str t "COOK_ATTEMPT"
        then if bool_decide (1 ≤ z ≤ 5) then [] else [CookAttemptRating]
        else [ShouldNotHaveRating t]).
Proof.
  intros Ht Hr. unfold rating_consistency, rating_out_of_range, getitem.
  rewrite Ht, Hr. vsimpl. destruct (cell_eq_str t "COOK_ATTEMPT"); [|done].
  unfold isna, cell_lt. vsimpl.
  destruct (Z.ltb_spec z 1); vsimpl.
  - by rewrite bool_decide_eq_false_2 by lia.
  - unfold cell_gt. destruct (Z.ltb_spec 5 z).
    + by rewrite bool_decide_eq_false_2 by lia.
    + by rewrite bool_decide_eq_true_2 by lia.
Qed.

(** The specification's rule example, on [validate_data] itself. *)
Example cook_attempt_rating_example :
  validate_data "interactions"
    [interaction_example "COOK_ATTEMPT" (CInt 6);
     interaction_example "COOK_ATTEMPT" (CInt 4)]
  = Ok (2, 1, 1, [Entry (CStr "I1") "INVALID" [CookAttemptRating]]).
Proof. reflexivity. Qed.

(** After [fillna(-1)] no rating is missing, so [run_validator] hands
    every row that is not a cook attempt to the rating rule with a
    rating that is present. *)
Lemma fillna_rating_present (row : Row) (r : cell) :
  fillna_rating row !! "rating" = Some r → isna r = false.
Proof.
  unfold fillna_rating.
  destruct (row !! "rating") as [c|] eqn:Hc; [|by rewrite Hc].
  destruct (isna c) eqn:Hna.
  - rewrite lookup_insert_eq. by intros [= <-].
  - rewrite Hc. by intros [= <-].
Qed.

Lemma fillna_rating_other (row : Row) (field : string) :
  field ≠ "rating" → fillna_rating row !! field = row !! field.
Proof.
  intros Hne. unfold fillna_rating.
  destruct (row !! "rating") as [c|]; [|done].
  destruct (isna c); [|done]. by rewrite lookup_insert_ne.
Qed.

Lemma run_validator_rating_rule (row : Row) (t : cell) :
  row !! "interaction_type" = Some t →
  cell_eq_str t "COOK_ATTEMPT" = false →
  is_Some (row !! "rating") →
  rating_consistency (fillna_rating row) = Ok [ShouldNotHaveRating t].
Proof.
  intros Ht Hcook [r Hr]. unfold rating_consistency, getitem.
  rewrite (fillna_rating_other row "interaction_type") by discriminate.
  rewrite Ht. vsimpl.
  rewrite Hcook.
  destruct (fillna_rating row !! "rating") as [r'|] eqn:Hr'.
  - vsimpl. by rewrite (fillna_rating_present _ _ Hr').
  - exfalso. unfold fillna_rating in Hr'. rewrite Hr in Hr'.
    destruct (isna r); [by rewrite lookup_insert_eq in Hr' | congruence].
Qed.

(** C2 at a VIEW row without rating: [validate_data] on the loaded
    frame reports nothing, [run_validator] reports the row as invalid
    with the reason that it should not have a rating. *)
Theorem run_validator_flags_absent_rating :
  validate_data "interactions" [interaction_example "VIEW" CNaN]
  = Ok (1, 1, 0, [])
  ∧ run_validator_file "interactions" [interaction_example "VIEW" CNaN]
    = Validated 1 0 1
        [Entry (CStr "I1") "INVALID" [ShouldNotHaveRating (CStr "VIEW")]].
Proof. split; reflexivity. Qed.

(** *** Further properties of [validate_data] and [run_validator] *)

Lemma validate_data_unfold (file_key : string) (df : DataFrame) :
  validate_data file_key df
  = (report ←
       (if bool_decide (file_key = "recipe") then
          validation_loop recipe_row "recipe_id" df
        else if bool_decide (file_key = "ingredients") then
          validation_loop ingredient_row "ingredient_pk_id" df
        else if bool_decide (file_key = "steps") then
          validation_loop step_row "step_pk_id" df
        else if bool_decide (file_key = "interactions") then
          validation_loop interaction_row "interaction_id" df
        else mret []);
     mret (len df, len df - len report, len report, report)).
Proof. reflexivity. Qed.

Lemma validate_data_ok (file_key : string) (df : DataFrame) (report : list entry) :
  reports file_key df report →
  validate_data file_key df = Ok (len df, len df - len report, len report, report).
Proof.
  intros Hrep. rewrite validate_data_unfold.
  apply validate_data_loop in Hrep. by rewrite Hrep.
Qed.

Lemma validate_data_inv (file_key : string) (df : DataFrame)
    (total valid invalid : Z) (report : list entry) :
  validate_data file_key df = Ok (total, valid, invalid, report) →
  reports file_key df report ∧ total = len df ∧ invalid = len report
  ∧ valid = len df - len report.
Proof.
  rewrite validate_data_unfold.
  match goal with
  | |- (?m ≫= _) = _ → _ => destruct m as [rep|e] eqn:Hm
  end; vsimpl; [|done].
  intros [= <- <- <- <-]. by apply validate_data_loop in Hm.
Qed.

Lemma reports_length (file_key : string) (df : DataFrame) (report : list entry) :
  reports file_key df report →
  (length report ≤ length df)%nat
  ∧ Forall (λ e, status e = "INVALID" ∧ reasons e ≠ []) report.
Proof.
  induction 1 as [|row df report _ _ [IHlen IHall]
                  |row df report rs i _ Hne _ _ [IHlen IHall]]; simpl.
  - split; [lia|constructor].
  - split; [lia|done].
  - split; [lia|]. by constructor.
Qed.

(** The counts are within bounds, and every entry of the report is
    marked INVALID and has at least one reason. *)
Theorem validate_data_bounds (file_key : string) (df : DataFrame)
    (total valid invalid : Z) (report : list entry) :
  validate_data file_key df = Ok (total, valid, invalid, report) →
  0 ≤ valid ≤ total ∧ 0 ≤ invalid ≤ total
  ∧ Forall (λ e, status e = "INVALID" ∧ reasons e ≠ []) report.
Proof.
  intros (Hrep & -> & -> & ->)%validate_data_inv.
  apply reports_length in Hrep as [Hlen Hall]. unfold len. split_and!; [lia..|done].
Qed.

Lemma validate_data_bounds_witness :
  validate_data "interactions"
    [interaction_example "COOK_ATTEMPT" (CInt 6);
     interaction_example "COOK_ATTEMPT" (CInt 4)]
  = Ok (2, 1, 1, [Entry (CStr "I1") "INVALID" [CookAttemptRating]])
  ∧ 0 ≤ 1 ≤ 2 ∧ 0 ≤ 1 ≤ 2
  ∧ Forall (λ e, status e = "INVALID" ∧ reasons e ≠ [])
           [Entry (CStr "I1") "INVALID" [CookAttemptRating]].
Proof.
  assert (H : validate_data "interactions"
                [interaction_example "COOK_ATTEMPT" (CInt 6);
                 interaction_example "COOK_ATTEMPT" (CInt 4)]
              = Ok (2, 1, 1, [Entry (CStr "I1") "INVALID" [CookAttemptRating]]))
    by reflexivity.
  split; [exact H|].
  exact (validate_data_bounds "interactions" _ 2 1 1 _ H).
Defined.

Lemma reports_app (file_key : string) (df1 df2 : DataFrame) (r1 r2 : list entry) :
  reports file_key df1 r1 → reports file_key df2 r2 →
  reports file_key (df1 ++ df2) (r1 ++ r2).
Proof.
  induction 1 as [|row df report Hrs _ IH|row df report rs i Hrs Hne Hi _ IH];
    intros H2; simpl; [done| |].
  - constructor; [done|by apply IH].
  - econstructor; [done..|by apply IH].
Qed.

(** Validating two frames one after the other is validating their
    concatenation: the counts add up and the reports follow each other. *)
Theorem validate_data_app (file_key : string) (df1 df2 : DataFrame)
    (t1 v1 i1 t2 v2 i2 : Z) (r1 r2 : list entry) :
  validate_data file_key df1 = Ok (t1, v1, i1, r1) →
  validate_data file_key df2 = Ok (t2, v2, i2, r2) →
  validate_data file_key (df1 ++ df2) = Ok (t1 + t2, v1 + v2, i1 + i2, r1 ++ r2).
Proof.
  intros (H1 & -> & -> & ->)%validate_data_inv (H2 & -> & -> & ->)%validate_data_inv.
  rewrite (validate_data_ok _ _ _ (reports_app _ _ _ _ _ H1 H2)).
  unfold len. rewrite !length_app. do 4 f_equal; lia.
Qed.

Lemma validate_data_app_witness :
  validate_data "interactions" [interaction_example "COOK_ATTEMPT" (CInt 6)]
  = Ok (1, 0, 1, [Entry (CStr "I1") "INVALID" [CookAttemptRating]])
  ∧ validate_data "interactions" [interaction_example "VIEW" CNaN]
    = Ok (1, 1, 0, [])
  ∧ validate_data "interactions"
      ([interaction_example "COOK_ATTEMPT" (CInt 6)]
       ++ [interaction_example "VIEW" CNaN])
    = Ok (1 + 1, 0 + 1, 1 + 0,
          [Entry (CStr "I1") "INVALID" [CookAttemptRating]] ++ []).
Proof.
  assert (H1 : validate_data "interactions"
                 [interaction_example "COOK_ATTEMPT" (CInt 6)]
               = Ok (1, 0, 1, [Entry (CStr "I1") "INVALID" [CookAttemptRating]]))
    by reflexivity.
  assert (H2 : validate_data "interactions" [interaction_example "VIEW" CNaN]
               = Ok (1, 1, 0, [])) by reflexivity.
  split; [exact H1|]. split; [exact H2|].
  exact (validate_data_app "interactions" _ _ 1 0 1 1 1 0 _ _ H1 H2).
Defined.

Ltac eval_rules :=
  unfold missing, negative, bad_difficulty, negative_quantity, bad_step_number,
    bad_interaction_type, rating_consistency, rating_out_of_range,
    present_and_lt, getitem in *.

Ltac use_lookups :=
  repeat match goal with
         | H : _ !! _ = Some _ |- _ => rewrite H
         | H : _ !! _ = None |- _ => rewrite H
         end.

Ltac crunch :=
  repeat (simpl; vsimpl;
          try match goal with
              | |- context [mbind _ (if ?b then _ else _)] => destruct b
              | |- (if ?b then _ else _) = _ => destruct b
              | |- ∃ _, (if ?b then _ else _) = _ => destruct b
              end).

Ltac split_columns :=
  repeat match goal with
         | H : has_columns _ _ |- _ => unfold has_columns in H
         | H : Forall _ (_ :: _) |- _ => apply Forall_cons in H as [[? ?] H]
         | H : Forall _ [] |- _ => clear H
         | H : numeric_ok ?row ?f |- _ =>
             unfold numeric_ok in H;
             destruct (row !! f) as [?|] eqn:?; [|destruct H]
         end.

Lemma rules_nonempty_keys (file_key : string) :
  rules file_key ≠ []
  ↔ file_key ∈ ["recipe"; "ingredients"; "steps"; "interactions"].
Proof.
  unfold rules. rewrite !elem_of_cons, elem_of_nil.
  repeat case_bool_decide; subst; split; try done; tauto.
Qed.

Lemma violations_well_shaped (file_key : string) (row : Row) :
  well_shaped file_key row → ∃ rs, violations file_key row = Ok rs.
Proof.
  unfold well_shaped, violations, rules.
  repeat case_bool_decide; subst; try (intros _; by eexists).
  - intros (Hc & H1 & H2 & H3). split_columns.
    simpl. eval_rules. use_lookups. vsimpl.
    repeat match goal with
           | H : not_str ?c = true |- _ => destruct c; try discriminate H; clear H
           end; crunch; by eexists.
  - intros (Hc & H1). split_columns.
    simpl. eval_rules. use_lookups. vsimpl.
    repeat match goal with
           | H : not_str ?c = true |- _ => destruct c; try discriminate H; clear H
           end; crunch; by eexists.
  - intros (Hc & H1). split_columns.
    simpl. eval_rules. use_lookups. vsimpl.
    repeat match goal with
           | H : not_str ?c = true |- _ => destruct c; try discriminate H; clear H
           end; crunch; by eexists.
  - intros (Hc & Hrating). split_columns. unfold rating_ok in Hrating.
    destruct (row !! "interaction_type") as [t|] eqn:Ht; [|done].
    destruct (row !! "rating") as [r|] eqn:Hr; [|done].
    simpl. eval_rules. use_lookups. vsimpl.
    destruct (cell_eq_str t "COOK_ATTEMPT"); [|crunch; by eexists].
    specialize (Hrating eq_refl).
    destruct r; try discriminate Hrating; crunch; by eexists.
Qed.

Lemma reports_exists (file_key : string) (df : DataFrame) :
  Forall (well_shaped file_key) df → ∃ report, reports file_key df report.
Proof.
  induction 1 as [|row df Hrow _ [report IH]]; [exists []; constructor|].
  destruct (violations_well_shaped _ _ Hrow) as [[|r rs] Hrs].
  - exists report. by constructor.
  - destruct (decide (rules file_key = [])) as [Hnil|Hne].
    { unfold violations in Hrs. rewrite Hnil in Hrs. done. }
    destruct (violations_id_field _ _ _ Hne Hrs) as [i Hi].
    eexists. by econstructor.
Qed.

(** On a frame whose rows are well shaped for the record set,
    [validate_data] raises nothing. *)
Theorem validate_data_total (file_key : string) (df : DataFrame) :
  Forall (well_shaped file_key) df →
  ∃ valid invalid report,
    validate_data file_key df = Ok (len df, valid, invalid, report).
Proof.
  intros [report Hrep]%reports_exists.
  eexists _, _, report. by apply validate_data_ok.
Qed.

Lemma validate_data_total_witness :
  Forall (well_shaped "recipe")
    [recipe_example (CInt 2) (CStr "Easy"); recipe_example CNaN CNone]
  ∧ ∃ valid invalid report,
      validate_data "recipe"
        [recipe_example (CInt 2) (CStr "Easy"); recipe_example CNaN CNone]
      = Ok (len [recipe_example (CInt 2) (CStr "Easy"); recipe_example CNaN CNone],
            valid, invalid, report).
Proof.
  assert (H : Forall (well_shaped "recipe")
                [recipe_example (CInt 2) (CStr "Easy"); recipe_example CNaN CNone]).
  { repeat constructor; vm_compute; by eexists. }
  split; [exact H|].
  exact (validate_data_total "recipe" _ H).
Defined.

(** The loop stops at the first row on which a rule cannot be
    evaluated, with the exception of that rule. *)
Lemma validate_data_raises (file_key : string) (pre post : DataFrame) (row : Row)
    (e : exn) :
  Forall (well_shaped file_key) pre →
  violations file_key row = Raise e →
  validate_data file_key (pre ++ row :: post) = Raise e.
Proof.
  intros [report Hrep]%reports_exists Hrow.
  assert (Hne : rules file_key ≠ []).
  { intros Hnil. unfold violations in Hrow. by rewrite Hnil in Hrow. }
  assert (Hloop : ∀ body,
             (∀ row, body row = (rs ← violations file_key row; mret (st_of rs))) →
             validation_loop body (id_field file_key) (pre ++ row :: post)
             = Raise e).
  { intros body Hbody. unfold validation_loop. rewrite foldM_app.
    rewrite (validation_loop_complete file_key body Hbody pre report Hrep []).
    vsimpl. rewrite (loop_body_violations file_key body Hbody), Hrow. done. }
  rewrite validate_data_unfold.
  apply rules_nonempty_keys in Hne.
  rewrite !elem_of_cons, elem_of_nil in Hne.
  destruct Hne as [->|[->|[->|[->|[]]]]].
  - pose proof (Hloop recipe_row recipe_row_violations) as H.
    change (id_field "recipe") with "recipe_id" in H.
    rewrite bool_decide_eq_true_2 by done. by rewrite H.
  - pose proof (Hloop ingredient_row ingredient_row_violations) as H.
    change (id_field "ingredients") with "ingredient_pk_id" in H.
    rewrite bool_decide_eq_false_2, bool_decide_eq_true_2 by done.
    by rewrite H.
  - pose proof (Hloop step_row step_row_violations) as H.
    change (id_field "steps") with "step_pk_id" in H.
    rewrite !bool_decide_eq_false_2, bool_decide_eq_true_2 by done.
    by rewrite H.
  - pose proof (Hloop interaction_row interaction_row_violations) as H.
    change (id_field "interactions") with "interaction_id" in H.
    rewrite !bool_decide_eq_false_2, bool_decide_eq_true_2 by done.
    by rewrite H.
Qed.

(** A string in a column that is compared with a number (an unparsable
    value that the CSV reader left as text) makes [validate_data] on the
    recipe frame raise [TypeError]: the row is not reported as invalid. *)
Theorem validate_data_string_in_numeric (pre post : DataFrame) (row : Row)
    (serves prep cook : cell) :
  Forall (well_shaped "recipe") pre →
  has_columns ["recipe_id"; "name"; "difficulty"] row →
  row !! "serves" = Some serves →
  row !! "prep_time_minutes" = Some prep →
  row !! "cook_time_minutes" = Some cook →
  not_str serves && not_str prep && not_str cook = false →
  validate_data "recipe" (pre ++ row :: post) = Raise TypeError.
Proof.
  intros Hpre Hc Hs Hp Hk Hstr. apply validate_data_raises; [done|].
  unfold violations. rewrite rules_recipe. split_columns.
  simpl. eval_rules. use_lookups. vsimpl.
  destruct serves, prep, cook; try discriminate Hstr; crunch; done.
Qed.

Lemma validate_data_string_in_numeric_witness :
  Forall (well_shaped "recipe") [recipe_example (CInt 2) (CStr "Easy")]
  ∧ has_columns ["recipe_id"; "name"; "difficulty"]
      (recipe_example (CStr "two") (CStr "Easy"))
  ∧ recipe_example (CStr "two") (CStr "Easy") !! "serves" = Some (CStr "two")
  ∧ recipe_example (CStr "two") (CStr "Easy") !! "prep_time_minutes"
    = Some (CInt 10)
  ∧ recipe_example (CStr "two") (CStr "Easy") !! "cook_time_minutes"
    = Some (CInt 20)
  ∧ not_str (CStr "two") && not_str (CInt 10) && not_str (CInt 20) = false
  ∧ validate_data "recipe"
      ([recipe_example (CInt 2) (CStr "Easy")]
       ++ recipe_example (CStr "two") (CStr "Easy") :: [])
    = Raise TypeError.
Proof.
  assert (H1 : Forall (well_shaped "recipe") [recipe_example (CInt 2) (CStr "Easy")]).
  { repeat constructor; vm_compute; by eexists. }
  assert (H2 : has_columns ["recipe_id"; "name"; "difficulty"]
                 (recipe_example (CStr "two") (CStr "Easy"))).
  { repeat constructor; vm_compute; by eexists. }
  split_and!; [exact H1|exact H2|reflexivity..|].
  exact (validate_data_string_in_numeric
           [recipe_example (CInt 2) (CStr "Easy")] []
           (recipe_example (CStr "two") (CStr "Easy"))
           (CStr "two") (CInt 10) (CInt 20) H1 H2 eq_refl eq_refl eq_refl eq_refl).
Defined.

(** A frame without the identifying column of its record set makes
    [validate_data] raise [KeyError] for that column at its first row. *)
Theorem validate_data_missing_id_column (file_key : string) (row : Row)
    (df : DataFrame) :
  file_key ∈ ["recipe"; "ingredients"; "steps"; "interactions"] →
  row !! id_field file_key = None →
  validate_data file_key (row :: df) = Raise (KeyError (id_field file_key)).
Proof.
  intros Hkey Hid. apply (validate_data_raises file_key [] df); [constructor|].
  rewrite !elem_of_cons, elem_of_nil in Hkey.
  destruct Hkey as [->|[->|[->|[->|[]]]]]; unfold violations;
    [rewrite rules_recipe|rewrite rules_ingredients|rewrite rules_steps
    |rewrite rules_interactions];
    rewrite fmap_cons, <- app_comm_cons; vsimpl; rewrite missing_unfold;
    unfold getitem; change (id_field _) with "recipe_id" in Hid ||
                    change (id_field _) with "ingredient_pk_id" in Hid ||
                    change (id_field _) with "step_pk_id" in Hid ||
                    change (id_field _) with "interaction_id" in Hid;
    by rewrite Hid.
Qed.

Lemma validate_data_missing_id_column_witness :
  "steps" ∈ ["recipe"; "ingredients"; "steps"; "interactions"]
  ∧ (∅ : Row) !! id_field "steps" = None
  ∧ validate_data "steps" ((∅ : Row) :: [step_example (CInt 1)])
    = Raise (KeyError (id_field "steps")).
Proof.
  assert (H : "steps" ∈ ["recipe"; "ingredients"; "steps"; "interactions"]).
  { refine (bool_decide_unpack _ _). vm_compute. exact I. }
  split_and!; [exact H|reflexivity|].
  exact (validate_data_missing_id_column "steps" ∅ [step_example (CInt 1)]
           H eq_refl).
Defined.

(** *** [run_validator] against [validate_data] *)

Lemma fillna_rating_lookup (row : Row) :
  fillna_rating row !! "rating"
  = (λ c, if isna c then CFloat (inject_Z (-1)) else c) <$> row !! "rating".
Proof.
  unfold fillna_rating. destruct (row !! "rating") as [c|] eqn:Hc; simpl.
  - destruct (isna c); [by rewrite lookup_insert_eq|by rewrite Hc].
  - by rewrite Hc.
Qed.

Lemma collect_ext (rs : list rule) (row row' : Row) :
  Forall (λ r : rule, r row' = r row) rs → collect rs row' = collect rs row.
Proof.
  induction 1 as [|r rs Hr _ IH]; [done|]. vsimpl. by rewrite Hr, IH.
Qed.

Ltac fillna_rules :=
  repeat constructor; eval_rules;
  repeat match goal with
         | |- context [fillna_rating ?row !! ?f] =>
             rewrite (fillna_rating_other row f) by discriminate
         end; reflexivity.

Lemma violations_fillna (file_key : string) (row : Row) :
  file_key ≠ "interactions" →
  violations file_key (fillna_rating row) = violations file_key row.
Proof.
  intros Hkey. unfold violations, rules. apply collect_ext.
  repeat case_bool_decide; try done; simpl; fillna_rules.
Qed.

Lemma foldM_fmap {S A B : Type} (f : A → B) (body : S → B → result S) (st : S)
    (xs : list A) :
  foldM body st (f <$> xs) = foldM (λ st x, body st (f x)) st xs.
Proof.
  revert st. induction xs as [|x xs IH]; intros st; [done|].
  rewrite fmap_cons. vsimpl. destruct (body st (f x)); vsimpl; [apply IH|done].
Qed.

Lemma foldM_ext {S A : Type} (body body' : S → A → result S) (st : S) (xs : list A) :
  (∀ st x, body st x = body' st x) → foldM body st xs = foldM body' st xs.
Proof.
  intros Hext. revert st. induction xs as [|x xs IH]; intros st; [done|].
  vsimpl. rewrite Hext. destruct (body' st x); vsimpl; [apply IH|done].
Qed.

Lemma validation_loop_fillna (file_key : string) (body : Row → result vstate)
    (df : DataFrame) :
  (∀ row, body row = (rs ← violations file_key row; mret (st_of rs))) →
  file_key ≠ "interactions" →
  validation_loop body (id_field file_key) (fillna_rating <$> df)
  = validation_loop body (id_field file_key) df.
Proof.
  intros Hbody Hkey. unfold validation_loop. rewrite foldM_fmap.
  apply foldM_ext. intros acc row.
  rewrite !(loop_body_violations file_key body Hbody), violations_fillna by done.
  unfold getitem. rewrite fillna_rating_other; [done|].
  unfold id_field. repeat case_bool_decide; done.
Qed.

(** The rating fill of [run_validator] changes nothing for the recipe,
    ingredient and step sets: the outcome is the one of [validate_data]
    on the loaded frame. *)
Theorem run_validator_other_sets (file_key : string) (df : DataFrame) :
  file_key ≠ "interactions" →
  run_validator_file file_key df
  = match validate_data file_key df with
    | Ok (total, valid, invalid, report) => Validated total valid invalid report
    | Raise e => ErrorProcessing e
    end.
Proof.
  intros Hkey. unfold run_validator_file.
  replace (validate_data file_key (fillna_rating <$> df))
    with (validate_data file_key df); [done|].
  rewrite !validate_data_unfold. unfold len. rewrite length_fmap.
  f_equal.
  destruct (decide (file_key = "recipe")) as [->|H1].
  { symmetry. apply (validation_loop_fillna "recipe"); [|done].
    apply recipe_row_violations. }
  rewrite (bool_decide_eq_false_2 _ H1).
  destruct (decide (file_key = "ingredients")) as [->|H2].
  { symmetry. apply (validation_loop_fillna "ingredients"); [|done].
    apply ingredient_row_violations. }
  rewrite (bool_decide_eq_false_2 _ H2).
  destruct (decide (file_key = "steps")) as [->|H3].
  { symmetry. apply (validation_loop_fillna "steps"); [|done].
    apply step_row_violations. }
  rewrite (bool_decide_eq_false_2 _ H3).
  by rewrite (bool_decide_eq_false_2 _ Hkey).
Qed.

Lemma run_validator_other_sets_witness :
  "steps" ≠ "interactions"
  ∧ run_validator_file "steps" [step_example (CInt 0); step_example (CInt 1)]
    = match validate_data "steps" [step_example (CInt 0); step_example (CInt 1)] with
      | Ok (total, valid, invalid, report) => Validated total valid invalid report
      | Raise e => ErrorProcessing e
      end.
Proof.
  assert (H : "steps" ≠ "interactions") by discriminate.
  split; [exact H|].
  exact (run_validator_other_sets "steps" _ H).
Defined.

Lemma violations_interactions (row : Row) :
  violations "interactions" row
  = (a ← collect (missing <$> ["interaction_id"; "user_id"; "recipe_id";
                               "interaction_type"; "timestamp"]) row;
     b ← bad_interaction_type row;
     c ← rating_consistency row;
     mret (a ++ b ++ c)).
Proof.
  unfold violations. rewrite rules_interactions, collect_app.
  destruct (collect (missing <$> _) row) as [a|e]; vsimpl; [|done].
  destruct (bad_interaction_type row) as [b|e]; vsimpl; [|done].
  destruct (rating_consistency row) as [c|e]; vsimpl; [|done].
  by rewrite app_nil_r.
Qed.

Lemma interactions_fillna_prefix (row : Row) :
  collect (missing <$> ["interaction_id"; "user_id"; "recipe_id";
                        "interaction_type"; "timestamp"]) (fillna_rating row)
  = collect (missing <$> ["interaction_id"; "user_id"; "recipe_id";
                          "interaction_type"; "timestamp"]) row
  ∧ bad_interaction_type (fillna_rating row) = bad_interaction_type row.
Proof.
  split; [apply collect_ext; simpl|]; fillna_rules.
Qed.

(** For a cook attempt the fill value -1 is below the range, as a
    missing rating is: [run_validator] gives a COOK_ATTEMPT row the
    verdict that [validate_data] gives it. *)
Lemma violations_fillna_cook_attempt (row : Row) (t : cell) :
  row !! "interaction_type" = Some t →
  cell_eq_str t "COOK_ATTEMPT" = true →
  violations "interactions" (fillna_rating row) = violations "interactions" row.
Proof.
  intros Ht Hcook. rewrite !violations_interactions.
  destruct (interactions_fillna_prefix row) as [-> ->].
  replace (rating_consistency (fillna_rating row)) with (rating_consistency row);
    [done|].
  unfold rating_consistency, rating_out_of_range, getitem.
  rewrite (fillna_rating_other row "interaction_type") by discriminate.
  rewrite Ht. vsimpl. rewrite Hcook, fillna_rating_lookup.
  destruct (row !! "rating") as [r|]; simpl; [|done].
  destruct (isna r) eqn:Hna; vsimpl; [done|]. by rewrite Hna.
Qed.

(** Through [run_validator] every row that is not a cook attempt, has a
    rating column and passes [validate_data] is reported as invalid,
    with the single reason that it should not have a rating. *)
Lemma violations_fillna_unrated (row : Row) (t : cell) :
  row !! "interaction_type" = Some t →
  cell_eq_str t "COOK_ATTEMPT" = false →
  is_Some (row !! "rating") →
  violations "interactions" row = Ok [] →
  violations "interactions" (fillna_rating row) = Ok [ShouldNotHaveRating t].
Proof.
  intros Ht Hcook Hr. rewrite !violations_interactions.
  destruct (interactions_fillna_prefix row) as [-> ->].
  rewrite (run_validator_rating_rule row t Ht Hcook Hr).
  destruct (collect (missing <$> _) row) as [a|e]; vsimpl; [|done].
  destruct (bad_interaction_type row) as [b|e]; vsimpl; [|done].
  destruct (rating_consistency row) as [c|e]; vsimpl; [|done].
  intros [= Hnil]. apply app_eq_nil in Hnil as [-> [-> _]%app_eq_nil]. done.
Qed.

(** *** What the rules report *)

Ltac find_elem :=
  solve [ apply list_elem_of_here
        | apply list_elem_of_further; find_elem
        | apply elem_of_app; left; find_elem
        | apply elem_of_app; right; find_elem ].

(** A recipe row whose difficulty is missing is reported for two rules:
    the required field is missing, and the missing value is not one of
    the difficulty values. *)
Lemma null_difficulty_violations (row : Row) (d : cell) :
  well_shaped "recipe" row →
  row !! "difficulty" = Some d →
  isna d = true →
  ∃ rs, violations "recipe" row = Ok rs
        ∧ MissingRequired "difficulty" ∈ rs ∧ InvalidDifficulty d ∈ rs.
Proof.
  intros (Hc & H1 & H2 & H3) Hd Hna. split_columns.
  unfold violations. rewrite rules_recipe. simpl. eval_rules. use_lookups. vsimpl.
  assert (Hin : cell_in d VALID_DIFFICULTIES = false) by (by destruct d).
  rewrite Hna, Hin.
  repeat match goal with
         | H : not_str ?c = true |- _ => destruct c; try discriminate H; clear H
         end; crunch; (eexists; split; [reflexivity|]; split; find_elem).
Qed.

(** A step row with an integer step number passes exactly when its
    three other required fields are present and the number is at least
    1. *)
Lemma step_violations_iff (row : Row) (pk rid desc : cell) (z : Z) :
  row !! "step_pk_id" = Some pk →
  row !! "recipe_id" = Some rid →
  row !! "step_number" = Some (CInt z) →
  row !! "description" = Some desc →
  violations "steps" row = Ok []
  ↔ isna pk = false ∧ isna rid = false ∧ isna desc = false ∧ 1 ≤ z.
Proof.
  intros Hpk Hrid Hz Hdesc.
  unfold violations. rewrite rules_steps. simpl. eval_rules. use_lookups. vsimpl.
  simpl. destruct (Z.ltb_spec z 1); vsimpl;
    destruct (isna pk), (isna rid), (isna desc); simpl;
    split; try done; try (intros (? & ? & ? & ?); done || lia).
Qed.

Lemma rating_out_of_range_spec (row : Row) (r : cell) :
  row !! "rating" = Some r →
  not_str r = true →
  ∃ b, rating_out_of_range row = Ok b ∧ (b = false ↔ rating_in_range r).
Proof.
  intros Hr Hstr. unfold rating_out_of_range, getitem. rewrite Hr. vsimpl.
  destruct r as [| |z|q|s]; try discriminate Hstr; simpl; vsimpl.
  - exists true. split; [done|]. split; [done|intros []].
  - exists true. split; [done|]. split; [done|intros []].
  - destruct (Z.ltb_spec z 1); vsimpl.
    + exists true. split; [done|]. split; [done|lia].
    + simpl. destruct (Z.ltb_spec 5 z).
      * exists true. split; [done|]. split; [done|lia].
      * exists false. split; [done|]. split; [lia|done].
  - change (inject_Z 1) with 1%Q. change (inject_Z 5) with 5%Q.
    destruct (Qle_bool 1 q) eqn:Hlo; simpl; vsimpl.
    + simpl. destruct (Qle_bool q 5) eqn:Hhi; simpl.
      * exists false. split; [done|]. split; [|done]. intros _.
        split; by apply Qle_bool_iff.
      * exists true. split; [done|]. split; [done|].
        intros [_ Hq%Qle_bool_iff]. congruence.
    + exists true. split; [done|]. split; [done|].
      intros [Hq%Qle_bool_iff _]. congruence.
Qed.

(** An interaction row passes exactly when its required fields are
    present, its type is one of the three types, and its rating is in
    the range 1-5 for a cook attempt and missing for a view or like. *)
Lemma interaction_violations_iff (row : Row) (iid uid rid ts r : cell) (s : string) :
  row !! "interaction_id" = Some iid →
  row !! "user_id" = Some uid →
  row !! "recipe_id" = Some rid →
  row !! "interaction_type" = Some (CStr s) →
  row !! "timestamp" = Some ts →
  row !! "rating" = Some r →
  violations "interactions" row = Ok []
  ↔ isna iid = false ∧ isna uid = false ∧ isna rid = false ∧ isna ts = false
    ∧ s ∈ VALID_INTERACTION_TYPES
    ∧ (if bool_decide (s = "COOK_ATTEMPT") then rating_in_range r
       else isna r = true).
Proof.
  intros Hiid Huid Hrid Hs Hts Hr.
  rewrite violations_interactions. simpl. eval_rules. use_lookups. vsimpl.
  simpl. destruct (bool_decide (s = "COOK_ATTEMPT")) eqn:Hcook; vsimpl.
  - destruct (decide (not_str r = true)) as [Hstr|Hstr].
    + destruct (rating_out_of_range_spec row r Hr Hstr) as (b & Hb & Hrange).
      unfold rating_out_of_range, getitem in Hb. rewrite Hr in Hb. vsimpl.
      rewrite Hb. vsimpl.
      destruct (isna iid), (isna uid), (isna rid), (isna ts),
        (bool_decide (s ∈ VALID_INTERACTION_TYPES)) eqn:Hin, b; simpl;
        try apply bool_decide_eq_true in Hin;
        try apply bool_decide_eq_false in Hin;
        split; try done; try (intros (? & ? & ? & ? & ? & ?); done);
        try (intros (? & ? & ? & ? & ? & ?%Hrange); done).
      intros _. split_and!; try done. by apply Hrange.
    + destruct r; try done. simpl. vsimpl.
      split; [done|]. by intros (_ & _ & _ & _ & _ & []).
  - destruct (isna iid), (isna uid), (isna rid), (isna ts),
      (bool_decide (s ∈ VALID_INTERACTION_TYPES)) eqn:Hin, (isna r); simpl;
      try apply bool_decide_eq_true in Hin;
      try apply bool_decide_eq_false in Hin;
      split; try done; intros (? & ? & ? & ? & ? & ?); done.
Qed.

(** *** The verdict of [validate_data] and [run_validator] on rows *)

Lemma validate_data_single (file_key : string) (row : Row) :
  validate_data file_key [row] = Ok (1, 1, 0, []) ↔ violations file_key row = Ok [].
Proof.
  split.
  - intros (Hrep & _)%validate_data_inv. by inversion Hrep.
  - intros Hrs. apply (validate_data_ok file_key [row] []).
    apply reports_valid; [done|constructor].
Qed.

Lemma reports_elem (file_key : string) (df : DataFrame) (report : list entry)
    (row : Row) (rs : list reason) :
  reports file_key df report →
  row ∈ df → violations file_key row = Ok rs → rs ≠ [] →
  ∃ i, row !! id_field file_key = Some i ∧ Entry i "INVALID" rs ∈ report.
Proof.
  induction 1 as [|row' df report Hrs' _ IH|row' df report rs' i Hrs' Hne' Hi _ IH];
    intros Hin Hrs Hne.
  - by apply elem_of_nil in Hin.
  - apply elem_of_cons in Hin as [->|Hin]; [congruence|by apply IH].
  - apply elem_of_cons in Hin as [->|Hin].
    + exists i. split; [done|]. rewrite Hrs in Hrs'. injection Hrs' as ->. by left.
    + destruct (IH Hin Hrs Hne) as (i' & Hi' & Hin'). exists i'.
      split; [done|by right].
Qed.

Lemma reports_nil_inv (file_key : string) (df : DataFrame) :
  reports file_key df [] → Forall (λ row, violations file_key row = Ok []) df.
Proof.
  induction df as [|row df IH]; [constructor|].
  intros Hrep. inversion Hrep; subst. constructor; [done|by apply IH].
Qed.

(** A recipe row whose difficulty is missing is reported with two
    reasons: the required field is missing, and the missing value is
    not one of the difficulty values. *)
Theorem validate_data_null_difficulty (df : DataFrame) (row : Row) (d : cell)
    (total valid invalid : Z) (report : list entry) :
  validate_data "recipe" df = Ok (total, valid, invalid, report) →
  row ∈ df →
  well_shaped "recipe" row →
  row !! "difficulty" = Some d →
  isna d = true →
  ∃ i rs, row !! "recipe_id" = Some i ∧ Entry i "INVALID" rs ∈ report
          ∧ MissingRequired "difficulty" ∈ rs ∧ InvalidDifficulty d ∈ rs.
Proof.
  intros (Hrep & _)%validate_data_inv Hin Hshape Hd Hna.
  destruct (null_difficulty_violations row d Hshape Hd Hna) as (rs & Hrs & H1 & H2).
  assert (Hne : rs ≠ []) by (intros ->; by apply elem_of_nil in H1).
  destruct (reports_elem "recipe" df report row rs Hrep Hin Hrs Hne) as (i & Hi & He).
  by exists i, rs.
Qed.

Lemma validate_data_null_difficulty_witness :
  ∃ report,
    validate_data "recipe"
      [recipe_example (CInt 2) (CStr "Easy"); recipe_example (CInt 2) CNaN]
    = Ok (2, 1, 1, report)
    ∧ recipe_example (CInt 2) CNaN
      ∈ [recipe_example (CInt 2) (CStr "Easy"); recipe_example (CInt 2) CNaN]
    ∧ well_shaped "recipe" (recipe_example (CInt 2) CNaN)
    ∧ recipe_example (CInt 2) CNaN !! "difficulty" = Some CNaN
    ∧ isna CNaN = true
    ∧ ∃ i rs, recipe_example (CInt 2) CNaN !! "recipe_id" = Some i
              ∧ Entry i "INVALID" rs ∈ report
              ∧ MissingRequired "difficulty" ∈ rs ∧ InvalidDifficulty CNaN ∈ rs.
Proof.
  assert (H : well_shaped "recipe" (recipe_example (CInt 2) CNaN)).
  { vm_compute. repeat split; repeat constructor; by eexists. }
  assert (Hin : recipe_example (CInt 2) CNaN
                ∈ [recipe_example (CInt 2) (CStr "Easy"); recipe_example (CInt 2) CNaN])
    by (right; left).
  eexists. split; [reflexivity|].
  split_and!; [exact Hin|exact H|reflexivity|reflexivity|].
  eapply (validate_data_null_difficulty
            [recipe_example (CInt 2) (CStr "Easy"); recipe_example (CInt 2) CNaN]
            (recipe_example (CInt 2) CNaN) CNaN);
    [reflexivity|exact Hin|exact H|reflexivity|reflexivity].
Defined.

(** A step row with an integer step number passes [validate_data]
    exactly when its three other required fields are present and the
    number is at least 1. *)
Theorem validate_data_step_row (row : Row) (pk rid desc : cell) (z : Z) :
  row !! "step_pk_id" = Some pk →
  row !! "recipe_id" = Some rid →
  row !! "step_number" = Some (CInt z) →
  row !! "description" = Some desc →
  validate_data "steps" [row] = Ok (1, 1, 0, [])
  ↔ isna pk = false ∧ isna rid = false ∧ isna desc = false ∧ 1 ≤ z.
Proof.
  intros Hpk Hrid Hz Hdesc. rewrite validate_data_single.
  by apply step_violations_iff.
Qed.

Lemma validate_data_step_row_witness :
  step_example (CInt 0) !! "step_pk_id" = Some (CStr "S1")
  ∧ step_example (CInt 0) !! "recipe_id" = Some (CStr "R1")
  ∧ step_example (CInt 0) !! "step_number" = Some (CInt 0)
  ∧ step_example (CInt 0) !! "description" = Some (CStr "Boil.")
  ∧ (validate_data "steps" [step_example (CInt 0)] = Ok (1, 1, 0, [])
     ↔ isna (CStr "S1") = false ∧ isna (CStr "R1") = false
       ∧ isna (CStr "Boil.") = false ∧ 1 ≤ 0).
Proof.
  split_and!; [reflexivity..|].
  exact (validate_data_step_row (step_example (CInt 0)) (CStr "S1") (CStr "R1")
           (CStr "Boil.") 0 eq_refl eq_refl eq_refl eq_refl).
Defined.

(** An interaction row passes [validate_data] exactly when its required
    fields are present, its type is one of the three types, and its
    rating is in the range 1-5 for a cook attempt and missing for a
    view or like. *)
Theorem validate_data_interaction_row (row : Row) (iid uid rid ts r : cell)
    (s : string) :
  row !! "interaction_id" = Some iid →
  row !! "user_id" = Some uid →
  row !! "recipe_id" = Some rid →
  row !! "interaction_type" = Some (CStr s) →
  row !! "timestamp" = Some ts →
  row !! "rating" = Some r →
  validate_data "interactions" [row] = Ok (1, 1, 0, [])
  ↔ isna iid = false ∧ isna uid = false ∧ isna rid = false ∧ isna ts = false
    ∧ s ∈ VALID_INTERACTION_TYPES
    ∧ (if bool_decide (s = "COOK_ATTEMPT") then rating_in_range r
       else isna r = true).
Proof.
  intros Hiid Huid Hrid Hs Hts Hr. rewrite validate_data_single.
  by apply interaction_violations_iff.
Qed.

Lemma validate_data_interaction_row_witness :
  interaction_example "COOK_ATTEMPT" (CInt 4) !! "interaction_id" = Some (CStr "I1")
  ∧ interaction_example "COOK_ATTEMPT" (CInt 4) !! "user_id" = Some (CStr "U1")
  ∧ interaction_example "COOK_ATTEMPT" (CInt 4) !! "recipe_id" = Some (CStr "R1")
  ∧ interaction_example "COOK_ATTEMPT" (CInt 4) !! "interaction_type"
    = Some (CStr "COOK_ATTEMPT")
  ∧ interaction_example "COOK_ATTEMPT" (CInt 4) !! "timestamp"
    = Some (CStr "2024-01-01T10:00:00")
  ∧ interaction_example "COOK_ATTEMPT" (CInt 4) !! "rating" = Some (CInt 4)
  ∧ (validate_data "interactions" [interaction_example "COOK_ATTEMPT" (CInt 4)]
     = Ok (1, 1, 0, [])
     ↔ isna (CStr "I1") = false ∧ isna (CStr "U1") = false
       ∧ isna (CStr "R1") = false ∧ isna (CStr "2024-01-01T10:00:00") = false
       ∧ "COOK_ATTEMPT" ∈ VALID_INTERACTION_TYPES
       ∧ (if bool_decide ("COOK_ATTEMPT" = "COOK_ATTEMPT")
          then rating_in_range (CInt 4) else isna (CInt 4) = true)).
Proof.
  split_and!; [reflexivity..|].
  exact (validate_data_interaction_row (interaction_example "COOK_ATTEMPT" (CInt 4))
           (CStr "I1") (CStr "U1") (CStr "R1") (CStr "2024-01-01T10:00:00")
           (CInt 4) "COOK_ATTEMPT" eq_refl eq_refl eq_refl eq_refl eq_refl eq_refl).
Defined.

Lemma foldM_ext_in {S A : Type} (body body' : S → A → result S) (st : S)
    (xs : list A) :
  (∀ st x, x ∈ xs → body st x = body' st x) → foldM body st xs = foldM body' st xs.
Proof.
  revert st. induction xs as [|x xs IH]; intros st Hext; [done|].
  vsimpl. rewrite Hext by (by left).
  destruct (body' st x); vsimpl; [|done].
  apply IH. intros st' y Hy. apply Hext. by right.
Qed.

(** On a frame of cook attempts the rating fill of [run_validator]
    changes no verdict: the fill value -1 is below the range, as a
    missing rating is, and the outcome is the one of [validate_data] on
    the loaded frame. *)
Theorem run_validator_cook_attempts (df : DataFrame) :
  Forall (λ row, ∃ t, row !! "interaction_type" = Some t
                      ∧ cell_eq_str t "COOK_ATTEMPT" = true) df →
  run_validator_file "interactions" df
  = match validate_data "interactions" df with
    | Ok (total, valid, invalid, report) => Validated total valid invalid report
    | Raise e => ErrorProcessing e
    end.
Proof.
  intros Hcook. unfold run_validator_file.
  replace (validate_data "interactions" (fillna_rating <$> df))
    with (validate_data "interactions" df); [done|].
  rewrite !validate_data_unfold. unfold len. rewrite length_fmap.
  f_equal. rewrite !bool_decide_eq_false_2, bool_decide_eq_true_2 by done.
  symmetry. unfold validation_loop. rewrite foldM_fmap.
  apply foldM_ext_in. intros acc row Hrow.
  rewrite Forall_forall in Hcook. destruct (Hcook row Hrow) as (t & Ht & Hc).
  change "interaction_id" with (id_field "interactions").
  rewrite !(loop_body_violations "interactions" interaction_row
              interaction_row_violations).
  rewrite (violations_fillna_cook_attempt row t Ht Hc).
  unfold getitem. by rewrite fillna_rating_other.
Qed.

Lemma run_validator_cook_attempts_witness :
  Forall (λ row, ∃ t, row !! "interaction_type" = Some t
                      ∧ cell_eq_str t "COOK_ATTEMPT" = true)
    [interaction_example "COOK_ATTEMPT" CNaN;
     interaction_example "COOK_ATTEMPT" (CInt 4)]
  ∧ run_validator_file "interactions"
      [interaction_example "COOK_ATTEMPT" CNaN;
       interaction_example "COOK_ATTEMPT" (CInt 4)]
    = match validate_data "interactions"
              [interaction_example "COOK_ATTEMPT" CNaN;
               interaction_example "COOK_ATTEMPT" (CInt 4)] with
      | Ok (total, valid, invalid, report) => Validated total valid invalid report
      | Raise e => ErrorProcessing e
      end.
Proof.
  assert (H : Forall (λ row, ∃ t, row !! "interaction_type" = Some t
                                  ∧ cell_eq_str t "COOK_ATTEMPT" = true)
                [interaction_example "COOK_ATTEMPT" CNaN;
                 interaction_example "COOK_ATTEMPT" (CInt 4)]).
  { repeat constructor; by exists (CStr "COOK_ATTEMPT"). }
  split; [exact H|].
  exact (run_validator_cook_attempts _ H).
Defined.

(** A frame of views and likes that has a rating column and passes
    [validate_data] without a report is rejected row by row through
    [run_validator]: every row is reported invalid, with the single
    reason that it should not have a rating. *)
Theorem run_validator_rejects_unrated (df : DataFrame) (total valid invalid : Z) :
  Forall (λ row, ∃ t, row !! "interaction_type" = Some t
                      ∧ cell_eq_str t "COOK_ATTEMPT" = false
                      ∧ is_Some (row !! "rating")) df →
  validate_data "interactions" df = Ok (total, valid, invalid, []) →
  run_validator_file "interactions" df
  = Validated total 0 total
      ((λ row, Entry (default CNone (row !! "interaction_id")) "INVALID"
                 [ShouldNotHaveRating (default CNone (row !! "interaction_type"))])
         <$> df).
Proof.
  intros Hrows (Hrep & -> & _ & _)%validate_data_inv.
  apply reports_nil_inv in Hrep.
  set (entry_of := λ row : Row,
         Entry (default CNone (row !! "interaction_id")) "INVALID"
           [ShouldNotHaveRating (default CNone (row !! "interaction_type"))]).
  assert (Hfilled : reports "interactions" (fillna_rating <$> df) (entry_of <$> df)).
  { induction df as [|row df IH]; [constructor|].
    apply Forall_cons in Hrows as [(t & Ht & Hc & Hr) Hrows].
    apply Forall_cons in Hrep as [Hrs Hrep].
    rewrite !fmap_cons.
    destruct (violations_id_field "interactions" row [] ltac:(done) Hrs) as [i Hi].
    change (id_field "interactions") with "interaction_id" in Hi.
    unfold entry_of at 1. rewrite Hi, Ht. simpl.
    apply reports_invalid.
    - by apply violations_fillna_unrated.
    - done.
    - change (id_field "interactions") with "interaction_id".
      by rewrite fillna_rating_other.
    - by apply IH. }
  unfold run_validator_file. rewrite (validate_data_ok _ _ _ Hfilled).
  unfold len. rewrite !length_fmap. f_equal. lia.
Qed.

Lemma run_validator_rejects_unrated_witness :
  Forall (λ row, ∃ t, row !! "interaction_type" = Some t
                      ∧ cell_eq_str t "COOK_ATTEMPT" = false
                      ∧ is_Some (row !! "rating"))
    [interaction_example "LIKE" CNone; interaction_example "VIEW" CNaN]
  ∧ validate_data "interactions"
      [interaction_example "LIKE" CNone; interaction_example "VIEW" CNaN]
    = Ok (2, 2, 0, [])
  ∧ run_validator_file "interactions"
      [interaction_example "LIKE" CNone; interaction_example "VIEW" CNaN]
    = Validated 2 0 2
        ((λ row, Entry (default CNone (row !! "interaction_id")) "INVALID"
                   [ShouldNotHaveRating (default CNone (row !! "interaction_type"))])
           <$> [interaction_example "LIKE" CNone; interaction_example "VIEW" CNaN]).
Proof.
  assert (H : Forall (λ row, ∃ t, row !! "interaction_type" = Some t
                                  ∧ cell_eq_str t "COOK_ATTEMPT" = false
                                  ∧ is_Some (row !! "rating"))
                [interaction_example "LIKE" CNone; interaction_example "VIEW" CNaN]).
  { repeat constructor.
    - exists (CStr "LIKE"). split_and!; [reflexivity..|by eexists].
    - exists (CStr "VIEW"). split_and!; [reflexivity..|by eexists]. }
  split; [exact H|]. split; [reflexivity|].
  exact (run_validator_rejects_unrated _ 2 2 0 H eq_refl).
Defined.

End ValidatorFacts.

(** ** The normalizer *)

Module EtlFacts.
Import Etl.

Ltac esimpl :=
  repeat (progress
            (cbn [foldM mbind mret result_bind result_ret fst snd
                  py_get py_getitem py_iter isoformat
                  normalized_recipes normalized_ingredients normalized_steps drawn
                  recipe_df ingredients_df steps_df interactions_df] in * )).

(** *** Documents without [recipe_id] *)

Lemma skip_body (uuid4 : nat → string) (a : acc) (d : gmap string value) :
  missing_or_empty_id d → recipe_body uuid4 a (VDict d) = Ok a.
Proof.
  unfold recipe_body. esimpl. by intros [-> | [-> | ->]].
Qed.

Lemma normalize_recipes_app (uuid4 : nat → string) (pre post : list value) :
  normalize_recipes uuid4 (pre ++ post)
  = (a ← normalize_recipes uuid4 pre; foldM (recipe_body uuid4) a post).
Proof. apply foldM_app. Qed.

(** C4: a recipe document whose [recipe_id] is missing or empty is
    skipped: the loop body leaves the lists as they are and raises
    nothing, and the run is the run on the other documents. *)
Theorem skip_missing_recipe_id (uuid4 : nat → string) (pre post : list value)
    (d : gmap string value) (interactions_data : list nat) (σ : store) :
  missing_or_empty_id d →
  (∀ a, recipe_body uuid4 a (VDict d) = Ok a)
  ∧ transform_and_normalize uuid4 (pre ++ VDict d :: post) interactions_data σ
    = transform_and_normalize uuid4 (pre ++ post) interactions_data σ.
Proof.
  intros Hd. split; [intros a; by apply skip_body|].
  unfold transform_and_normalize. rewrite !normalize_recipes_app.
  destruct (normalize_recipes uuid4 pre) as [a|e]; [|done]. esimpl.
  by rewrite skip_body.
Qed.

Lemma skip_missing_recipe_id_witness :
  missing_or_empty_id nameless_doc_example
  ∧ (∀ a, recipe_body uuid4_example a (VDict nameless_doc_example) = Ok a)
  ∧ transform_and_normalize uuid4_example
      ([VDict recipe_doc_example] ++ VDict nameless_doc_example :: [])
      [0%nat] store_example
    = transform_and_normalize uuid4_example
        ([VDict recipe_doc_example] ++ []) [0%nat] store_example.
Proof.
  assert (H : missing_or_empty_id nameless_doc_example) by (left; reflexivity).
  split; [exact H|].
  exact (skip_missing_recipe_id uuid4_example [VDict recipe_doc_example] []
           nameless_doc_example [0%nat] store_example H).
Defined.

(** *** The rows of a retained document *)

Section rows.
Variable uuid4 : nat → string.

Lemma ingredient_body_dict (recipe_id : value) (a : acc) (di : gmap string value) :
  ingredient_body uuid4 recipe_id a (VDict di)
  = Ok (Acc (normalized_recipes a)
            (normalized_ingredients a ++
               [ {[ "ingredient_pk_id" := VStr (uuid4 (drawn a));
                    "recipe_id" := recipe_id;
                    "name" := default VNone (di !! "name");
                    "quantity" := default VNone (di !! "quantity");
                    "unit" := default VNone (di !! "unit") ]} ])
            (normalized_steps a) (S (drawn a))).
Proof. reflexivity. Qed.

Lemma step_body_dict (recipe_id : value) (a : acc) (ds : gmap string value) :
  step_body uuid4 recipe_id a (VDict ds)
  = Ok (Acc (normalized_recipes a) (normalized_ingredients a)
            (normalized_steps a ++
               [ {[ "step_pk_id" := VStr (uuid4 (drawn a));
                    "recipe_id" := recipe_id;
                    "step_number" := default VNone (ds !! "step_number");
                    "description" := default VNone (ds !! "description") ]} ])
            (S (drawn a))).
Proof. reflexivity. Qed.

Lemma ingredient_loop (recipe_id : value) (ingredients : list value) (a : acc) :
  Forall is_dict ingredients →
  ∃ rows,
    foldM (ingredient_body uuid4 recipe_id) a ingredients
    = Ok (Acc (normalized_recipes a) (normalized_ingredients a ++ rows)
              (normalized_steps a) (drawn a + length ingredients))
    ∧ length rows = length ingredients
    ∧ Forall (λ row, row !! "recipe_id" = Some recipe_id) rows
    ∧ pk_ingredient <$> rows
      = fresh_key uuid4 <$> seq (drawn a) (length ingredients).
Proof.
  intros Hdict. revert a.
  induction Hdict as [|ingredient ingredients Hd _ IH]; intros a.
  - exists []. rewrite app_nil_r, Nat.add_0_r. by destruct a.
  - destruct ingredient as [| | | | | | |di]; try done.
    cbn [foldM]. rewrite ingredient_body_dict. esimpl.
    match goal with
    | |- context [foldM _ ?a' ingredients] =>
        destruct (IH a') as (rows & -> & Hlen & Hfk & Hpk)
    end.
    esimpl. eexists (_ :: rows). split_and!.
    + rewrite <- app_assoc. do 2 f_equal. simpl. lia.
    + simpl. by rewrite Hlen.
    + constructor; [done|exact Hfk].
    + rewrite fmap_cons. simpl. by rewrite Hpk.
Qed.

Lemma step_loop (recipe_id : value) (steps : list value) (a : acc) :
  Forall is_dict steps →
  ∃ rows,
    foldM (step_body uuid4 recipe_id) a steps
    = Ok (Acc (normalized_recipes a) (normalized_ingredients a)
              (normalized_steps a ++ rows) (drawn a + length steps))
    ∧ length rows = length steps
    ∧ Forall (λ row, row !! "recipe_id" = Some recipe_id) rows
    ∧ pk_step <$> rows = fresh_key uuid4 <$> seq (drawn a) (length steps).
Proof.
  intros Hdict. revert a.
  induction Hdict as [|step steps Hd _ IH]; intros a.
  - exists []. rewrite app_nil_r, Nat.add_0_r. by destruct a.
  - destruct step as [| | | | | | |ds]; try done.
    cbn [foldM]. rewrite step_body_dict. esimpl.
    match goal with
    | |- context [foldM _ ?a' steps] =>
        destruct (IH a') as (rows & -> & Hlen & Hfk & Hpk)
    end.
    esimpl. eexists (_ :: rows). split_and!.
    + rewrite <- app_assoc. do 2 f_equal. simpl. lia.
    + simpl. by rewrite Hlen.
    + constructor; [done|exact Hfk].
    + rewrite fmap_cons. simpl. by rewrite Hpk.
Qed.

Lemma created_at_converts (d : gmap string value) :
  convertible (d !! "created_at") →
  ∃ created_at,
    (if truthy (default VNone (d !! "created_at"))
     then isoformat (default VNone (d !! "created_at"))
     else mret VNone) = Ok created_at.
Proof.
  unfold convertible. destruct (d !! "created_at") as [v|]; simpl.
  - intros [-> | [iso ->]]; esimpl; eauto.
  - eauto.
Qed.

Lemma embedded_iter (d : gmap string value) (key : string) :
  list_or_absent (d !! key) →
  py_iter (default (VList []) (d !! key)) = Ok (embedded d key).
Proof.
  unfold list_or_absent, embedded.
  by destruct (d !! key) as [[]|].
Qed.

(** The body of the loop on a retained, well-formed document. *)
Lemma retained_body (d : gmap string value) (a : acc) :
  wf_recipe (VDict d) → retained d →
  ∃ recipe_row ing_rows step_rows,
    recipe_body uuid4 a (VDict d)
    = Ok (Acc (normalized_recipes a ++ [recipe_row])
              (normalized_ingredients a ++ ing_rows)
              (normalized_steps a ++ step_rows)
              (drawn a + length ing_rows + length step_rows))
    ∧ length ing_rows = length (embedded d "ingredients")
    ∧ length step_rows = length (embedded d "steps")
    ∧ Forall (λ row, row !! "recipe_id" = d !! "recipe_id")
             (ing_rows ++ step_rows)
    ∧ pk_ingredient <$> ing_rows
      = fresh_key uuid4 <$> seq (drawn a) (length ing_rows)
    ∧ pk_step <$> step_rows
      = fresh_key uuid4 <$> seq (drawn a + length ing_rows) (length step_rows).
Proof.
  intros Hwf Hret. destruct (Hwf Hret) as (Hc & Hil & Hid & Hsl & Hsd).
  assert (Hrid : d !! "recipe_id" = Some (default VNone (d !! "recipe_id"))).
  { unfold retained in Hret. by destruct (d !! "recipe_id"). }
  unfold recipe_body. esimpl. rewrite Hret. cbn [negb].
  destruct (created_at_converts d Hc) as (created_at & ->). esimpl.
  rewrite (embedded_iter d "ingredients" Hil). esimpl.
  match goal with
  | |- context [foldM (ingredient_body uuid4 ?rid) ?a' _] =>
      destruct (ingredient_loop rid _ a' Hid) as (ing_rows & -> & Hl1 & Hfk1 & Hpk1)
  end.
  esimpl. rewrite (embedded_iter d "steps" Hsl). esimpl.
  match goal with
  | |- context [foldM (step_body uuid4 ?rid) ?a' _] =>
      destruct (step_loop rid _ a' Hsd) as (step_rows & -> & Hl2 & Hfk2 & Hpk2)
  end.
  esimpl. eexists _, ing_rows, step_rows. split_and!.
  - by rewrite Hl1, Hl2.
  - done.
  - done.
  - rewrite Hrid. by apply Forall_app.
  - by rewrite Hl1.
  - by rewrite Hl1, Hl2.
Qed.

(** A document that is not retained leaves the lists as they are. *)
Lemma not_retained_body (d : gmap string value) (a : acc) :
  ¬ retained d → recipe_body uuid4 a (VDict d) = Ok a.
Proof.
  unfold retained, recipe_body. esimpl.
  by destruct (truthy (default VNone (d !! "recipe_id"))).
Qed.

Lemma wf_body (doc : value) (a : acc) :
  wf_recipe doc → keys_inv uuid4 a →
  ∃ a', recipe_body uuid4 a doc = Ok a'
        ∧ keys_inv uuid4 a'
        ∧ normalized_ingredients a `prefix_of` normalized_ingredients a'
        ∧ normalized_steps a `prefix_of` normalized_steps a'.
Proof.
  intros Hwf Hinv. destruct doc as [| | | | | | |d]; try done.
  destruct (decide (retained d)) as [Hret|Hret].
  - destruct (retained_body d a Hwf Hret)
      as (r & ing_rows & step_rows & -> & _ & _ & _ & Hpk1 & Hpk2).
    eexists. split; [done|]. split_and!.
    + unfold keys_inv, acc_keys in *. esimpl.
      rewrite !fmap_app, Hpk1, Hpk2.
      rewrite <- Nat.add_assoc, !seq_app, !fmap_app. simpl.
      rewrite <- Hinv. by solve_Permutation.
    + by eexists.
    + by eexists.
  - rewrite (not_retained_body d a Hret). by eexists.
Qed.

Lemma wf_fold (docs : list value) (a : acc) :
  Forall wf_recipe docs → keys_inv uuid4 a →
  ∃ a', foldM (recipe_body uuid4) a docs = Ok a'
        ∧ keys_inv uuid4 a'
        ∧ normalized_ingredients a `prefix_of` normalized_ingredients a'
        ∧ normalized_steps a `prefix_of` normalized_steps a'.
Proof.
  intros Hwf. revert a. induction Hwf as [|doc docs Hdoc _ IH]; intros a Hinv.
  - by exists a.
  - destruct (wf_body doc a Hdoc Hinv) as (a1 & H1 & Hinv1 & Hi1 & Hs1).
    destruct (IH a1 Hinv1) as (a2 & H2 & Hinv2 & Hi2 & Hs2).
    exists a2. cbn [foldM]. rewrite H1. esimpl. split_and!; try done.
    + by etrans.
    + by etrans.
Qed.
End rows.

(** *** The interaction documents *)

Lemma interaction_body_frame (σ σ' : store) (l : nat) :
  interaction_body σ l = Ok σ' → ∀ l', l' ≠ l → σ' l' = σ l'.
Proof.
  unfold interaction_body, py_setitem.
  destruct (σ l) as [| | | | | | |d] eqn:Hl; esimpl; try done.
  destruct (truthy (default VNone (d !! "timestamp"))); esimpl.
  - destruct (d !! "timestamp") as [ts|]; esimpl; [|done].
    destruct ts; esimpl; try done.
    intros [= <-] l' Hne. by rewrite fn_lookup_insert_ne.
  - by intros [= <-].
Qed.

Lemma process_interactions_frame (interactions_data : list nat) (σ σ' : store) :
  process_interactions interactions_data σ = Ok σ' →
  ∀ l, l ∉ interactions_data → σ' l = σ l.
Proof.
  unfold process_interactions. revert σ.
  induction interactions_data as [|i interactions_data IH]; intros σ; esimpl.
  - by intros [= <-].
  - destruct (interaction_body σ i) as [σ1|e] eqn:Hbody; esimpl; [|done].
    intros Hrest l [Hne Hnotin]%not_elem_of_cons.
    rewrite (IH _ Hrest l Hnotin).
    by apply (interaction_body_frame σ σ1 i).
Qed.

Lemma interaction_body_wf (σ : store) (l : nat) (d : gmap string value) :
  σ l = VDict d → convertible (d !! "timestamp") →
  ∃ σ', interaction_body σ l = Ok σ'.
Proof.
  intros Hl Hc. unfold interaction_body, py_setitem. rewrite Hl. esimpl.
  unfold convertible in Hc. destruct (d !! "timestamp") as [ts|]; simpl.
  - destruct Hc as [-> | [iso ->]]; esimpl; eauto.
  - eauto.
Qed.

Lemma process_interactions_wf (interactions_data : list nat) (σ : store) :
  wf_interactions interactions_data σ →
  ∃ σ', process_interactions interactions_data σ = Ok σ'.
Proof.
  unfold process_interactions, wf_interactions. revert σ.
  induction interactions_data as [|i interactions_data IH];
    intros σ [Hnodup Hdocs]; esimpl; [by eauto|].
  apply NoDup_cons in Hnodup as [Hnotin Hnodup].
  destruct (Hdocs i) as (d & Hi & Hc); [by left|].
  destruct (interaction_body_wf σ i d Hi Hc) as [σ1 Hbody].
  rewrite Hbody. esimpl. apply IH. split; [done|].
  intros l Hl. rewrite (interaction_body_frame σ σ1 i Hbody).
  - apply Hdocs. by right.
  - by intros ->.
Qed.

(** C3: in a run on well-formed documents, with a generator that never
    repeats an identifier, a retained recipe document with [N] embedded
    ingredients and [M] embedded steps adds exactly [N] Ingredient rows
    and [M] Step rows; each of them carries the document's [recipe_id],
    each takes the identifier of a generator call of its own, and all
    the surrogate keys of the run are distinct. *)
Theorem rows_per_recipe (uuid4 : nat → string) (pre post : list value)
    (d : gmap string value) (interactions_data : list nat) (σ : store) :
  Inj (=) (=) uuid4 →
  Forall wf_recipe (pre ++ VDict d :: post) →
  wf_interactions interactions_data σ →
  retained d →
  ∃ out σ' before after ing_rows step_rows ing_after step_after,
    transform_and_normalize uuid4 (pre ++ VDict d :: post) interactions_data σ
    = Ok (out, σ')
    ∧ normalize_recipes uuid4 pre = Ok before
    ∧ recipe_body uuid4 before (VDict d) = Ok after
    ∧ normalized_ingredients after = normalized_ingredients before ++ ing_rows
    ∧ normalized_steps after = normalized_steps before ++ step_rows
    ∧ ingredients_df out = normalized_ingredients after ++ ing_after
    ∧ steps_df out = normalized_steps after ++ step_after
    ∧ length ing_rows = length (embedded d "ingredients")
    ∧ length step_rows = length (embedded d "steps")
    ∧ Forall (λ row, row !! "recipe_id" = d !! "recipe_id") (ing_rows ++ step_rows)
    ∧ pk_ingredient <$> ing_rows
      = fresh_key uuid4 <$> seq (drawn before) (length ing_rows)
    ∧ pk_step <$> step_rows
      = fresh_key uuid4 <$> seq (drawn before + length ing_rows) (length step_rows)
    ∧ NoDup (surrogate_keys out).
Proof.
  intros Hinj [Hpre [Hdoc Hpost]%Forall_cons]%Forall_app Hint Hret.
  assert (Hinv0 : keys_inv uuid4 (Acc [] [] [] 0))
    by (unfold keys_inv, acc_keys; simpl; constructor).
  destruct (wf_fold uuid4 pre _ Hpre Hinv0) as (before & Hbefore & Hinvb & _ & _).
  fold (normalize_recipes uuid4 pre) in Hbefore.
  destruct (retained_body uuid4 d before Hdoc Hret)
    as (r & ing_rows & step_rows & Hbody & Hl1 & Hl2 & Hfk & Hpk1 & Hpk2).
  destruct (wf_body uuid4 _ before Hdoc Hinvb) as (after & Hbody' & Hinva & _ & _).
  destruct (wf_fold uuid4 post after Hpost Hinva)
    as (final & Hfinal & Hinvf & [ing_after Hia] & [step_after Hsa]).
  destruct (process_interactions_wf _ _ Hint) as [σ' Hσ'].
  eexists _, σ', before, after, ing_rows, step_rows, ing_after, step_after.
  unfold transform_and_normalize. rewrite normalize_recipes_app.
  rewrite Hbefore. esimpl.
  rewrite Hbody', Hσ'. esimpl. rewrite Hfinal. esimpl.
  rewrite Hbody in Hbody'. injection Hbody' as <-. esimpl.
  split_and!; try done.
  unfold surrogate_keys. esimpl.
  unfold keys_inv, acc_keys in Hinvf. rewrite Hinvf.
  assert (Hfresh : Inj (=) (=) (fresh_key uuid4)).
  { intros k1 k2 [= Hk]. by apply Hinj. }
  apply (NoDup_fmap_2 _). apply NoDup_seq.
Qed.

Lemma rows_per_recipe_witness :
  Inj (=) (=) uuid4_example
  ∧ Forall wf_recipe ([VDict nameless_doc_example] ++ VDict recipe_doc_example :: [])
  ∧ wf_interactions [0%nat] store_example
  ∧ retained recipe_doc_example
  ∧ ∃ out σ' before after ing_rows step_rows ing_after step_after,
      transform_and_normalize uuid4_example
        ([VDict nameless_doc_example] ++ VDict recipe_doc_example :: [])
        [0%nat] store_example
      = Ok (out, σ')
      ∧ normalize_recipes uuid4_example [VDict nameless_doc_example] = Ok before
      ∧ recipe_body uuid4_example before (VDict recipe_doc_example) = Ok after
      ∧ normalized_ingredients after = normalized_ingredients before ++ ing_rows
      ∧ normalized_steps after = normalized_steps before ++ step_rows
      ∧ ingredients_df out = normalized_ingredients after ++ ing_after
      ∧ steps_df out = normalized_steps after ++ step_after
      ∧ length ing_rows = length (embedded recipe_doc_example "ingredients")
      ∧ length step_rows = length (embedded recipe_doc_example "steps")
      ∧ Forall (λ row, row !! "recipe_id" = recipe_doc_example !! "recipe_id")
               (ing_rows ++ step_rows)
      ∧ pk_ingredient <$> ing_rows
        = fresh_key uuid4_example <$> seq (drawn before) (length ing_rows)
      ∧ pk_step <$> step_rows
        = fresh_key uuid4_example
            <$> seq (drawn before + length ing_rows) (length step_rows)
      ∧ NoDup (surrogate_keys out).
Proof.
  assert (H1 : Inj (=) (=) uuid4_example) by (unfold uuid4_example; apply _).
  assert (H2 : Forall wf_recipe
                 ([VDict nameless_doc_example] ++ VDict recipe_doc_example :: [])).
  { apply Forall_cons; split; [|apply Forall_cons; split; [|constructor]].
    - intros H. vm_compute in H. discriminate H.
    - intros _. vm_compute.
      repeat first [exact I | constructor]. }
  assert (H3 : wf_interactions [0%nat] store_example).
  { split.
    - repeat constructor. intros H. inversion H.
    - intros l Hl. exists interaction_doc.
      inversion Hl as [|? ? ? Hnil]; [|inversion Hnil].
      split; [reflexivity|]. right. by eexists. }
  assert (H4 : retained recipe_doc_example) by reflexivity.
  split_and!; [exact H1|exact H2|exact H3|exact H4|].
  exact (rows_per_recipe uuid4_example [VDict nameless_doc_example] []
           recipe_doc_example [0%nat] store_example H1 H2 H3 H4).
Defined.

(** *** The frame of the call *)

(** C1 at one interaction document with a timestamp: the call replaces
    the timestamp object of the caller's document by its ISO string, so
    the document is not equal to its value before the call; a second
    call on the same documents raises. *)
Theorem transform_overwrites_interaction_timestamp (uuid4 : nat → string) :
  ∃ out σ',
    transform_and_normalize uuid4 [] [0%nat] store_example = Ok (out, σ')
    ∧ σ' 0%nat
      = VDict (<["timestamp" := VStr "2024-01-01T10:00:00"]> interaction_doc)
    ∧ σ' 0%nat ≠ store_example 0%nat
    ∧ transform_and_normalize uuid4 [] [0%nat] σ' = Raise AttributeError.
Proof.
  eexists _, _. split; [reflexivity|]. split_and!.
  - reflexivity.
  - intros H.
    apply (f_equal (λ v, match v with
                         | VDict m => m !! "timestamp"
                         | _ => None
                         end)) in H.
    vm_compute in H. discriminate H.
  - reflexivity.
Qed.

(** The documents that the call does not list keep their value. *)
Lemma transform_frame (uuid4 : nat → string) (recipes_data : list value)
    (interactions_data : list nat) (σ σ' : store) (out : frames) :
  transform_and_normalize uuid4 recipes_data interactions_data σ = Ok (out, σ') →
  ∀ l, l ∉ interactions_data → σ' l = σ l.
Proof.
  unfold transform_and_normalize.
  destruct (normalize_recipes uuid4 recipes_data) as [a|e]; esimpl; [|done].
  destruct (process_interactions interactions_data σ) as [σ1|e] eqn:Hσ;
    esimpl; [|done].
  intros [= _ <-]. by apply process_interactions_frame.
Qed.

(** *** The rows of a run that returns *)

Lemma ingredient_loop_inv (uuid4 : nat → string) (recipe_id : value)
    (items : list value) (a a' : acc) :
  foldM (ingredient_body uuid4 recipe_id) a items = Ok a' →
  ∃ rows,
    a' = Acc (normalized_recipes a) (normalized_ingredients a ++ rows)
             (normalized_steps a) (drawn a + length rows)
    ∧ Forall (ingredient_row_ok recipe_id) rows.
Proof.
  revert a. induction items as [|item items IH]; intros a; cbn [foldM].
  - intros [= <-]. exists []. rewrite app_nil_r, Nat.add_0_r. by destruct a.
  - destruct item as [| | | | | | |di]; try done.
    rewrite ingredient_body_dict. esimpl.
    intros (rows & -> & Hrows)%IH. esimpl. eexists (_ :: rows). split.
    + rewrite <- app_assoc. f_equal; first [reflexivity | simpl; lia].
    + constructor; [|done]. split; [|reflexivity].
      unfold ingredient_columns. rewrite !dom_insert_L, dom_singleton_L.
      set_solver.
Qed.

Lemma step_loop_inv (uuid4 : nat → string) (recipe_id : value)
    (items : list value) (a a' : acc) :
  foldM (step_body uuid4 recipe_id) a items = Ok a' →
  ∃ rows,
    a' = Acc (normalized_recipes a) (normalized_ingredients a)
             (normalized_steps a ++ rows) (drawn a + length rows)
    ∧ Forall (step_row_ok recipe_id) rows.
Proof.
  revert a. induction items as [|item items IH]; intros a; cbn [foldM].
  - intros [= <-]. exists []. rewrite app_nil_r, Nat.add_0_r. by destruct a.
  - destruct item as [| | | | | | |ds]; try done.
    rewrite step_body_dict. esimpl.
    intros (rows & -> & Hrows)%IH. esimpl. eexists (_ :: rows). split.
    + rewrite <- app_assoc. f_equal; first [reflexivity | simpl; lia].
    + constructor; [|done]. split; [|reflexivity].
      unfold step_columns. rewrite !dom_insert_L, dom_singleton_L.
      set_solver.
Qed.

(** What the loop body has done when it returns: nothing for a document
    without [recipe_id], and otherwise one recipe row and the rows of
    the embedded lists, all with the document's id. *)
Lemma recipe_body_inv (uuid4 : nat → string) (a a' : acc) (doc : value) :
  recipe_body uuid4 a doc = Ok a' →
  (retained_id doc = None ∧ a' = a)
  ∨ ∃ rid r ing_rows step_rows,
      retained_id doc = Some rid
      ∧ a' = Acc (normalized_recipes a ++ [r])
                 (normalized_ingredients a ++ ing_rows)
                 (normalized_steps a ++ step_rows)
                 (drawn a + length ing_rows + length step_rows)
      ∧ recipe_row_ok rid r
      ∧ Forall (ingredient_row_ok rid) ing_rows
      ∧ Forall (step_row_ok rid) step_rows.
Proof.
  destruct doc as [| | | | | | |d]; try done.
  unfold recipe_body, retained_id. esimpl.
  destruct (truthy (default VNone (d !! "recipe_id"))); cbn [negb];
    [|intros [= <-]; by left].
  match goal with
  | |- ((if ?b then ?x else ?y) ≫= _) = _ → _ =>
      destruct (if b then x else y) as [created_at|e]
  end; esimpl; [|done].
  destruct (py_iter (default (VList []) (d !! "ingredients"))) as [ings|e];
    esimpl; [|done].
  match goal with
  | |- (foldM ?f ?a0 ings ≫= _) = _ → _ =>
      destruct (foldM f a0 ings) as [a1|e] eqn:Hings
  end; esimpl; [|done].
  apply ingredient_loop_inv in Hings as (ing_rows & -> & Hing). esimpl.
  destruct (py_iter (default (VList []) (d !! "steps"))) as [steps|e];
    esimpl; [|done].
  intros (step_rows & -> & Hstep)%step_loop_inv. esimpl.
  right. eexists _, _, ing_rows, step_rows. by split_and!.
Qed.

Lemma retained_ids_snoc (docs : list value) (doc : value) :
  retained_ids (docs ++ [doc])
  = retained_ids docs ++ from_option (λ rid, [rid]) [] (retained_id doc).
Proof.
  unfold retained_ids. rewrite omap_app.
  f_equal; simpl; by destruct (retained_id doc).
Qed.

Lemma rows_inv_body (uuid4 : nat → string) (docs : list value) (a a' : acc)
    (doc : value) :
  recipe_body uuid4 a doc = Ok a' → rows_inv docs a → rows_inv (docs ++ [doc]) a'.
Proof.
  intros [[Hid ->]|(rid & r & ing_rows & step_rows & Hid & -> & Hr & Hing & Hstep)]
    %recipe_body_inv (Hids & Hrec & Hi & Hs); unfold rows_inv;
    rewrite retained_ids_snoc, Hid; simpl.
  - by rewrite app_nil_r.
  - destruct Hr as [Hdom Hfk]. rewrite !fmap_app, Hids. simpl. rewrite Hfk.
    split_and!; [done| | |].
    + apply Forall_app. split; [done|]. by constructor.
    + apply Forall_app. split.
      * eapply Forall_impl; [exact Hi|]. intros row [? Hin]. split; [done|].
        rewrite Hids in Hin. apply elem_of_app. by left.
      * eapply Forall_impl; [exact Hing|]. intros row [? ->]. split; [done|].
        apply elem_of_app. right. by left.
    + apply Forall_app. split.
      * eapply Forall_impl; [exact Hs|]. intros row [? Hin]. split; [done|].
        rewrite Hids in Hin. apply elem_of_app. by left.
      * eapply Forall_impl; [exact Hstep|]. intros row [? ->]. split; [done|].
        apply elem_of_app. right. by left.
Qed.

Lemma rows_inv_fold (uuid4 : nat → string) (docs docs' : list value) (a a' : acc) :
  foldM (recipe_body uuid4) a docs' = Ok a' →
  rows_inv docs a → rows_inv (docs ++ docs') a'.
Proof.
  revert docs a. induction docs' as [|doc docs' IH]; intros docs a; cbn [foldM].
  - intros [= <-]. by rewrite app_nil_r.
  - destruct (recipe_body uuid4 a doc) as [a1|e] eqn:Hbody; esimpl; [|done].
    intros Hrest Hinv.
    replace (docs ++ doc :: docs') with ((docs ++ [doc]) ++ docs')
      by (by rewrite <- app_assoc).
    eapply IH; [done|]. by eapply rows_inv_body.
Qed.

Lemma transform_Ok_inv (uuid4 : nat → string) (recipes_data : list value)
    (interactions_data : list nat) (σ σ' : store) (out : frames) :
  transform_and_normalize uuid4 recipes_data interactions_data σ = Ok (out, σ') →
  ∃ a, normalize_recipes uuid4 recipes_data = Ok a
       ∧ process_interactions interactions_data σ = Ok σ'
       ∧ out = Frames (normalized_recipes a) (normalized_ingredients a)
                      (normalized_steps a) (σ' <$> interactions_data).
Proof.
  unfold transform_and_normalize.
  destruct (normalize_recipes uuid4 recipes_data) as [a|e]; esimpl; [|done].
  destruct (process_interactions interactions_data σ) as [σ1|e]; esimpl; [|done].
  intros [= <- <-]. by exists a.
Qed.

Lemma transform_rows_inv (uuid4 : nat → string) (recipes_data : list value)
    (interactions_data : list nat) (σ σ' : store) (out : frames) :
  transform_and_normalize uuid4 recipes_data interactions_data σ = Ok (out, σ') →
  rows_inv recipes_data
    (Acc (recipe_df out) (ingredients_df out) (steps_df out) 0).
Proof.
  intros (a & Ha & _ & ->)%transform_Ok_inv.
  apply (rows_inv_fold uuid4 [] recipes_data) in Ha.
  - destruct a. exact Ha.
  - unfold rows_inv. simpl. by repeat constructor.
Qed.

(** One recipe row per retained document, in the order of the
    documents and with the document's [recipe_id]. *)
Theorem transform_recipe_rows (uuid4 : nat → string) (recipes_data : list value)
    (interactions_data : list nat) (σ σ' : store) (out : frames) :
  transform_and_normalize uuid4 recipes_data interactions_data σ = Ok (out, σ') →
  fk <$> recipe_df out = Some <$> retained_ids recipes_data.
Proof. by intros (H & _)%transform_rows_inv. Qed.


(** The output has no dangling reference: the [recipe_id] of every
    ingredient row and of every step row is the [recipe_id] of a row of
    the recipe set. *)
Theorem transform_no_dangling (uuid4 : nat → string) (recipes_data : list value)
    (interactions_data : list nat) (σ σ' : store) (out : frames) :
  transform_and_normalize uuid4 recipes_data interactions_data σ = Ok (out, σ') →
  Forall (λ row, fk row ∈ fk <$> recipe_df out)
         (ingredients_df out ++ steps_df out).
Proof.
  intros (_ & _ & Hi & Hs)%transform_rows_inv. simpl in *.
  apply Forall_app. split.
  - eapply Forall_impl; [exact Hi|]. by intros row [_ ?].
  - eapply Forall_impl; [exact Hs|]. by intros row [_ ?].
Qed.

Lemma transform_recipe_rows_witness :
  ∃ out σ',
    transform_and_normalize uuid4_example
      [VDict nameless_doc_example; VDict recipe_doc_example] [0%nat] store_example
    = Ok (out, σ')
    ∧ fk <$> recipe_df out
      = Some <$> retained_ids [VDict nameless_doc_example; VDict recipe_doc_example].
Proof.
  eexists _, _. split; [reflexivity|].
  eapply (transform_recipe_rows uuid4_example
           [VDict nameless_doc_example; VDict recipe_doc_example] [0%nat]
           store_example).
  reflexivity.
Defined.


Lemma transform_no_dangling_witness :
  ∃ out σ',
    transform_and_normalize uuid4_example
      [VDict nameless_doc_example; VDict recipe_doc_example] [0%nat] store_example
    = Ok (out, σ')
    ∧ Forall (λ row, fk row ∈ fk <$> recipe_df out)
             (ingredients_df out ++ steps_df out).
Proof.
  eexists _, _. split; [reflexivity|].
  eapply (transform_no_dangling uuid4_example
           [VDict nameless_doc_example; VDict recipe_doc_example] [0%nat]
           store_example).
  reflexivity.
Defined.

(** *** The interaction documents after the call *)

Lemma interaction_body_inv (σ σ' : store) (l : nat) :
  interaction_body σ l = Ok σ' →
  ∃ d, σ l = VDict d ∧ convertible (d !! "timestamp")
       ∧ σ' l = canonical (σ l).
Proof.
  unfold interaction_body, py_setitem, canonical, convertible.
  destruct (σ l) as [| | | | | | |d] eqn:Hl; esimpl; try done.
  destruct (d !! "timestamp") as [ts|] eqn:Hts; simpl.
  - destruct (truthy ts) eqn:Htruthy; esimpl.
    + destruct ts; esimpl; try done. intros Heq. injection Heq as <-.
      exists d. rewrite fn_lookup_insert, Hts. split_and!; [done| |done].
      right. by eexists.
    + intros Heq. injection Heq as <-.
      exists d. rewrite Hl, Hts. split_and!; [done|by left|].
      by destruct ts.
  - intros Heq. injection Heq as <-. exists d. by rewrite Hl, Hts.
Qed.

(** When the call returns and no document is listed twice, each listed
    document is the document it was, except that a timestamp object has
    become its ISO string; every other field, and every document
    without a timestamp object, is as before. *)
Lemma process_interactions_canonical (interactions_data : list nat) (σ σ' : store) :
  process_interactions interactions_data σ = Ok σ' →
  NoDup interactions_data →
  ∀ l, l ∈ interactions_data →
       ∃ d, σ l = VDict d ∧ convertible (d !! "timestamp")
            ∧ σ' l = canonical (σ l).
Proof.
  unfold process_interactions. revert σ.
  induction interactions_data as [|i interactions_data IH]; intros σ; esimpl.
  - intros _ _ l []%elem_of_nil.
  - destruct (interaction_body σ i) as [σ1|e] eqn:Hbody; esimpl; [|done].
    intros Hrest [Hnotin Hnodup]%NoDup_cons l [->|Hl]%elem_of_cons.
    + destruct (interaction_body_inv _ _ _ Hbody) as (d & Hd & Hc & Hcanon).
      exists d. split_and!; [done..|].
      rewrite <- Hcanon. by apply (process_interactions_frame interactions_data).
    + destruct (IH σ1 Hrest Hnodup l Hl) as (d & Hd & Hc & Hcanon).
      assert (Hsame : σ1 l = σ l).
      { apply (interaction_body_frame σ σ1 i Hbody). by intros ->. }
      rewrite Hsame in *. by exists d.
Qed.

(** When the call returns and no interaction document is listed twice,
    the interactions set is the list of the documents, each with its
    timestamp object replaced by the ISO string and nothing else
    changed; every listed object is a dictionary, and no other object of
    the store is touched. *)
Theorem transform_interactions_verbatim (uuid4 : nat → string)
    (recipes_data : list value) (interactions_data : list nat) (σ σ' : store)
    (out : frames) :
  transform_and_normalize uuid4 recipes_data interactions_data σ = Ok (out, σ') →
  NoDup interactions_data →
  interactions_df out = (λ l, canonical (σ l)) <$> interactions_data
  ∧ Forall (λ l, is_dict (σ l)) interactions_data
  ∧ ∀ l, σ' l = if decide (l ∈ interactions_data) then canonical (σ l) else σ l.
Proof.
  intros (a & _ & Hσ & ->)%transform_Ok_inv Hnodup. esimpl.
  pose proof (process_interactions_canonical _ _ _ Hσ Hnodup) as Hcanon.
  split_and!.
  - apply list_fmap_ext. intros _ l Hl%list_elem_of_lookup_2.
    by destruct (Hcanon l Hl) as (d & _ & _ & ->).
  - apply Forall_forall. intros l Hl.
    destruct (Hcanon l Hl) as (d & -> & _). done.
  - intros l. case_decide as Hl.
    + by destruct (Hcanon l Hl) as (d & _ & _ & ->).
    + by apply (process_interactions_frame interactions_data).
Qed.

Lemma transform_interactions_verbatim_witness :
  ∃ out σ',
    transform_and_normalize uuid4_example [VDict recipe_doc_example]
      [0%nat] store_example
    = Ok (out, σ')
    ∧ NoDup [0%nat]
    ∧ interactions_df out = (λ l, canonical (store_example l)) <$> [0%nat]
    ∧ Forall (λ l, is_dict (store_example l)) [0%nat]
    ∧ ∀ l, σ' l = if decide (l ∈ [0%nat]) then canonical (store_example l)
                  else store_example l.
Proof.
  assert (H : NoDup [0%nat]).
  { apply NoDup_cons. split; [|constructor]. intros Hin. inversion Hin. }
  eexists _, _. split; [reflexivity|]. split; [exact H|].
  apply (transform_interactions_verbatim uuid4_example [VDict recipe_doc_example]
           [0%nat] store_example); [reflexivity|exact H].
Defined.

(** *** Calling the normalizer again *)

Lemma existsb_ext_in {A : Type} (f g : A → bool) (l : list A) :
  (∀ x, x ∈ l → f x = g x) → existsb f l = existsb g l.
Proof.
  induction l as [|x l IH]; intros Hext; [done|]. simpl.
  rewrite (Hext x) by (by left). f_equal. apply IH. intros y Hy.
  apply Hext. by right.
Qed.

Lemma interaction_body_converted (τ : store) (i : nat) (d : gmap string value) :
  τ i = VDict d →
  (∀ iso, d !! "timestamp" ≠ Some (VTimestamp iso)) →
  interaction_body τ i
  = if truthy (timestamp_of (τ i)) then Raise AttributeError else Ok τ.
Proof.
  intros Hi Hts. unfold interaction_body, timestamp_of. rewrite Hi. esimpl.
  destruct (d !! "timestamp") as [ts|] eqn:Hd; simpl; [|done].
  destruct (truthy ts) eqn:Htruthy; esimpl; [|done].
  destruct ts as [| | | | |iso'| |]; esimpl; try done. by destruct (Hts iso').
Qed.

(** On documents whose timestamps are no timestamp objects, the loop
    changes nothing, and it raises at the first timestamp that is truthy. *)
Lemma process_interactions_converted (interactions_data : list nat) (τ : store) :
  (∀ l, l ∈ interactions_data →
        ∃ d, τ l = VDict d ∧ ∀ iso, d !! "timestamp" ≠ Some (VTimestamp iso)) →
  process_interactions interactions_data τ
  = if existsb (λ l, truthy (timestamp_of (τ l))) interactions_data
    then Raise AttributeError else Ok τ.
Proof.
  unfold process_interactions.
  induction interactions_data as [|i interactions_data IH]; intros Hdocs; [done|].
  cbn [foldM existsb].
  destruct (Hdocs i) as (d & Hi & Hts); [by left|].
  rewrite (interaction_body_converted τ i d Hi Hts).
  destruct (truthy (timestamp_of (τ i))); esimpl; [done|].
  apply IH. intros l Hl. apply Hdocs. by right.
Qed.

Lemma canonical_converted (d : gmap string value) :
  convertible (d !! "timestamp") →
  ∃ d', canonical (VDict d) = VDict d'
        ∧ (∀ iso, d' !! "timestamp" ≠ Some (VTimestamp iso))
        ∧ truthy (timestamp_of (VDict d')) = has_timestamp (VDict d)
        ∧ ∀ key, key ≠ "timestamp" → d' !! key = d !! key.
Proof.
  unfold convertible, canonical, has_timestamp, timestamp_of.
  destruct (d !! "timestamp") as [ts|] eqn:Hts.
  - intros [Hfalsy|[iso ->]].
    + exists d. destruct ts; try done; rewrite Hts; simpl; split_and!; try done;
        by intros ? [=].
    + eexists. split; [done|]. rewrite lookup_insert_eq. simpl. split_and!.
      * by intros ? [=].
      * done.
      * intros key Hkey. by rewrite lookup_insert_ne.
  - intros _. exists d. rewrite Hts. simpl. split_and!; try done; by intros ? [=].
Qed.

Lemma process_interactions_twice (interactions_data : list nat) (σ σ' : store) :
  process_interactions interactions_data σ = Ok σ' →
  NoDup interactions_data →
  process_interactions interactions_data σ'
  = if existsb (λ l, has_timestamp (σ l)) interactions_data
    then Raise AttributeError else Ok σ'.
Proof.
  intros Hσ Hnodup.
  pose proof (process_interactions_canonical _ _ _ Hσ Hnodup) as Hcanon.
  rewrite process_interactions_converted.
  - rewrite (existsb_ext_in _ (λ l, has_timestamp (σ l))); [done|].
    intros l Hl. destruct (Hcanon l Hl) as (d & Hd & Hc & ->). rewrite Hd.
    by destruct (canonical_converted d Hc) as (d' & -> & _ & <- & _).
  - intros l Hl. destruct (Hcanon l Hl) as (d & Hd & Hc & ->). rewrite Hd.
    destruct (canonical_converted d Hc) as (d' & -> & Hts & _). by exists d'.
Qed.

(** *** The second call draws other identifiers *)

Lemma same_outcome_bind {A B : Type} (R : A → A → Prop) (S : B → B → Prop)
    (m m' : result A) (k k' : A → result B) :
  same_outcome R m m' →
  (∀ a a', R a a' → same_outcome S (k a) (k' a')) →
  same_outcome S (m ≫= k) (m' ≫= k').
Proof.
  destruct m as [a|e], m' as [a'|e']; simpl; try done.
  intros HR Hk. by apply Hk.
Qed.

Lemma same_outcome_refl {A : Type} (R : A → A → Prop) (m : result A) :
  (∀ a, R a a) → same_outcome R m m.
Proof. intros HR. destruct m; simpl; auto. Qed.

Lemma foldM_same_outcome {S A : Type} (R : S → S → Prop)
    (body body' : S → A → result S) (xs : list A) (st st' : S) :
  (∀ st st' x, R st st' → same_outcome R (body st x) (body' st' x)) →
  R st st' →
  same_outcome R (foldM body st xs) (foldM body' st' xs).
Proof.
  intros Hbody. revert st st'.
  induction xs as [|x xs IH]; intros st st' HR; [done|].
  cbn [foldM]. eapply same_outcome_bind; [by apply Hbody|]. apply IH.
Qed.

Lemma ingredient_body_same (uuid4 uuid4' : nat → string) (recipe_id : value)
    (a a' : acc) (ingredient : value) :
  same_rows a a' →
  same_outcome same_rows (ingredient_body uuid4 recipe_id a ingredient)
                         (ingredient_body uuid4' recipe_id a' ingredient).
Proof.
  intros (Hr & Hi & Hs). unfold ingredient_body.
  destruct (py_get ingredient "name" VNone) as [name|e]; esimpl; try done.
  destruct (py_get ingredient "quantity" VNone) as [quantity|e]; esimpl; try done.
  destruct (py_get ingredient "unit" VNone) as [unit|e]; esimpl; try done.
  unfold same_rows. simpl. split_and!; [done| |done].
  rewrite !fmap_app, Hi. by f_equal.
Qed.

Lemma step_body_same (uuid4 uuid4' : nat → string) (recipe_id : value)
    (a a' : acc) (step : value) :
  same_rows a a' →
  same_outcome same_rows (step_body uuid4 recipe_id a step)
                         (step_body uuid4' recipe_id a' step).
Proof.
  intros (Hr & Hi & Hs). unfold step_body.
  destruct (py_get step "step_number" VNone) as [step_number|e]; esimpl; try done.
  destruct (py_get step "description" VNone) as [description|e]; esimpl; try done.
  unfold same_rows. simpl. split_and!; [done|done|].
  rewrite !fmap_app, Hs. by f_equal.
Qed.

Lemma recipe_body_same (uuid4 uuid4' : nat → string) (a a' : acc)
    (recipe_doc : value) :
  same_rows a a' →
  same_outcome same_rows (recipe_body uuid4 a recipe_doc)
                         (recipe_body uuid4' a' recipe_doc).
Proof.
  intros (Hr & Hi & Hs). unfold recipe_body.
  destruct (py_get recipe_doc "recipe_id" VNone) as [recipe_id|e]; esimpl; try done.
  destruct (truthy recipe_id); cbn [negb]; [|done].
  destruct (py_get recipe_doc "name" VNone) as [name|e]; esimpl; try done.
  destruct (py_get recipe_doc "serves" VNone) as [serves|e]; esimpl; try done.
  destruct (py_get recipe_doc "prep_time_minutes" VNone) as [prep|e]; esimpl; try done.
  destruct (py_get recipe_doc "cook_time_minutes" VNone) as [cook|e]; esimpl; try done.
  destruct (py_get recipe_doc "difficulty" VNone) as [difficulty|e]; esimpl; try done.
  destruct (py_get recipe_doc "created_at" VNone) as [created|e]; esimpl; try done.
  match goal with
  | |- same_outcome _ (?m ≫= _) _ => destruct m as [created_at|e]
  end; esimpl; try done.
  destruct (py_get recipe_doc "ingredients" (VList [])) as [ingredients|e];
    esimpl; try done.
  destruct (py_iter ingredients) as [ing_items|e]; esimpl; try done.
  eapply same_outcome_bind.
  - apply foldM_same_outcome; [intros; by apply ingredient_body_same|].
    unfold same_rows. simpl. by rewrite Hr.
  - intros b b' Hb.
    destruct (py_get recipe_doc "steps" (VList [])) as [steps|e]; esimpl; try done.
    destruct (py_iter steps) as [step_items|e]; esimpl; try done.
    apply foldM_same_outcome; [intros; by apply step_body_same|done].
Qed.

Lemma normalize_recipes_same (uuid4 uuid4' : nat → string)
    (recipes_data : list value) :
  same_outcome same_rows (normalize_recipes uuid4 recipes_data)
                         (normalize_recipes uuid4' recipes_data).
Proof.
  unfold normalize_recipes.
  apply foldM_same_outcome; [intros; by apply recipe_body_same|done].
Qed.

(** After a call that returned, a second call on the same documents,
    which draws other identifiers, raises [AttributeError] when some
    interaction held a timestamp object with a non-empty ISO string
    (the first call has made it a string); otherwise it returns,
    changes no document, and its frames are those of the first call up
    to the surrogate keys of the ingredient and step rows. *)
Theorem transform_twice (uuid4 uuid4' : nat → string) (recipes_data : list value)
    (interactions_data : list nat) (σ σ' : store) (out : frames) :
  transform_and_normalize uuid4 recipes_data interactions_data σ = Ok (out, σ') →
  NoDup interactions_data →
  if existsb (λ l, has_timestamp (σ l)) interactions_data
  then transform_and_normalize uuid4' recipes_data interactions_data σ'
       = Raise AttributeError
  else ∃ out',
         transform_and_normalize uuid4' recipes_data interactions_data σ'
         = Ok (out', σ')
         ∧ without_keys out' = without_keys out.
Proof.
  intros (a & Ha & Hσ & ->)%transform_Ok_inv Hnodup.
  pose proof (normalize_recipes_same uuid4 uuid4' recipes_data) as Hsame.
  rewrite Ha in Hsame.
  destruct (normalize_recipes uuid4' recipes_data) as [a'|e] eqn:Ha'; [|done].
  destruct Hsame as (Hr & Hi & Hs).
  unfold transform_and_normalize. rewrite Ha'. esimpl.
  rewrite (process_interactions_twice _ _ _ Hσ Hnodup).
  destruct (existsb _ interactions_data); esimpl; [done|].
  eexists. split; [reflexivity|].
  unfold without_keys. simpl. by rewrite Hr, Hi, Hs.
Qed.

Lemma transform_twice_witness :
  ∃ out σ',
    transform_and_normalize uuid4_example [VDict recipe_doc_example]
      [0%nat] plain_store_example
    = Ok (out, σ')
    ∧ NoDup [0%nat]
    ∧ ∃ out',
        transform_and_normalize (λ k, uuid4_example (k + 3)) [VDict recipe_doc_example]
          [0%nat] σ'
        = Ok (out', σ')
        ∧ without_keys out' = without_keys out.
Proof.
  assert (H : NoDup [0%nat]).
  { apply NoDup_cons. split; [|constructor]. intros Hin. inversion Hin. }
  eexists _, _. split; [vm_compute; reflexivity|]. split; [exact H|].
  refine (transform_twice uuid4_example (λ k, uuid4_example (k + 3))
            [VDict recipe_doc_example] [0%nat] plain_store_example _ _ _ H).
  vm_compute. reflexivity.
Defined.

(** *** Embedded lists that are no lists *)

Lemma null_ingredients_body (uuid4 : nat → string) (a : acc)
    (d : gmap string value) :
  retained d →
  convertible (d !! "created_at") →
  d !! "ingredients" = Some VNone →
  recipe_body uuid4 a (VDict d) = Raise TypeError.
Proof.
  intros Hret Hc Hing. unfold recipe_body. esimpl. rewrite Hret. cbn [negb].
  destruct (created_at_converts d Hc) as (created_at & ->). esimpl.
  by rewrite Hing.
Qed.

(** A retained document whose [ingredients] field is present and holds
    [None] makes the run raise [TypeError]; only a document without the
    field is taken to have no ingredients. *)
Theorem null_ingredients_raise (uuid4 : nat → string) (pre post : list value)
    (d : gmap string value) (interactions_data : list nat) (σ : store) :
  Forall wf_recipe pre →
  retained d →
  convertible (d !! "created_at") →
  d !! "ingredients" = Some VNone →
  transform_and_normalize uuid4 (pre ++ VDict d :: post) interactions_data σ
  = Raise TypeError.
Proof.
  intros Hpre Hret Hc Hing.
  assert (Hinv0 : keys_inv uuid4 (Acc [] [] [] 0))
    by (unfold keys_inv, acc_keys; simpl; constructor).
  destruct (wf_fold uuid4 pre _ Hpre Hinv0) as (before & Hbefore & _).
  fold (normalize_recipes uuid4 pre) in Hbefore.
  unfold transform_and_normalize. rewrite normalize_recipes_app, Hbefore. esimpl.
  by rewrite (null_ingredients_body uuid4 before d Hret Hc Hing).
Qed.

Lemma null_ingredients_raise_witness :
  Forall wf_recipe [VDict recipe_doc_example]
  ∧ retained (<["ingredients" := VNone]> recipe_doc_example)
  ∧ convertible (<["ingredients" := VNone]> recipe_doc_example !! "created_at")
  ∧ <["ingredients" := VNone]> recipe_doc_example !! "ingredients" = Some VNone
  ∧ transform_and_normalize uuid4_example
      ([VDict recipe_doc_example]
       ++ VDict (<["ingredients" := VNone]> recipe_doc_example) :: [])
      [0%nat] store_example
    = Raise TypeError.
Proof.
  assert (H1 : Forall wf_recipe [VDict recipe_doc_example]).
  { apply Forall_cons; split; [|constructor].
    intros _. vm_compute. repeat first [exact I | constructor]. }
  assert (H2 : retained (<["ingredients" := VNone]> recipe_doc_example))
    by reflexivity.
  assert (H3 : convertible
                 (<["ingredients" := VNone]> recipe_doc_example !! "created_at"))
    by exact I.
  split_and!; [exact H1|exact H2|exact H3|reflexivity|].
  exact (null_ingredients_raise uuid4_example [VDict recipe_doc_example] []
           (<["ingredients" := VNone]> recipe_doc_example) [0%nat] store_example
           H1 H2 H3 eq_refl).
Defined.

(** *** The pipeline *)

Lemma alloc_fmap {B : Type} (f : value → B) (docs : list (gmap string value)) :
  (λ l, f (alloc docs l)) <$> seq 0 (length docs) = (λ d, f (VDict d)) <$> docs.
Proof.
  apply list_eq. intros i. rewrite !list_lookup_fmap. unfold alloc.
  destruct (docs !! i) as [d|] eqn:Hd.
  - rewrite lookup_seq_lt by (by eapply lookup_lt_Some). simpl. by rewrite Hd.
  - rewrite lookup_seq_ge; [done|]. by apply lookup_ge_None.
Qed.

Lemma doc_id_no_column :
  ("doc_id" ∉ recipe_columns) ∧ ("doc_id" ∉ ingredient_columns)
  ∧ ("doc_id" ∉ step_columns).
Proof.
  split_and!; refine (bool_decide_unpack _ _); vm_compute; exact I.
Qed.

(** The pipeline stops without transforming or exporting exactly when
    the recipes or the interactions collection is empty; the users
    collection plays no part. *)
Theorem run_pipeline_guard (uuid4 : nat → string)
    (recipes users interactions : list (string * gmap string value)) :
  run_pipeline uuid4 recipes users interactions = Ok None
  ↔ recipes = [] ∨ interactions = [].
Proof.
  unfold run_pipeline, fetch_collection_data.
  destruct recipes as [|r recipes], interactions as [|i interactions];
    rewrite ?fmap_cons, ?fmap_nil; try (split; [by auto|done]).
  match goal with
  | |- (?m ≫= _) = _ ↔ _ => destruct m as [res|e]
  end; esimpl; split; try done; by intros [|].
Qed.

(** In a pipeline run that exports, every interaction row is its
    fetched document with the timestamp converted and carries the
    document id as [doc_id]; the rows of the three other sets have no
    [doc_id] column. *)
Theorem run_pipeline_doc_ids (uuid4 : nat → string)
    (recipes users interactions : list (string * gmap string value))
    (out : frames) :
  run_pipeline uuid4 recipes users interactions = Ok (Some out) →
  interactions_df out
  = (λ doc, canonical (VDict (<["doc_id" := VStr doc.1]> doc.2))) <$> interactions
  ∧ Forall2 (λ doc row, ∃ d, row = VDict d ∧ d !! "doc_id" = Some (VStr doc.1))
            interactions (interactions_df out)
  ∧ Forall (λ row, row !! "doc_id" = None)
           (recipe_df out ++ ingredients_df out ++ steps_df out).
Proof.
  unfold run_pipeline.
  destruct (fetch_collection_data recipes) as [|r rs] eqn:Hr;
    [done|rewrite <- Hr; clear Hr].
  destruct (fetch_collection_data interactions) as [|i rest] eqn:Hi;
    [done|rewrite <- Hi; clear Hi].
  match goal with
  | |- (?m ≫= _) = _ → _ => destruct m as [[out' σ']|e] eqn:Hrun
  end; esimpl; [|done].
  intros [= <-].
  destruct (transform_rows_inv _ _ _ _ _ _ Hrun) as (_ & Hcr & Hci & Hcs).
  assert (Hdf : interactions_df out'
                = (λ l, canonical (alloc (fetch_collection_data interactions) l))
                    <$> seq 0 (length (fetch_collection_data interactions))).
  { destruct (transform_Ok_inv _ _ _ _ _ _ Hrun) as (a & _ & Hσ & ->). esimpl.
    pose proof (process_interactions_canonical _ _ _ Hσ (NoDup_seq _ _)) as Hcanon.
    apply list_fmap_ext. intros _ l Hl%list_elem_of_lookup_2.
    by destruct (Hcanon l Hl) as (d & _ & _ & ->). }
  assert (Hrows : interactions_df out'
                  = (λ doc, canonical (VDict (<["doc_id" := VStr doc.1]> doc.2)))
                      <$> interactions).
  { rewrite Hdf, (alloc_fmap canonical). unfold fetch_collection_data.
    by rewrite <- list_fmap_compose. }
  split_and!; [done| |].
  - rewrite Hrows. apply Forall2_fmap_r, Forall_Forall2_diag, Forall_forall.
    intros doc _.
    assert (Hc : ∃ d', canonical (VDict (<["doc_id" := VStr doc.1]> doc.2)) = VDict d'
                       ∧ d' !! "doc_id" = Some (VStr doc.1)).
    { unfold canonical.
      destruct (<["doc_id" := VStr doc.1]> doc.2 !! "timestamp") as [[]|];
        eexists; (split; [reflexivity|]);
        rewrite ?lookup_insert_ne by done; by rewrite lookup_insert_eq. }
    exact Hc.
  - destruct doc_id_no_column as (Hr & Hi & Hs).
    rewrite !Forall_app. split_and!;
      (eapply Forall_impl; [eassumption|]); simpl;
      [intros row Hdom|intros row [Hdom _]..];
      apply not_elem_of_dom; by rewrite Hdom.
Qed.

Lemma run_pipeline_doc_ids_witness :
  ∃ out,
    run_pipeline uuid4_example recipes_stream_example [] interactions_stream_example
    = Ok (Some out)
    ∧ interactions_df out
      = (λ doc, canonical (VDict (<["doc_id" := VStr doc.1]> doc.2)))
          <$> interactions_stream_example
    ∧ Forall2 (λ doc row, ∃ d, row = VDict d ∧ d !! "doc_id" = Some (VStr doc.1))
              interactions_stream_example (interactions_df out)
    ∧ Forall (λ row, row !! "doc_id" = None)
             (recipe_df out ++ ingredients_df out ++ steps_df out).
Proof.
  eexists. split; [vm_compute; reflexivity|].
  apply (run_pipeline_doc_ids uuid4_example recipes_stream_example []
           interactions_stream_example).
  vm_compute. reflexivity.
Defined.

End EtlFacts.

(** ** The insight engine *)

Module InsightsFacts.
Import Insights.

(** *** The order on strings *)

Lemma slt_trans (a b c : string) : slt a b → slt b c → slt a c.
Proof.
  unfold slt. rewrite !(String_as_OT.cmp_lt). apply String_as_OT.lt_trans.
Qed.

Lemma compare_refl (a : string) : String.compare a a = Eq.
Proof. by apply String_as_OT.cmp_eq. Qed.

Lemma slt_irrefl (a : string) : ¬ slt a a.
Proof. unfold slt. by rewrite compare_refl. Qed.

Lemma compare_gt_slt (a b : string) : String.compare a b = Gt → slt b a.
Proof.
  unfold slt. rewrite (String.compare_antisym b a). by intros ->.
Qed.

Lemma slt_sle (a b : string) : slt a b → sle a b.
Proof. unfold slt, sle. by intros ->. Qed.

Lemma sle_refl (a : string) : sle a a.
Proof. unfold sle. by rewrite compare_refl. Qed.

Lemma strongly_sorted_slt_NoDup (l : list string) :
  StronglySorted slt l → NoDup l.
Proof.
  induction 1 as [|x l _ IH Hall]; constructor; [|done].
  intros Hin. rewrite Forall_forall in Hall.
  by apply (slt_irrefl x), Hall.
Qed.

(** *** [groupby(...).size()] *)

Lemma bump_keys (k k' : string) (groups : list (string * Z)) :
  k' ∈ (bump k groups).*1 ↔ k' = k ∨ k' ∈ groups.*1.
Proof.
  induction groups as [|[k0 n] groups IH]; simpl.
  - rewrite list_elem_of_singleton, elem_of_nil. tauto.
  - destruct (String.compare k k0) eqn:Hcmp; simpl.
    + apply String_as_OT.cmp_eq in Hcmp as ->. rewrite !elem_of_cons. tauto.
    + rewrite !elem_of_cons. tauto.
    + rewrite !elem_of_cons, IH. tauto.
Qed.

Lemma bump_sorted (k : string) (groups : list (string * Z)) :
  StronglySorted slt groups.*1 → StronglySorted slt (bump k groups).*1.
Proof.
  induction groups as [|[k0 n] groups IH]; simpl.
  - repeat constructor.
  - intros [Hall Hsorted]%StronglySorted_cons.
    destruct (String.compare k k0) eqn:Hcmp; simpl.
    + by apply StronglySorted_cons.
    + apply StronglySorted_cons. split.
      * constructor; [done|].
        eapply Forall_impl; [exact Hall|]. intros k1. by apply slt_trans.
      * by apply StronglySorted_cons.
    + apply StronglySorted_cons. split; [|by apply IH].
      apply Forall_forall. intros k1 [->|Hin]%bump_keys.
      * by apply compare_gt_slt.
      * rewrite Forall_forall in Hall. by apply Hall.
Qed.

Lemma bump_count_in (k k' : string) (groups : list (string * Z)) :
  count_in k' (bump k groups)
  = count_in k' groups + (if decide (k' = k) then 1 else 0).
Proof.
  induction groups as [|[k0 n] groups IH]; simpl.
  - repeat case_decide; simplify_eq; lia.
  - destruct (String.compare k k0) eqn:Hcmp; simpl.
    + apply String_as_OT.cmp_eq in Hcmp as ->.
      repeat case_decide; simplify_eq; lia.
    + repeat case_decide; simplify_eq; lia.
    + rewrite IH. repeat case_decide; simplify_eq; lia.
Qed.

Lemma bump_positive (k : string) (groups : list (string * Z)) :
  Forall (λ g, 0 < g.2) groups → Forall (λ g, 0 < g.2) (bump k groups).
Proof.
  induction groups as [|[k0 n] groups IH]; simpl.
  - by repeat constructor.
  - intros [Hn Hall]%Forall_cons. simpl in Hn.
    destruct (String.compare k k0); repeat constructor; simpl; auto with lia.
Qed.

Lemma sum_cons (x : Z) (xs : list Z) : sum (x :: xs) = x + sum xs.
Proof. reflexivity. Qed.

Lemma bump_sum (k : string) (groups : list (string * Z)) :
  sum (bump k groups).*2 = sum groups.*2 + 1.
Proof.
  induction groups as [|[k0 n] groups IH]; [done|]. cbn [bump].
  destruct (String.compare k k0);
    rewrite ?fmap_cons, ?sum_cons; cbn [snd]; rewrite ?IH; lia.
Qed.

Lemma groupby_size_cons_Some (k : string) (keys : list (option string)) :
  groupby_size (Some k :: keys) = bump k (groupby_size keys).
Proof. reflexivity. Qed.

Lemma groupby_size_cons_None (keys : list (option string)) :
  groupby_size (None :: keys) = groupby_size keys.
Proof. reflexivity. Qed.

Ltac groupby_induction keys :=
  induction keys as [|[k0|] keys IH];
  [ | rewrite groupby_size_cons_Some | rewrite groupby_size_cons_None ].

Lemma groupby_size_sorted (keys : list (option string)) :
  StronglySorted slt (groupby_size keys).*1.
Proof.
  groupby_induction keys; [constructor| |done]. by apply bump_sorted.
Qed.

Lemma groupby_size_NoDup (keys : list (option string)) :
  NoDup (groupby_size keys).*1.
Proof. apply strongly_sorted_slt_NoDup, groupby_size_sorted. Qed.

Lemma groupby_size_keys (k : string) (keys : list (option string)) :
  k ∈ (groupby_size keys).*1 ↔ Some k ∈ keys.
Proof.
  groupby_induction keys.
  - simpl. rewrite !elem_of_nil. tauto.
  - rewrite bump_keys, IH, elem_of_cons. split.
    + intros [->|Hin]; [by left|by right].
    + intros [[= ->]|Hin]; [by left|by right].
  - rewrite IH, elem_of_cons. split; [by right|].
    by intros [?|?].
Qed.

Lemma count_key_nonneg (k : string) (keys : list (option string)) :
  0 ≤ count_key k keys.
Proof. unfold count_key. lia. Qed.

Lemma count_key_cons (k : string) (x : option string) (keys : list (option string)) :
  count_key k (x :: keys)
  = count_key k keys + (if decide (x = Some k) then 1 else 0).
Proof.
  unfold count_key. destruct (decide (x = Some k)) as [Hx|Hx].
  - rewrite filter_cons_True by done. simpl. lia.
  - rewrite filter_cons_False by done. lia.
Qed.

Lemma groupby_size_count_in (k : string) (keys : list (option string)) :
  count_in k (groupby_size keys) = count_key k keys.
Proof.
  groupby_induction keys.
  - done.
  - rewrite bump_count_in, IH, count_key_cons.
    repeat case_decide; simplify_eq; lia.
  - rewrite IH, count_key_cons. by rewrite decide_False, Z.add_0_r.
Qed.

Lemma groupby_size_positive (keys : list (option string)) :
  Forall (λ g, 0 < g.2) (groupby_size keys).
Proof.
  groupby_induction keys; [constructor| |done]. by apply bump_positive.
Qed.

Lemma groupby_size_sum (keys : list (option string)) :
  sum (groupby_size keys).*2 = Z.of_nat (length (omap id keys)).
Proof.
  groupby_induction keys; [done| |done].
  rewrite bump_sum, IH.
  change (omap id (Some k0 :: keys)) with (k0 :: omap id keys).
  cbn [length]. lia.
Qed.

Lemma groupby_size_length (keys : list (option string)) :
  length (groupby_size keys) = length (remove_dups (omap id keys)).
Proof.
  rewrite <- (length_fmap fst). apply Permutation_length.
  apply NoDup_Permutation.
  - apply groupby_size_NoDup.
  - apply NoDup_remove_dups.
  - intros k. rewrite groupby_size_keys, elem_of_remove_dups, list_elem_of_omap.
    split; [by exists (Some k) | intros (x & Hx & Hid)].
    unfold id in Hid. by subst x.
Qed.

Lemma count_in_notin (k : string) (groups : list (string * Z)) :
  k ∉ groups.*1 → count_in k groups = 0.
Proof.
  induction groups as [|[k0 n] groups IH]; simpl; [done|].
  intros [Hne Hnotin]%not_elem_of_cons. by rewrite decide_False, IH.
Qed.

Lemma count_in_elem (k : string) (n : Z) (groups : list (string * Z)) :
  NoDup groups.*1 → (k, n) ∈ groups → count_in k groups = n.
Proof.
  induction groups as [|[k0 n0] groups IH]; simpl.
  - by intros _ ?%elem_of_nil.
  - intros [Hnotin Hnodup]%NoDup_cons [[= -> ->]|Hin]%elem_of_cons.
    + rewrite decide_True, count_in_notin by done. lia.
    + rewrite decide_False, IH; [done..|].
      intros ->. apply Hnotin. by apply (list_elem_of_fmap_2 fst) in Hin.
Qed.

(** A group of the table is a key with the number of its rows. *)
Lemma groupby_size_elem (k : string) (n : Z) (keys : list (option string)) :
  (k, n) ∈ groupby_size keys ↔ n = count_key k keys ∧ 0 < n.
Proof.
  split.
  - intros Hin. split.
    + rewrite <- groupby_size_count_in. symmetry.
      by apply count_in_elem; [apply groupby_size_NoDup|].
    + pose proof (groupby_size_positive keys) as Hpos.
      rewrite Forall_forall in Hpos. by apply (Hpos (k, n)).
  - intros [-> Hpos].
    destruct (decide (k ∈ (groupby_size keys).*1)) as [Hin|Hnotin].
    + apply list_elem_of_fmap in Hin as ([k' n] & -> & Hin). simpl.
      replace (count_key k' keys) with n; [done|].
      rewrite <- groupby_size_count_in. symmetry.
      by apply count_in_elem; [apply groupby_size_NoDup|].
    + apply count_in_notin in Hnotin. rewrite groupby_size_count_in in Hnotin. lia.
Qed.

(** *** [sort_values(ascending=False)] *)

Section sorting.
Context {A : Type} (count : A → Z).

Lemma insert_desc_perm (x : A) (sorted : list A) :
  insert_desc count x sorted ≡ₚ x :: sorted.
Proof.
  induction sorted as [|y sorted IH]; simpl; [done|].
  destruct (count x <? count y); [|done].
  rewrite IH. apply Permutation_swap.
Qed.

Lemma sort_values_desc_perm (df : list A) : sort_values_desc count df ≡ₚ df.
Proof.
  induction df as [|x df IH]; simpl; [done|].
  by rewrite insert_desc_perm, IH.
Qed.

Lemma elem_of_sort_values_desc (x : A) (df : list A) :
  x ∈ sort_values_desc count df ↔ x ∈ df.
Proof. by rewrite sort_values_desc_perm. Qed.

Variable R : relation A.

Lemma insert_desc_sorted (x : A) (sorted : list A) :
  StronglySorted (desc_then count R) sorted →
  Forall (R x) sorted →
  StronglySorted (desc_then count R) (insert_desc count x sorted).
Proof.
  induction sorted as [|y sorted IH]; simpl.
  - intros _ _. by repeat constructor.
  - intros [Hy Hsorted]%StronglySorted_cons [Hxy Hx]%Forall_cons.
    destruct (Z.ltb_spec (count x) (count y)) as [Hlt|Hge].
    + apply StronglySorted_cons. split; [|by apply IH].
      rewrite insert_desc_perm. constructor; [by left|done].
    + apply StronglySorted_cons. split; [|by apply StronglySorted_cons].
      constructor.
      * unfold desc_then. destruct (decide (count y = count x)); [right|left];
          [done|lia].
      * rewrite Forall_forall in Hy, Hx. apply Forall_forall. intros z Hz.
        specialize (Hy z Hz). specialize (Hx z Hz). unfold desc_then in *.
        destruct (decide (count z = count x)); [right|left]; [done|lia].
Qed.

(** Rows of equal count keep the order of the frame: a frame that is
    in [R] order comes out sorted by count first and by [R] next. *)
Lemma sort_values_desc_sorted (df : list A) :
  StronglySorted R df →
  StronglySorted (desc_then count R) (sort_values_desc count df).
Proof.
  induction df as [|x df IH]; simpl; [constructor|].
  intros [Hx Hsorted]%StronglySorted_cons.
  apply insert_desc_sorted; [by apply IH|].
  by rewrite sort_values_desc_perm.
Qed.
End sorting.

Lemma desc_then_count {A : Type} (count : A → Z) (R : relation A) (a b : A) :
  desc_then count R a b → count b ≤ count a.
Proof. unfold desc_then. lia. Qed.

Lemma strongly_sorted_any {A : Type} (df : list A) :
  StronglySorted (λ _ _, True) df.
Proof. induction df; constructor; [done|]. by apply Forall_forall. Qed.

(** *** [pd.merge] *)

Lemma elem_of_merge {A B : Type} (key_l : A → option string)
    (key_r : B → option string) (left : list A) (right : list B) (l : A) (r : B) :
  (l, r) ∈ merge key_l key_r left right
  ↔ l ∈ left ∧ r ∈ right ∧ key_r r = key_l l.
Proof.
  unfold merge. rewrite list_elem_of_bind. split.
  - intros (l' & (r' & Hin & Hr)%list_elem_of_bind & Hl).
    apply list_elem_of_singleton in Hin as [= -> ->].
    apply list_elem_of_filter in Hr as [Hkey Hr]. done.
  - intros (Hl & Hr & Hkey). exists l. split; [|done].
    apply list_elem_of_bind. exists r. split; [by apply list_elem_of_singleton|].
    by apply list_elem_of_filter.
Qed.

Lemma merge_cons {A B : Type} (key_l : A → option string)
    (key_r : B → option string) (l : A) (left : list A) (right : list B) :
  merge key_l key_r (l :: left) right
  = ((λ r, (l, r)) <$> filter (λ r, key_r r = key_l l) right)
    ++ merge key_l key_r left right.
Proof.
  unfold merge. rewrite bind_cons. f_equal.
Qed.

(** The merged frame follows the order of its left frame. *)
Lemma merge_sorted {A B : Type} (R : relation A) (key_l : A → option string)
    (key_r : B → option string) (left : list A) (right : list B) :
  (∀ l, R l l) →
  StronglySorted R left →
  StronglySorted (λ a b, R a.1 b.1) (merge key_l key_r left right).
Proof.
  intros Hrefl. induction left as [|l left IH].
  - intros _. constructor.
  - intros [Hl Hsorted]%StronglySorted_cons. rewrite merge_cons.
    apply StronglySorted_app_2.
    + intros a b (r & -> & _)%list_elem_of_fmap Hb. simpl.
      destruct b as [l' r']. apply elem_of_merge in Hb as (Hl' & _). simpl.
      rewrite Forall_forall in Hl. by apply Hl.
    + induction (filter (λ r, key_r r = key_l l) right) as [|r rs IHrs];
        [constructor|].
      rewrite fmap_cons. apply StronglySorted_cons. split; [|done].
      apply Forall_forall. by intros a (r0 & -> & _)%list_elem_of_fmap.
    + by apply IH.
Qed.

(** *** [to_dict] *)

Lemma dict_set_fresh {K V : Type} `{EqDecision K} (k : K) (v : V) (d : list (K * V)) :
  k ∉ d.*1 → dict_set k v d = d ++ [(k, v)].
Proof.
  induction d as [|[k' v'] d IH]; simpl; [done|].
  intros [Hne Hnotin]%not_elem_of_cons.
  by rewrite decide_False, IH.
Qed.

Lemma to_dict_NoDup {K V : Type} `{EqDecision K} (items : list (K * V)) :
  NoDup items.*1 → to_dict items = items.
Proof.
  unfold to_dict.
  assert (Hgen : ∀ d, NoDup (d ++ items).*1 →
                      foldl (λ d kv, dict_set kv.1 kv.2 d) d items = d ++ items).
  { induction items as [|[k v] items IH]; intros d; simpl.
    - by rewrite app_nil_r.
    - intros Hnodup. rewrite dict_set_fresh.
      + rewrite IH; rewrite <- app_assoc; done.
      + rewrite fmap_app in Hnodup. apply NoDup_app in Hnodup as (_ & Hdis & _).
        intros Hin. apply (Hdis k Hin). simpl. by left. }
  intros Hnodup. by apply (Hgen []).
Qed.

(** *** [drop_duplicates] *)

Section dedup.
Context {A K : Type} `{EqDecision K} (key : A → K).

Lemma drop_duplicates_from_spec (seen : list K) (df : list A) :
  NoDup (key <$> drop_duplicates_from key seen df)
  ∧ (∀ x, x ∈ drop_duplicates_from key seen df → x ∈ df ∧ key x ∉ seen)
  ∧ (∀ x, x ∈ df → key x ∈ seen ∨ key x ∈ key <$> drop_duplicates_from key seen df).
Proof.
  revert seen. induction df as [|x df IH]; intros seen; simpl.
  - split_and!; [constructor|by intros ? ?%elem_of_nil..].
  - destruct (decide (key x ∈ seen)) as [Hseen|Hnew].
    + destruct (IH seen) as (Hnodup & Hsub & Hcover). split_and!; [done| |].
      * intros y Hy. destruct (Hsub y Hy). split; [by right|done].
      * intros y [->|Hy]%elem_of_cons; [by left|by apply Hcover].
    + destruct (IH (key x :: seen)) as (Hnodup & Hsub & Hcover). split_and!.
      * rewrite fmap_cons. apply NoDup_cons. split; [|done].
        intros (y & Hkey & Hy)%list_elem_of_fmap.
        destruct (Hsub y Hy) as [_ Hnotin]. apply Hnotin. rewrite Hkey. by left.
      * intros y [->|Hy]%elem_of_cons; [split; [by left|done]|].
        destruct (Hsub y Hy) as [Hin Hnotin]. split; [by right|].
        intros Hs. apply Hnotin. by right.
      * intros y [->|Hy]%elem_of_cons.
        -- right. rewrite fmap_cons. by left.
        -- destruct (Hcover y Hy) as [[->|Hs]%elem_of_cons|Hk].
           ++ right. rewrite fmap_cons. by left.
           ++ by left.
           ++ right. rewrite fmap_cons. by right.
Qed.

Lemma drop_duplicates_NoDup (df : list A) : NoDup (key <$> drop_duplicates key df).
Proof. apply (drop_duplicates_from_spec [] df). Qed.

Lemma drop_duplicates_sub (x : A) (df : list A) :
  x ∈ drop_duplicates key df → x ∈ df.
Proof. intros H. by apply (drop_duplicates_from_spec [] df) in H as [? _]. Qed.

Lemma drop_duplicates_cover (x : A) (df : list A) :
  x ∈ df → key x ∈ key <$> drop_duplicates key df.
Proof.
  intros H. apply (drop_duplicates_from_spec [] df) in H as [[]%elem_of_nil|H].
  done.
Qed.
End dedup.

(** *** Counting through a column *)

Lemma count_key_fmap {A : Type} (f : A → option string) (k : string) (df : list A) :
  count_key k (f <$> df) = Z.of_nat (length (filter (λ x, f x = Some k) df)).
Proof.
  unfold count_key. f_equal.
  induction df as [|x df IH]; [done|]. rewrite fmap_cons.
  destruct (decide (f x = Some k)) as [Hx|Hx].
  - rewrite !filter_cons_True by done. simpl. by rewrite IH.
  - by rewrite !filter_cons_False.
Qed.

Lemma omap_id_fmap {A : Type} (f : A → option string) (df : list A) :
  omap id (f <$> df) = omap f df.
Proof.
  induction df as [|x df IH]; [done|]. simpl.
  destruct (f x); simpl; [f_equal|]; exact IH.
Qed.

(** *** Insight 10 *)

Lemma insight_10_some_recipes (recipes_df : list recipe)
    (interactions_df : list interaction) :
  recipes_df ≠ [] →
  ∃ percentage attempted,
    insight_10 recipes_df interactions_df
    = Ok (percentage, attempted, Z.of_nat (length recipes_df)).
Proof.
  intros Hne. unfold insight_10, py_truediv.
  destruct (Z.eqb_spec (Z.of_nat (length recipes_df)) 0) as [Hz|Hz].
  - destruct recipes_df; [done|]. simpl in Hz. lia.
  - simpl. eauto.
Qed.

(** *** Insight 8 *)

Lemma insight_8_groups (steps_df : list step) :
  sum (groupby_size (stp_recipe_id <$> steps_df)).*2 = rows_with_recipe_id steps_df
  ∧ Z.of_nat (length (groupby_size (stp_recipe_id <$> steps_df)).*2)
    = distinct_recipe_ids steps_df.
Proof.
  unfold rows_with_recipe_id, distinct_recipe_ids.
  by rewrite groupby_size_sum, length_fmap, groupby_size_length, omap_id_fmap.
Qed.

Lemma insight_8_no_groups (steps_df : list step) :
  groupby_size (stp_recipe_id <$> steps_df) = []
  ↔ Forall (λ s, stp_recipe_id s = None) steps_df.
Proof.
  pose proof (λ k, groupby_size_keys k (stp_recipe_id <$> steps_df)) as Hkeys.
  split.
  - intros Hnil. rewrite Hnil in Hkeys. apply Forall_forall. intros s Hs.
    destruct (stp_recipe_id s) as [k|] eqn:Hk; [|done].
    exfalso. apply (proj1 (elem_of_nil k)). apply (proj2 (Hkeys k)).
    rewrite <- Hk. by apply list_elem_of_fmap_2.
  - intros Hnone.
    destruct (groupby_size (stp_recipe_id <$> steps_df)) as [|g groups]; [done|].
    exfalso.
    assert (Hin : Some g.1 ∈ stp_recipe_id <$> steps_df)
      by (apply (proj1 (Hkeys g.1)); rewrite fmap_cons; by left).
    apply list_elem_of_fmap in Hin as (s & Hid & Hs).
    rewrite Forall_forall in Hnone. specialize (Hnone s Hs). congruence.
Qed.

Lemma insight_8_value (steps_df : list step) :
  insight_8 steps_df
  = if decide (groupby_size (stp_recipe_id <$> steps_df) = [])
    then Raise AttributeError
    else Ok (np_round2
               (PrimFloat.div (float_of_Z (rows_with_recipe_id steps_df))
                              (float_of_Z (distinct_recipe_ids steps_df)))).
Proof.
  unfold insight_8, mean.
  destruct (insight_8_groups steps_df) as [Hsum Hlen].
  destruct (groupby_size (stp_recipe_id <$> steps_df)) as [|g groups] eqn:Hg.
  - by rewrite decide_True.
  - rewrite decide_False by done. rewrite fmap_cons in *.
    by rewrite Hsum, Hlen.
Qed.

(** C7, amended: when some Step row has a [recipe_id], insight 8 is the
    number of Step rows that have a [recipe_id] over the number of
    distinct recipe ids of the Step set, one binary64 division, rounded
    to two decimals as numpy rounds.  It is computed from the Step set
    alone, so a recipe without steps cannot change it. *)
Theorem insight_8_rows_over_distinct_ids (steps_df : list step) :
  Exists (λ s, is_Some (stp_recipe_id s)) steps_df →
  insight_8 steps_df
  = Ok (np_round2
          (PrimFloat.div (float_of_Z (rows_with_recipe_id steps_df))
                         (float_of_Z (distinct_recipe_ids steps_df)))).
Proof.
  intros Hsome. rewrite insight_8_value.
  destruct (decide (groupby_size (stp_recipe_id <$> steps_df) = [])) as [Hnil|];
    [|done].
  apply insight_8_no_groups in Hnil. exfalso.
  apply Exists_exists in Hsome as (s & Hs & [k Hk]).
  rewrite Forall_forall in Hnil. specialize (Hnil s Hs). congruence.
Qed.

Lemma insight_8_rows_over_distinct_ids_witness :
  Exists (λ s, is_Some (stp_recipe_id s))
    [Step None; Step (Some "R1"); Step (Some "R2"); Step (Some "R1")]
  ∧ insight_8 [Step None; Step (Some "R1"); Step (Some "R2"); Step (Some "R1")]
    = Ok (np_round2
            (PrimFloat.div
               (float_of_Z (rows_with_recipe_id
                  [Step None; Step (Some "R1"); Step (Some "R2"); Step (Some "R1")]))
               (float_of_Z (distinct_recipe_ids
                  [Step None; Step (Some "R1"); Step (Some "R2"); Step (Some "R1")])))).
Proof.
  assert (H : Exists (λ s, is_Some (stp_recipe_id s))
                [Step None; Step (Some "R1"); Step (Some "R2"); Step (Some "R1")]).
  { apply Exists_cons_tl, Exists_cons_hd. by eexists. }
  split; [exact H|].
  exact (insight_8_rows_over_distinct_ids _ H).
Defined.

(** C7 as stated fails on a Step row without [recipe_id]: the row is in
    no group, so it is not counted, and the result is 1.0 where all
    rows over the distinct ids give 2.0. *)
Lemma insight_8_skips_rows_without_id :
  insight_8 [Step None; Step (Some "R1")] = Ok (float_of_Z 1)
  ∧ insight_8_all_rows [Step None; Step (Some "R1")] = Ok (float_of_Z 2)
  ∧ insight_8 [Step None; Step (Some "R1")]
    ≠ insight_8_all_rows [Step None; Step (Some "R1")].
Proof.
  assert (H1 : insight_8 [Step None; Step (Some "R1")] = Ok (float_of_Z 1))
    by (vm_compute; reflexivity).
  assert (H2 : insight_8_all_rows [Step None; Step (Some "R1")] = Ok (float_of_Z 2))
    by (vm_compute; reflexivity).
  split_and!; [exact H1|exact H2|].
  rewrite H1, H2. intros Heq.
  apply (f_equal (λ r, match r with
                       | Ok x => PrimFloat.eqb x (float_of_Z 1)
                       | Raise _ => false
                       end)) in Heq.
  vm_compute in Heq. discriminate Heq.
Qed.

(** The rounding is numpy's: 49 step rows over 40 recipes are 1.225 in
    decimals, and the quotient of the floats, times 100, lies above
    122.5, so the result is 1.23. *)
Example insight_8_rounds_as_numpy :
  insight_8 ((λ n, Step (Some (pretty n))) <$> (seq 0 40 ++ seq 0 9))
  = Ok (PrimFloat.div (float_of_Z 123) (float_of_Z 100)).
Proof. vm_compute. reflexivity. Qed.

(** *** Insight 5 *)

Lemma elem_of_take_drop {A : Type} (n : nat) (x : A) (l : list A) :
  x ∈ l ↔ x ∈ take n l ∨ x ∈ drop n l.
Proof. by rewrite <- elem_of_app, take_drop. Qed.

Lemma view_count_groups (rid : string) (n : Z) (interactions_df : list interaction) :
  (rid, n) ∈ views_per_recipe interactions_df
  ↔ n = view_count rid interactions_df ∧ 0 < n.
Proof.
  unfold views_per_recipe, view_count.
  by rewrite groupby_size_elem, count_key_fmap.
Qed.


(** *** Insight 11 *)

Lemma NoDup_users_of_recipe (rid : string) (df : list interaction) :
  NoDup (like_key <$> df) →
  NoDup (int_user_id <$> filter (λ i, int_recipe_id i = Some rid) df).
Proof.
  induction df as [|x df IH]; [constructor|]. rewrite fmap_cons.
  intros [Hx Hnodup]%NoDup_cons.
  destruct (decide (int_recipe_id x = Some rid)) as [HPx|HPx].
  - rewrite filter_cons_True by done. rewrite fmap_cons.
    apply NoDup_cons. split; [|by apply IH].
    intros (y & Huid & [HPy Hy]%list_elem_of_filter)%list_elem_of_fmap.
    apply Hx. apply list_elem_of_fmap. exists y. split; [|done].
    unfold like_key. simpl in HPy. by rewrite Huid, HPx, HPy.
  - rewrite filter_cons_False by done. by apply IH.
Qed.

(** After [drop_duplicates] the rows of a recipe are as many as the
    distinct users who liked it. *)
Lemma unique_rows_of_recipe (rid : string) (df : list interaction) :
  length (filter (λ i, int_recipe_id i = Some rid) (drop_duplicates like_key df))
  = length (remove_dups
              (int_user_id <$> filter (λ i, int_recipe_id i = Some rid) df)).
Proof.
  rewrite <- (length_fmap int_user_id). apply Permutation_length.
  apply NoDup_Permutation.
  - apply NoDup_users_of_recipe, drop_duplicates_NoDup.
  - apply NoDup_remove_dups.
  - intros u. rewrite elem_of_remove_dups, !list_elem_of_fmap. split.
    + intros (y & -> & [HPy Hy]%list_elem_of_filter). exists y. split; [done|].
      apply list_elem_of_filter. split; [done|].
      by apply (drop_duplicates_sub like_key).
    + intros (y & -> & [HPy Hy]%list_elem_of_filter).
      apply (drop_duplicates_cover like_key) in Hy.
      apply list_elem_of_fmap in Hy as (z & Hkey & Hz).
      injection Hkey as Hr Hu. exists z. split; [done|].
      apply list_elem_of_filter. split; [|done].
      simpl in *. by rewrite <- Hr.
Qed.

Lemma unique_likes_groups (rid : string) (n : Z) (interactions_df : list interaction) :
  (rid, n) ∈ unique_likes interactions_df
  ↔ n = like_count rid interactions_df ∧ 0 < n.
Proof.
  unfold unique_likes, like_count, likers.
  by rewrite groupby_size_elem, count_key_fmap, unique_rows_of_recipe.
Qed.

Lemma like_count_nonneg (rid : string) (interactions_df : list interaction) :
  0 ≤ like_count rid interactions_df.
Proof. unfold like_count. lia. Qed.

(** C8: insight 11 is empty when no recipe of the recipes frame has a
    LIKE row; otherwise it is one recipe of the frame with the number
    of distinct users who liked it, several LIKE rows of one user
    counting once, and no recipe of the frame has more. *)
Theorem insight_11_most_liked (recipes_df : list recipe)
    (interactions_df : list interaction) :
  (insight_11 recipes_df interactions_df = []
   ∧ ∀ r rid, r ∈ recipes_df → rcp_recipe_id r = Some rid →
              like_count rid interactions_df = 0)
  ∨ (∃ r rid,
       r ∈ recipes_df ∧ rcp_recipe_id r = Some rid
       ∧ insight_11 recipes_df interactions_df
         = [(rcp_name r, like_count rid interactions_df)]
       ∧ 0 < like_count rid interactions_df
       ∧ ∀ r' rid', r' ∈ recipes_df → rcp_recipe_id r' = Some rid' →
                    like_count rid' interactions_df
                    ≤ like_count rid interactions_df).
Proof.
  unfold insight_11, most_unique_liked.
  set (count := λ row : recipe * (string * Z), row.2.2).
  set (merged := merge rcp_recipe_id (λ g : string * Z, Some g.1)
                   recipes_df (unique_likes interactions_df)).
  assert (Hmerged : ∀ r rid n,
             (r, (rid, n)) ∈ sort_values_desc count merged
             ↔ r ∈ recipes_df ∧ rcp_recipe_id r = Some rid
               ∧ n = like_count rid interactions_df ∧ 0 < n).
  { intros r rid n. unfold merged.
    rewrite elem_of_sort_values_desc, elem_of_merge, unique_likes_groups. simpl.
    split; [intros (? & ? & [= ->]); tauto | intros (? & -> & ?); tauto]. }
  pose proof (sort_values_desc_sorted count (λ _ _, True) merged
                (strongly_sorted_any merged)) as Hsorted.
  destruct (sort_values_desc count merged) as [|[r [rid n]] rest] eqn:Hs.
  - left. split; [done|]. intros r rid Hr Hid.
    pose proof (like_count_nonneg rid interactions_df) as Hnn.
    destruct (decide (like_count rid interactions_df = 0)) as [|Hne]; [done|].
    exfalso. eapply elem_of_nil, (Hmerged r rid). split_and!; [done..|lia].
  - right. destruct (Hmerged r rid n) as [(Hr & Hid & -> & Hpos) _]; [by left|].
    exists r, rid. split_and!; try done.
    intros r' rid' Hr' Hid'.
    pose proof (like_count_nonneg rid' interactions_df) as Hnn.
    destruct (decide (like_count rid' interactions_df = 0)) as [->|Hne]; [lia|].
    assert (Hin : (r', (rid', like_count rid' interactions_df))
                  ∈ (r, (rid, like_count rid interactions_df)) :: rest).
    { apply Hmerged. split_and!; [done..|lia]. }
    apply elem_of_cons in Hin as [[= _ _ ->]|Hin]; [lia|].
    apply StronglySorted_cons in Hsorted as [Hhead _].
    rewrite Forall_forall in Hhead.
    by apply (desc_then_count count (λ _ _, True) _ _ (Hhead _ Hin)).
Qed.

(** The specification's reading on an example: three LIKE rows of one
    user on R1 count once, R2 has two distinct users. *)
Example insight_11_example :
  insight_11 recipes_example
    [like "u1" "R1"; like "u1" "R1"; like "u1" "R1"; like "u1" "R2"; like "u2" "R2"]
  = [(Some "Curry", 2)].
Proof. reflexivity. Qed.

(** *** The order of the rows *)

Lemma strongly_sorted_fst (groups : list (string * Z)) :
  StronglySorted slt groups.*1 →
  StronglySorted (λ g1 g2 : string * Z, slt g1.1 g2.1) groups.
Proof.
  induction groups as [|g groups IH]; [constructor|]. rewrite fmap_cons.
  intros [Hg Hsorted]%StronglySorted_cons. apply StronglySorted_cons.
  split; [|by apply IH].
  apply Forall_forall. intros g' Hg'.
  rewrite Forall_forall in Hg. apply Hg. by apply list_elem_of_fmap_2.
Qed.

(** The table of groups is determined by the number of rows of each key. *)
Lemma groupby_size_ext (keys keys' : list (option string)) :
  (∀ k, count_key k keys = count_key k keys') →
  groupby_size keys = groupby_size keys'.
Proof.
  intros Hext.
  apply (StronglySorted_unique_strong (λ g1 g2 : string * Z, slt g1.1 g2.1)).
  - intros g1 g2 _ _ H12 H21. destruct (slt_irrefl g1.1). by eapply slt_trans.
  - apply strongly_sorted_fst, groupby_size_sorted.
  - apply strongly_sorted_fst, groupby_size_sorted.
  - apply NoDup_Permutation.
    + apply (NoDup_fmap_1 fst), groupby_size_NoDup.
    + apply (NoDup_fmap_1 fst), groupby_size_NoDup.
    + intros [k n]. by rewrite !groupby_size_elem, Hext.
Qed.

Lemma count_key_perm (k : string) (keys keys' : list (option string)) :
  keys ≡ₚ keys' → count_key k keys = count_key k keys'.
Proof. intros Hperm. unfold count_key. by rewrite Hperm. Qed.

Lemma groupby_size_perm (keys keys' : list (option string)) :
  keys ≡ₚ keys' → groupby_size keys = groupby_size keys'.
Proof. intros Hperm. apply groupby_size_ext. intros k. by apply count_key_perm. Qed.

Lemma of_type_perm (t : string) (df df' : list interaction) :
  df ≡ₚ df' → of_type t df ≡ₚ of_type t df'.
Proof. intros Hperm. unfold of_type. by rewrite Hperm. Qed.

(** Insight 5 does not depend on the order of the interaction rows. *)
Theorem insight_5_row_order (recipes_df : list recipe)
    (interactions_df interactions_df' : list interaction) :
  interactions_df ≡ₚ interactions_df' →
  insight_5 recipes_df interactions_df = insight_5 recipes_df interactions_df'.
Proof.
  intros Hperm. unfold insight_5, views_ranked, views_per_recipe.
  rewrite (groupby_size_perm (int_recipe_id <$> of_type "VIEW" interactions_df)
             (int_recipe_id <$> of_type "VIEW" interactions_df')); [done|].
  by apply fmap_Permutation, of_type_perm.
Qed.

Lemma insight_5_row_order_witness :
  [view "R2"; view "R1"; view "R1"] ≡ₚ [view "R1"; view "R2"; view "R1"]
  ∧ insight_5 recipes_example [view "R2"; view "R1"; view "R1"]
    = insight_5 recipes_example [view "R1"; view "R2"; view "R1"].
Proof.
  assert (H : [view "R2"; view "R1"; view "R1"]
              ≡ₚ [view "R1"; view "R2"; view "R1"]) by apply perm_swap.
  split; [exact H|].
  exact (insight_5_row_order recipes_example _ _ H).
Defined.

(** Insight 8 does not depend on the order of the Step rows. *)
Theorem insight_8_row_order (steps_df steps_df' : list step) :
  steps_df ≡ₚ steps_df' → insight_8 steps_df = insight_8 steps_df'.
Proof.
  intros Hperm. unfold insight_8.
  rewrite (groupby_size_perm (stp_recipe_id <$> steps_df)
             (stp_recipe_id <$> steps_df')); [done|].
  by apply fmap_Permutation.
Qed.

Lemma insight_8_row_order_witness :
  [Step (Some "R2"); Step (Some "R1"); Step None]
  ≡ₚ [Step (Some "R1"); Step (Some "R2"); Step None]
  ∧ insight_8 [Step (Some "R2"); Step (Some "R1"); Step None]
    = insight_8 [Step (Some "R1"); Step (Some "R2"); Step None].
Proof.
  assert (H : [Step (Some "R2"); Step (Some "R1"); Step None]
              ≡ₚ [Step (Some "R1"); Step (Some "R2"); Step None])
    by apply perm_swap.
  split; [exact H|].
  exact (insight_8_row_order _ _ H).
Defined.

Lemma remove_dups_perm {A : Type} `{EqDecision A} (l l' : list A) :
  l ≡ₚ l' → remove_dups l ≡ₚ remove_dups l'.
Proof.
  intros Hperm. apply NoDup_Permutation; [apply NoDup_remove_dups..|].
  intros x. by rewrite !elem_of_remove_dups, Hperm.
Qed.

Lemma like_count_perm (rid : string) (df df' : list interaction) :
  df ≡ₚ df' → like_count rid df = like_count rid df'.
Proof.
  intros Hperm. unfold like_count, likers. f_equal.
  apply Permutation_length, remove_dups_perm, fmap_Permutation.
  by rewrite (of_type_perm "LIKE" df df' Hperm).
Qed.

Lemma unique_likes_perm (df df' : list interaction) :
  df ≡ₚ df' → unique_likes df = unique_likes df'.
Proof.
  intros Hperm. unfold unique_likes. apply groupby_size_ext. intros k.
  rewrite !count_key_fmap, !unique_rows_of_recipe.
  apply (like_count_perm k df df' Hperm).
Qed.

(** Insight 11 does not depend on the order of the interaction rows,
    although [drop_duplicates] keeps the first row of each pair of
    recipe and user. *)
Theorem insight_11_row_order (recipes_df : list recipe)
    (interactions_df interactions_df' : list interaction) :
  interactions_df ≡ₚ interactions_df' →
  insight_11 recipes_df interactions_df = insight_11 recipes_df interactions_df'.
Proof.
  intros Hperm. unfold insight_11, most_unique_liked.
  by rewrite (unique_likes_perm _ _ Hperm).
Qed.

Lemma insight_11_row_order_witness :
  [like "u1" "R2"; like "u1" "R1"; like "u2" "R2"]
  ≡ₚ [like "u1" "R1"; like "u1" "R2"; like "u2" "R2"]
  ∧ insight_11 recipes_example [like "u1" "R2"; like "u1" "R1"; like "u2" "R2"]
    = insight_11 recipes_example [like "u1" "R1"; like "u1" "R2"; like "u2" "R2"].
Proof.
  assert (H : [like "u1" "R2"; like "u1" "R1"; like "u2" "R2"]
              ≡ₚ [like "u1" "R1"; like "u1" "R2"; like "u2" "R2"])
    by apply perm_swap.
  split; [exact H|].
  exact (insight_11_row_order recipes_example _ _ H).
Defined.

(** *** Rounding *)

Lemma round_half_even_bounds (a b : Z) (q : Q) :
  (inject_Z a <= q)%Q → (q <= inject_Z b)%Q →
  a ≤ round_half_even q ≤ b.
Proof.
  destruct q as [n d]. unfold Qle, inject_Z, round_half_even. simpl.
  rewrite !Z.mul_1_r. intros Ha Hb.
  pose proof (Z.div_mod n (Z.pos d) ltac:(lia)) as Hdiv.
  pose proof (Z.mod_pos_bound n (Z.pos d) ltac:(lia)) as Hmod.
  assert (Hlo : a ≤ n / Z.pos d) by (apply Z.div_le_lower_bound; lia).
  assert (Hhi : n / Z.pos d ≤ b) by (apply Z.div_le_upper_bound; [lia|nia]).
  assert (Hstep : 0 < n mod Z.pos d → n / Z.pos d + 1 ≤ b).
  { intros Hr. destruct (decide (n / Z.pos d = b)) as [Heq|]; [|lia].
    rewrite Heq in Hdiv. lia. }
  repeat case_match; lia.
Qed.

Lemma round2_bounds (a b : Z) (q : Q) :
  (inject_Z a <= q)%Q → (q <= inject_Z b)%Q →
  ∃ r, round2 (Finite q) = Finite r ∧ (inject_Z a <= r)%Q ∧ (r <= inject_Z b)%Q.
Proof.
  intros Ha Hb.
  destruct (round_half_even_bounds (a * 100) (b * 100) (q * 100)%Q) as [Hlo Hhi].
  - rewrite inject_Z_mult. by apply Qmult_le_compat_r.
  - rewrite inject_Z_mult. by apply Qmult_le_compat_r.
  - unfold round2. set (z := round_half_even (q * 100)) in *. clearbody z.
    eexists. split; [reflexivity|].
    unfold Qle, Qdiv, Qmult, Qinv, inject_Z. simpl. lia.
Qed.

(** *** Insight 5 under any sort *)

Lemma insight_5_stable_sort (recipes_df : list recipe)
    (interactions_df : list interaction) :
  insight_5 recipes_df interactions_df
  = insight_5_by (sort_values_desc (λ row, row.1.2)) recipes_df interactions_df.
Proof. reflexivity. Qed.

Lemma strongly_sorted_impl {A : Type} (R R' : relation A) (l : list A) :
  (∀ a b, R a b → R' a b) → StronglySorted R l → StronglySorted R' l.
Proof.
  intros Himpl. induction 1 as [|x l _ IH Hx]; constructor; [done|].
  eapply Forall_impl; [exact Hx|]. intros y. apply Himpl.
Qed.

Lemma sort_values_desc_descending {A : Type} (count : A → Z) :
  sorts_descending count (sort_values_desc count).
Proof.
  intros df. split; [apply sort_values_desc_perm|].
  pose proof (sort_values_desc_sorted count (λ _ _, True) df
                (strongly_sorted_any df)) as Hsorted.
  eapply strongly_sorted_impl; [|exact Hsorted].
  intros a b Hab. apply (desc_then_count count (λ _ _, True) a b Hab).
Qed.

(** With two rows of different counts there is one descending order. *)
Lemma sorts_descending_two {A : Type} (count : A → Z) (sort : list A → list A)
    (a b : A) :
  sorts_descending count sort → count b < count a → sort [a; b] = [a; b].
Proof.
  intros Hsort Hlt. destruct (Hsort [a; b]) as [Hperm Hsorted].
  pose proof (Permutation_length Hperm) as Hlen.
  destruct (sort [a; b]) as [|x [|y [|z rest]]]; try discriminate Hlen.
  apply Permutation_length_2 in Hperm as [[-> ->]|[-> ->]]; [done|].
  apply StronglySorted_cons in Hsorted as [Hhead _].
  apply Forall_cons in Hhead as [Hle _]. lia.
Qed.

Lemma views_ranked_by_perm
    (sort : list ((string * Z) * recipe) → list ((string * Z) * recipe))
    (recipes_df : list recipe) (interactions_df interactions_df' : list interaction) :
  interactions_df ≡ₚ interactions_df' →
  views_ranked_by sort recipes_df interactions_df
  = views_ranked_by sort recipes_df interactions_df'.
Proof.
  intros Hperm. unfold views_ranked_by, views_per_recipe.
  rewrite (groupby_size_perm (int_recipe_id <$> of_type "VIEW" interactions_df)
             (int_recipe_id <$> of_type "VIEW" interactions_df')); [done|].
  by apply fmap_Permutation, of_type_perm.
Qed.



(** *** Insight 8, when it raises *)

(** Insight 8 raises [AttributeError] exactly when no Step row has a
    [recipe_id] (the mean of the empty table of groups is the Python
    [nan], which has no [round]), and returns a float otherwise. *)
Theorem insight_8_raises (steps_df : list step) :
  (insight_8 steps_df = Raise AttributeError
   ↔ Forall (λ s, stp_recipe_id s = None) steps_df)
  ∧ ((∃ x, insight_8 steps_df = Ok x)
     ↔ Exists (λ s, is_Some (stp_recipe_id s)) steps_df).
Proof.
  pose proof (insight_8_no_groups steps_df) as Hnil.
  rewrite insight_8_value.
  destruct (decide (groupby_size (stp_recipe_id <$> steps_df) = [])) as [Hg|Hg].
  - pose proof (proj1 Hnil Hg) as Hnone. split; [by split|]. split.
    + intros [x Hx]. discriminate Hx.
    + intros (s & Hs & [k Hk])%Exists_exists.
      rewrite Forall_forall in Hnone. specialize (Hnone s Hs). congruence.
  - split.
    + split; [discriminate|]. intros Hnone. destruct Hg. by apply Hnil.
    + split; [intros _|by eexists].
      assert (Hnot : ¬ Forall (λ s, stp_recipe_id s = None) steps_df)
        by (intros Hnone; apply Hg; by apply Hnil).
      apply not_Forall_Exists in Hnot; [|apply _].
      eapply Exists_impl; [exact Hnot|]. intros s Hs. simpl in Hs.
      by apply not_eq_None_Some.
Qed.

(** *** [generate_insights] on empty frames *)

(** C5 at frames without rows: with a recipes frame of zero rows
    [generate_insights] raises [AttributeError] at insight 2 (line 137),
    whatever the other frames are, and with a steps frame of zero rows
    it raises [AttributeError] at insight 2 or at insight 8 (line 205).
    The division by the number of recipes at line 224 is never the
    exception of the call: with zero recipes insight 2 has raised
    before. *)
Theorem generate_insights_empty_frames
    (sort_5 : list ((string * Z) * recipe) → list ((string * Z) * recipe))
    (sort_11 : list (recipe * (string * Z)) → list (recipe * (string * Z)))
    (recipes_df : list recipe_row) (interactions_df : list interaction)
    (steps_df : list step) :
  generate_insights sort_5 sort_11 [] interactions_df steps_df
  = Raise AttributeError
  ∧ generate_insights sort_5 sort_11 recipes_df interactions_df []
    = Raise AttributeError
  ∧ generate_insights sort_5 sort_11 recipes_df interactions_df steps_df
    ≠ Raise ZeroDivisionError.
Proof.
  split_and!.
  - reflexivity.
  - unfold generate_insights, insight_2.
    by destruct (mean (rr_prep_time_minutes <$> recipes_df)).
  - unfold generate_insights, insight_2, mean.
    destruct recipes_df as [|r recipes_df]; [discriminate|].
    rewrite !fmap_cons. res_simpl.
    destruct (insight_8 steps_df) as [x|e] eqn:H8; res_simpl.
    + destruct (insight_10_some_recipes (rr_key r :: (rr_key <$> recipes_df))
                  interactions_df ltac:(done)) as (p & a & ->).
      discriminate.
    + unfold insight_8 in H8.
      destruct (mean _) in H8; simpl in H8; [|discriminate H8].
      injection H8 as <-. discriminate.
Qed.

(** *** Insight 10, its range *)

(** When the recipes frame is not empty and every recipe id of a
    COOK_ATTEMPT row is the id of a recipe of the frame, insight 10
    returns, the attempted recipes are at most the recipes, and the
    percentage lies between 0 and 100. *)
Theorem insight_10_range (recipes_df : list recipe)
    (interactions_df : list interaction) :
  recipes_df ≠ [] →
  (∀ i, i ∈ of_type "COOK_ATTEMPT" interactions_df →
        int_recipe_id i = None ∨ int_recipe_id i ∈ rcp_recipe_id <$> recipes_df) →
  ∃ percentage attempted,
    insight_10 recipes_df interactions_df
    = Ok (Finite percentage, attempted, Z.of_nat (length recipes_df))
    ∧ 0 ≤ attempted ≤ Z.of_nat (length recipes_df)
    ∧ (0 <= percentage)%Q ∧ (percentage <= 100)%Q.
Proof.
  intros Hne Hfk. unfold insight_10, py_truediv.
  set (total := Z.of_nat (length recipes_df)).
  set (attempted := nunique (int_recipe_id <$> of_type "COOK_ATTEMPT" interactions_df)).
  assert (Htotal : 0 < total) by (subst total; destruct recipes_df; [done|simpl; lia]).
  assert (Hatt : 0 ≤ attempted ≤ total).
  { subst attempted total. unfold nunique. split; [lia|].
    apply inj_le. rewrite <- (length_fmap Some), <- (length_fmap rcp_recipe_id recipes_df).
    apply submseteq_length, NoDup_submseteq.
    - apply (NoDup_fmap_2 Some), NoDup_remove_dups.
    - intros x (k & -> & Hk)%list_elem_of_fmap.
      rewrite elem_of_remove_dups in Hk.
      apply list_elem_of_omap in Hk as (y & Hy & Hid). unfold id in Hid. subst y.
      apply list_elem_of_fmap in Hy as (i & Hi & Hin).
      destruct (Hfk i Hin) as [Hnone|Hsome]; [congruence|]. by rewrite Hi. }
  destruct (Z.eqb_spec total 0) as [|_]; [lia|]. cbn [mbind result_bind mret result_ret].
  destruct (round2_bounds 0 100 (inject_Z attempted / inject_Z total * 100)%Q)
    as (r & Hr & Hlo & Hhi).
  - apply Qmult_le_0_compat; [|done]. apply Qle_shift_div_l.
    + change 0%Q with (inject_Z 0). rewrite <- Zlt_Qlt. lia.
    + rewrite Qmult_0_l. change 0%Q with (inject_Z 0). rewrite <- Zle_Qle. lia.
  - change (inject_Z 100) with (1 * 100)%Q. apply Qmult_le_compat_r; [|done].
    apply Qle_shift_div_r.
    + change 0%Q with (inject_Z 0). rewrite <- Zlt_Qlt. lia.
    + rewrite Qmult_1_l, <- Zle_Qle. lia.
  - exists r, attempted. rewrite Hr. split_and!; try done; lia.
Qed.

Lemma insight_10_range_witness :
  recipes_example ≠ []
  ∧ (∀ i, i ∈ of_type "COOK_ATTEMPT" [cook "R1"; view "R2"] →
          int_recipe_id i = None
          ∨ int_recipe_id i ∈ rcp_recipe_id <$> recipes_example)
  ∧ ∃ percentage attempted,
      insight_10 recipes_example [cook "R1"; view "R2"]
      = Ok (Finite percentage, attempted, Z.of_nat (length recipes_example))
      ∧ 0 ≤ attempted ≤ Z.of_nat (length recipes_example)
      ∧ (0 <= percentage)%Q ∧ (percentage <= 100)%Q.
Proof.
  assert (H1 : recipes_example ≠ []) by discriminate.
  assert (H2 : ∀ i, i ∈ of_type "COOK_ATTEMPT" [cook "R1"; view "R2"] →
                    int_recipe_id i = None
                    ∨ int_recipe_id i ∈ rcp_recipe_id <$> recipes_example).
  { intros i Hi. right.
    change (of_type "COOK_ATTEMPT" [cook "R1"; view "R2"]) with [cook "R1"] in Hi.
    apply list_elem_of_singleton in Hi as ->. by left. }
  split; [exact H1|]. split; [exact H2|].
  exact (insight_10_range recipes_example [cook "R1"; view "R2"] H1 H2).
Defined.

End InsightsFacts.
